(** * Data-Science-Blog: the cleaning pipeline of [clean_data.py]

    A shallow embedding of [src/clean_data/clean_data.py] and of the part of
    pandas/numpy it relies on, followed by the properties of the pipeline.

    Conventions of the embedding:
    - a pandas [DataFrame] is a header (ordered column names with their dtype)
      and an ordered list of rows, each a row label with a finite map from
      column names to cells;
    - NaN and None are both the null cell [Null]; numbers are exact rationals
      ([Qc]) standing for floats;
    - exceptions are the [Raise] results of an error monad; the tables that
      are mutated in place live in a store of objects addressed by
      references, so that aliasing between caller and callee is visible. *)

From stdpp Require Import gmap strings list fin_maps numbers sorting.
From Stdlib Require Import Ascii QArith Qcanon.

Open Scope string_scope.
Open Scope list_scope.

(** ** Exceptions and results *)

Inductive error := KeyError | IndexError | TypeError | AttributeError | ValueError.

Inductive result (A : Type) :=
  | Ok (a : A)
  | Raise (e : error).
Arguments Ok {A} a.
Arguments Raise {A} e.

Global Instance error_eq_dec : EqDecision error.
Proof. solve_decision. Defined.

Global Instance result_ret : MRet result := fun A a => Ok a.
Global Instance result_bind : MBind result :=
  fun A B f m => match m with Ok a => f a | Raise e => Raise e end.
Global Instance result_fmap : FMap result :=
  fun A B f m => match m with Ok a => Ok (f a) | Raise e => Raise e end.

(** ** Cells, series and data frames *)

(** Row labels (the index of a frame): listing ids. *)
Abbreviation label := Z (only parsing).

(** The two dtype classes [select_dtypes] distinguishes in this code. *)
Inductive dtype := number | object.

Global Instance dtype_eq_dec : EqDecision dtype.
Proof. solve_decision. Defined.

(** A cell of a listings table. *)
Inductive cell :=
  | Null
  | Num (q : Qc)
  | Text (s : string).

Global Instance cell_eq_dec : EqDecision cell.
Proof. solve_decision. Defined.
Global Instance cell_inhabited : Inhabited cell := populate Null.

(** A cell of the table built by [get_df_from_column]: the list of tokens of
    a row, or a Python int (an indicator or a count). *)
Inductive dcell :=
  | Tokens (l : list string)
  | Int (n : Z).

Global Instance dcell_eq_dec : EqDecision dcell.
Proof. solve_decision. Defined.
Global Instance dcell_inhabited : Inhabited dcell := populate (Int 0).

Record Series (C : Type) := mkSeries {
  s_dtype : dtype;
  s_items : list (label * C)
}.
Arguments mkSeries {C} _ _.
Arguments s_dtype {C} _.
Arguments s_items {C} _.

Record DataFrame (C : Type) := mkDataFrame {
  columns : list (string * dtype);
  rows : list (label * gmap string C)
}.
Arguments mkDataFrame {C} _ _.
Arguments columns {C} _.
Arguments rows {C} _.

(** The labels given to [drop], with the axis they are read on. *)
Inductive axis_labels :=
  | RowLabels (ls : list label)
  | ColumnLabels (ls : list string).


Section pandas.
Context {C : Type} `{!Inhabited C}.

Definition s_index (s : Series C) : list label := (s_items s).*1.
Definition s_values (s : Series C) : list C := (s_items s).*2.

(** [df.columns.tolist()] and [df.index.tolist()]. *)
Definition names (df : DataFrame C) : list string := (columns df).*1.
Definition index (df : DataFrame C) : list label := (rows df).*1.

(** [df.shape]. *)
Definition shape (df : DataFrame C) : nat * nat :=
  (length (rows df), length (columns df)).

(** The dtype of the first column of that name. *)
Fixpoint dtype_of (cols : list (string * dtype)) (c : string) : option dtype :=
  match cols with
  | [] => None
  | (c', t) :: cols' => if decide (c' = c) then Some t else dtype_of cols' c
  end.

(** [df[c]]: a missing column is a KeyError. *)
Definition getitem (df : DataFrame C) (c : string) : result (Series C) :=
  match dtype_of (columns df) c with
  | Some t => Ok (mkSeries t (map (fun '(i, r) => (i, r !!! c)) (rows df)))
  | None => Raise KeyError
  end.

(** The rows of [df[c] = s], the values of [s] taken by position (in this
    code [s] is always computed from a column of [df] itself, so that both
    carry the same index); a missing value is the default cell. *)
Fixpoint assign_column (c : string) (rs : list (label * gmap string C))
    (vs : list C) : list (label * gmap string C) :=
  match rs with
  | [] => []
  | (i, r) :: rs' =>
      (i, <[c := hd inhabitant vs]> r) :: assign_column c rs' (tl vs)
  end.

Definition set_dtype (c : string) (t : dtype) (cols : list (string * dtype))
    : list (string * dtype) :=
  map (fun '(c', t') => if decide (c' = c) then (c', t) else (c', t')) cols.

(** [df[c] = s]: overwrites the column when it exists, appends it otherwise. *)
Definition setitem (df : DataFrame C) (c : string) (s : Series C) : DataFrame C :=
  mkDataFrame
    (if decide (c ∈ names df) then set_dtype c (s_dtype s) (columns df)
     else columns df ++ [(c, s_dtype s)])
    (assign_column c (rows df) (s_values s)).

(** [df.drop(labels, axis=1)]: every label must be a column (KeyError). *)
Definition drop_columns (df : DataFrame C) (labels : list string)
    : result (DataFrame C) :=
  if decide (Forall (fun l => l ∈ names df) labels) then
    Ok (mkDataFrame
          (filter (fun p => p.1 ∉ labels) (columns df))
          (map (fun '(i, r) => (i, foldr delete r labels)) (rows df)))
  else Raise KeyError.

(** [df.drop(labels, axis=0)]: every label must be in the index (KeyError);
    all the rows carrying a listed label go. *)
Definition drop_rows (df : DataFrame C) (labels : list label)
    : result (DataFrame C) :=
  if decide (Forall (fun l => l ∈ index df) labels) then
    Ok (mkDataFrame (columns df) (filter (fun p => p.1 ∉ labels) (rows df)))
  else Raise KeyError.

(** [df.drop(labels, axis=axis)]. *)
Definition drop_labels (df : DataFrame C) (ls : axis_labels) : result (DataFrame C) :=
  match ls with
  | RowLabels ls => drop_rows df ls
  | ColumnLabels ls => drop_columns df ls
  end.
End pandas.

(** ** Series of cells: nulls, comparison, counting *)

(** [pd.isna]: NaN and None. *)
Definition isna (c : cell) : bool :=
  match c with Null => true | _ => false end.

(** Python [==] between two cells: a null equals nothing, not even a null. *)
Definition eq_cell (a b : cell) : bool :=
  match a, b with
  | Null, _ | _, Null => false
  | _, _ => bool_decide (a = b)
  end.

(** [l[mask]] on values: the positions where the mask holds. *)
Fixpoint select {A} (l : list A) (mask : list bool) : list A :=
  match l, mask with
  | x :: l', b :: mask' => if b then x :: select l' mask' else select l' mask'
  | _, _ => []
  end.

(** [s[mask]] for a boolean series [mask] over the same index. *)
Definition s_select {C} (s : Series C) (mask : list bool) : Series C :=
  mkSeries (s_dtype s) (select (s_items s) mask).

(** [s.isna()] and [s == v]. *)
Definition s_isna (s : Series cell) : list bool := map isna (s_values s).
Definition s_eq (s : Series cell) (v : cell) : list bool :=
  map (fun x => eq_cell x v) (s_values s).

(** [s.dropna()] on values. *)
Definition dropna (l : list cell) : list cell :=
  filter (fun c => isna c = false) l.

(** Number of occurrences of [v]. *)
Definition count (v : cell) (l : list cell) : nat :=
  length (filter (fun y => y = v) l).

(** The distinct values, in order of first appearance. *)
Fixpoint uniques (l : list cell) : list cell :=
  match l with
  | [] => []
  | x :: l' => x :: filter (fun y => y ≠ x) (uniques l')
  end.

(** Stable sort by decreasing count: [x] goes before the entries of the
    sorted tail (which came after it) that do not beat its count. *)
Fixpoint insert_desc (x : cell * nat) (l : list (cell * nat)) : list (cell * nat) :=
  match l with
  | [] => [x]
  | y :: l' => if decide (y.2 ≤ x.2)%nat then x :: y :: l' else y :: insert_desc x l'
  end.

Definition sort_desc (l : list (cell * nat)) : list (cell * nat) :=
  foldr insert_desc [] l.

(** [s.value_counts()]: nulls dropped, one entry (value, count) per distinct
    value, most frequent first, ties in order of first appearance. The entries
    are the items of the resulting series: the values are its index. *)
Definition value_counts_of (values : list cell) : list (cell * nat) :=
  let l := dropna values in
  sort_desc (map (fun k => (k, count k l)) (uniques l)).

Definition value_counts (s : Series cell) : list (cell * nat) :=
  value_counts_of (s_values s).

(** [vc.index[0]]. *)
Definition index0 (vc : list (cell * nat)) : result cell :=
  match vc with
  | [] => Raise IndexError
  | (v, _) :: _ => Ok v
  end.

(** A Python int as a cell. *)
Definition int_cell (n : nat) : cell := Num (Q2Qc (inject_Z (Z.of_nat n))).

(** [vc[0]] on the series of counts of a column of dtype [t]: the index holds
    the column's values, so on an object index the integer key falls back to
    the position, and on a numeric index it is the label 0. *)
Definition vc_getitem0 (t : dtype) (vc : list (cell * nat)) : result cell :=
  match t with
  | object =>
      match vc with
      | [] => Raise IndexError
      | (_, n) :: _ => Ok (int_cell n)
      end
  | number =>
      match list_find (fun p => p.1 = Num (Q2Qc 0)) vc with
      | Some (_, (_, n)) => Ok (int_cell n)
      | None => Raise KeyError
      end
  end.

(** [s.fillna(v)]: a NaN fill value leaves the nulls as they are; a text
    written into a numeric column turns it into an object column. *)
Definition fillna (s : Series cell) (v : cell) : Series cell :=
  mkSeries
    (match v with
     | Text _ => if existsb isna (s_values s) then object else s_dtype s
     | _ => s_dtype s
     end)
    (map (fun '(i, x) => (i, if isna x then v else x)) (s_items s)).

(** ** numpy statistics *)

(** The floats of a numeric column. *)
Definition numbers (l : list cell) : list Qc :=
  omap (fun c => match c with Num q => Some q | _ => None end) l.

(** [np.median]: NaN on an empty array. *)
Definition np_median (l : list cell) : cell :=
  let s := merge_sort Qcle (numbers l) in
  let n := length s in
  match n with
  | O => Null
  | _ =>
      if Nat.odd n then Num (nth (n / 2) s 0%Qc)
      else Num ((nth (n / 2 - 1) s 0%Qc + nth (n / 2) s 0%Qc) / Q2Qc 2)%Qc
  end.

(** [np.mean]: NaN on an empty array. *)
Definition np_mean (l : list cell) : cell :=
  match numbers l with
  | [] => Null
  | qs => Num (foldr Qcplus 0%Qc qs / Q2Qc (inject_Z (Z.of_nat (length qs))))%Qc
  end.

(** ** Strings *)

(** [s.replace(a, "")] for a one-character [a]. *)
Fixpoint remove_char (a : Ascii.ascii) (s : string) : string :=
  match s with
  | EmptyString => EmptyString
  | String b s' => if decide (b = a) then remove_char a s' else String b (remove_char a s')
  end.

(** [s[1:]]. *)
Definition tail_str (s : string) : string :=
  match s with
  | EmptyString => EmptyString
  | String _ s' => s'
  end.

(** [s.split(",")]: never empty; the empty string gives one empty token. *)
Fixpoint split_comma (s : string) : list string :=
  match s with
  | EmptyString => [EmptyString]
  | String b s' =>
      if decide (b = ","%char) then EmptyString :: split_comma s'
      else match split_comma s' with
           | [] => [String b EmptyString]
           | t :: ts => String b t :: ts
           end
  end.

(** ** Floats of the null-fraction computation *)

(** The quotient of two counts as numpy computes it: [0/0] is NaN and [k/0]
    is infinite; otherwise the exact ratio stands for the float. *)
Inductive float :=
  | NaN
  | PosInf
  | Finite (q : Qc).

Definition divide (k n : nat) : float :=
  match n, k with
  | O, O => NaN
  | O, S _ => PosInf
  | S _, _ => Finite (Q2Qc (Z.of_nat k # Pos.of_nat n))
  end.

(** [x > t]: False on NaN. *)
Definition float_gt (x : float) (t : Qc) : bool :=
  match x with
  | NaN => false
  | PosInf => true
  | Finite q => bool_decide (t < q)%Qc
  end.

(** ** More of pandas, on tables of cells *)

(** [df.isnull().sum(axis=1)]: the nulls of each row, by row label. *)
Definition isnull_sum_rows (df : DataFrame cell) : list (label * nat) :=
  map (fun '(i, r) => (i, length (filter (fun c => isna (r !!! c) = true) (names df))))
      (rows df).

(** [df.isnull().sum(axis=0)]: the nulls of each column, by column name. *)
Definition isnull_sum_columns (df : DataFrame cell) : list (string * nat) :=
  map (fun c => (c, length (filter (fun p => isna (p.2 !!! c) = true) (rows df))))
      (names df).

(** [df.select_dtypes(include=[t])]. *)
Definition select_dtypes (df : DataFrame cell) (t : dtype) : DataFrame cell :=
  mkDataFrame (filter (fun p => p.2 = t) (columns df)) (rows df).

(** [df[cs]] for a list of column names: KeyError when one is missing. *)
Definition getitem_list (df : DataFrame cell) (cs : list string)
    : result (DataFrame cell) :=
  header ← mapM (fun c => match dtype_of (columns df) c with
                          | Some t => Ok (c, t)
                          | None => Raise KeyError
                          end) cs;
  Ok (mkDataFrame header (rows df)).

(** [df.iterrows()]: each row label with the values of the row, in column order. *)
Definition iterrows (df : DataFrame cell) : list (label * list cell) :=
  map (fun '(i, r) => (i, map (fun c => r !!! c) (names df))) (rows df).

(** The dtype of a column after a value was written into it. *)
Definition upcast (t : dtype) (v : cell) : dtype :=
  match v with Text _ => object | _ => t end.

(** [df.loc[i, c] = v]: every row labelled [i] gets [v] in column [c]; a label
    that is not in the index adds a row, a name that is no column adds one. *)
Definition loc_setitem (df : DataFrame cell) (i : label) (c : string) (v : cell)
    : DataFrame cell :=
  mkDataFrame
    (if decide (c ∈ names df)
     then map (fun '(c', t) => if decide (c' = c) then (c', upcast t v) else (c', t)) (columns df)
     else columns df ++ [(c, upcast number v)])
    (if decide (i ∈ index df)
     then map (fun '(j, r) => if decide (j = i) then (j, <[c := v]> r) else (j, r)) (rows df)
     else rows df ++ [(i, {[c := v]})]).

(** [s[mask] = v]. *)
Definition s_setmask (s : Series cell) (mask : list bool) (v : cell) : Series cell :=
  mkSeries
    (if existsb id mask then upcast (s_dtype s) v else s_dtype s)
    (zip_with (fun '(i, x) (b : bool) => (i, if b then v else x)) (s_items s) mask).

(** [df.drop_duplicates()]: a row goes when an earlier row holds the same
    values in every column (two nulls count as the same value); an empty
    frame is returned as it is. *)
Fixpoint keep_first (cs : list string) (seen : list (list cell))
    (rs : list (label * gmap string cell)) : list (label * gmap string cell) :=
  match rs with
  | [] => []
  | (i, r) :: rs' =>
      let v := map (fun c => r !!! c) cs in
      if decide (v ∈ seen) then keep_first cs seen rs'
      else (i, r) :: keep_first cs (v :: seen) rs'
  end.

Definition drop_duplicates (df : DataFrame cell) : DataFrame cell :=
  if decide (columns df = []) then df
  else mkDataFrame (columns df) (keep_first (names df) [] (rows df)).

(** [try: m except e: h] on results. *)
Definition try_result {A} (m : result A) (e : error) (h : result A) : result A :=
  match m with
  | Raise e' => if decide (e' = e) then h else Raise e'
  | Ok a => Ok a
  end.

(** ** The store of tables and its monad *)

Abbreviation ref := nat (only parsing).
Abbreviation store := (list (DataFrame cell)) (only parsing).

Global Instance DataFrame_inhabited : Inhabited (DataFrame cell) :=
  populate (mkDataFrame [] []).

(** A computation runs on a store and leaves a store, with a value or the
    exception it raised. *)
Definition M (A : Type) : Type := store -> store * result A.

Global Instance M_ret : MRet M := fun A a σ => (σ, Ok a).
Global Instance M_bind : MBind M := fun A B f m σ =>
  match m σ with
  | (σ', Ok a) => f a σ'
  | (σ', Raise e) => (σ', Raise e)
  end.

Definition lift {A} (r : result A) : M A := fun σ => (σ, r).
Definition read (r : ref) : M (DataFrame cell) := fun σ => (σ, Ok (σ !!! r)).
Definition write (r : ref) (df : DataFrame cell) : M unit :=
  fun σ => (<[r := df]> σ, Ok tt).
Definition alloc (df : DataFrame cell) : M ref :=
  fun σ => (σ ++ [df], Ok (length σ)).

(** [try: m except e: h]. *)
Definition try_except {A} (m : M A) (e : error) (h : M A) : M A := fun σ =>
  match m σ with
  | (σ', Raise e') => if decide (e' = e) then h σ' else (σ', Raise e')
  | (σ', Ok a) => (σ', Ok a)
  end.

(** [for x in l: body]. *)
Fixpoint for_ {A} (l : list A) (body : A -> M unit) : M unit :=
  match l with
  | [] => mret tt
  | x :: l' => _ ← body x; for_ l' body
  end.

(** [for x in l: acc = body(acc, x)]. *)
Fixpoint for_fold {A B} (l : list A) (body : B -> A -> M B) (acc : B) : M B :=
  match l with
  | [] => mret acc
  | x :: l' => acc' ← body acc x; for_fold l' body acc'
  end.

(** * The functions of [clean_data.py] *)

(** [drop_missing(dataframe, row, threshold)]: a new table without the rows
    (or, by default, the columns) whose share of nulls exceeds the threshold. *)
Definition drop_missing (dataframe : ref) (row : bool) (threshold : Qc) : M ref :=
  df ← read dataframe;
  let to_drop :=
    if row then
      let n := (shape df).2 in
      let to_drop := map (fun '(i, k) => (i, divide k n)) (isnull_sum_rows df) in
      RowLabels (filter (fun p => float_gt p.2 threshold = true) to_drop).*1
    else
      let n := (shape df).1 in
      let to_drop := map (fun '(c, k) => (c, divide k n)) (isnull_sum_columns df) in
      ColumnLabels (filter (fun p => float_gt p.2 threshold = true) to_drop).*1 in
  new ← lift (drop_labels df to_drop);
  alloc new.

(** [money_to_numeric(series)]: [x[1:].replace(",", "")] applied to every
    cell; slicing a float (a number or NaN) is a TypeError. *)
Definition money_to_numeric (series : Series cell) : result (Series cell) :=
  items ← mapM (fun '(i, x) =>
                  match x with
                  | Text s => Ok (i, Text (remove_char ","%char (tail_str s)))
                  | Null | Num _ => Raise TypeError
                  end) (s_items series);
  Ok (mkSeries (match items with [] => s_dtype series | _ => object end) items).

(** [percentage_to_numeric(series)]: [series.str.replace("%", "")]; the
    [.str] accessor exists on object columns only (AttributeError), and gives
    NaN on every cell that is not a string. *)
Definition percentage_to_numeric (series : Series cell) : result (Series cell) :=
  match s_dtype series with
  | number => Raise AttributeError
  | object =>
      Ok (mkSeries object
            (map (fun '(i, x) =>
                    match x with
                    | Text s => (i, Text (remove_char "%"%char s))
                    | Null | Num _ => (i, Null)
                    end) (s_items series)))
  end.

(** [columns_missing_list(dataframe, column_type)]: the columns of that
    dtype holding at least one null. *)
Definition columns_missing_list (dataframe : DataFrame cell) (column_type : dtype)
    : list string :=
  let columns := isnull_sum_columns (select_dtypes dataframe column_type) in
  (filter (fun p => (0 < p.2)%nat) columns).*1.

(** [handle_numeric(dataframe, method)]: in place, every numeric column with
    nulls is filled with its median (or mean); the table itself is returned. *)
Definition handle_numeric (dataframe : ref) (method : string) : M ref :=
  let func := if decide (method = "median") then np_median else np_mean in
  df ← read dataframe;
  let columns := columns_missing_list df number in
  _ ← for_ columns (fun column =>
        df ← read dataframe;
        s ← lift (getitem df column);
        s' ← lift (getitem df column);
        write dataframe
          (setitem df column (fillna s (func (dropna (s_values s'))))));
  mret dataframe.

(** [search_similar_zip(dataframe, column, zipcode)]: the most frequent value
    of the column among the rows of that zipcode, None when there is none. *)
Definition search_similar_zip (dataframe : DataFrame cell) (column : string)
    (zipcode : cell) : result cell :=
  try_result
    (target ← getitem dataframe column;
     zips ← getitem dataframe "zipcode";
     index0 (value_counts (s_select target (s_eq zips zipcode))))
    IndexError (Ok Null).

(** [get_mode_by_zip(dataframe, column)]: in place, for each row whose cell is
    null when the loop starts, in index order. *)
Definition get_mode_by_zip (dataframe : ref) (column : string) : M ref :=
  df ← read dataframe;
  target ← lift (getitem df column);
  let missing := mkDataFrame (columns df) (select (rows df) (s_isna target)) in
  missing ← lift (getitem_list missing [column; "zipcode"]);
  _ ← for_ (iterrows missing) (fun '(i, row) =>
        df ← read dataframe;
        value ← lift (search_similar_zip df column (default Null (row !! 1%nat)));
        write dataframe (loc_setitem df i column value));
  mret dataframe.

(** [get_mode(dataframe, column)]: the column with its nulls filled by
    [value_counts()[0]]. *)
Definition get_mode (dataframe : DataFrame cell) (column : string)
    : result (Series cell) :=
  s ← getitem dataframe column;
  s' ← getitem dataframe column;
  value ← vc_getitem0 (s_dtype s') (value_counts s');
  Ok (fillna s value).

(** [dataframe.drop(dataframe[c][dataframe[c].isna()].index.tolist(), axis=0)],
    the expression [handle_categorical] uses three times. *)
Definition drop_rows_missing (df : DataFrame cell) (c : string)
    : result (DataFrame cell) :=
  s ← getitem df c;
  s' ← getitem df c;
  drop_labels df (RowLabels (s_index (s_select s (s_isna s')))).

(** [handle_categorical(dataframe)]: works on copies of the table. *)
Definition handle_categorical (dataframe : ref) : M ref :=
  df ← read dataframe;
  new ← lift (drop_rows_missing df "zipcode");
  dataframe ← alloc new;
  df ← read dataframe;
  new ← lift (drop_labels df (ColumnLabels ["host_location"; "neighbourhood"]));
  dataframe ← alloc new;
  df ← read dataframe;
  summary ← lift (getitem df "summary");
  summary' ← lift (getitem df "summary");
  _ ← write dataframe
        (setitem df "summary" (s_setmask summary (s_isna summary') (Text "missing")));
  _ ← for_ ["property_type"; "host_response_time"] (fun column =>
        df ← read dataframe;
        s ← lift (get_mode df column);
        write dataframe (setitem df column s));
  dataframe ← for_fold ["market"; "host_neighbourhood"; "city"]
                 get_mode_by_zip dataframe;
  df ← read dataframe;
  new ← lift (drop_rows_missing df "host_neighbourhood");
  dataframe ← alloc new;
  df ← read dataframe;
  new ← lift (drop_rows_missing df "city");
  dataframe ← alloc new;
  mret dataframe.

(** [handle_repetitive_data(dataframe)]: in place. *)
Definition handle_repetitive_data (dataframe : ref) : M ref :=
  let columns_to_drop :=
    ["experiences_offered"; "host_listings_count";
     "neighbourhood_group_cleansed"; "jurisdiction_names"] in
  _ ← for_ columns_to_drop (fun column =>
        try_except
          (df ← read dataframe;
           new ← lift (drop_labels df (ColumnLabels [column]));
           write dataframe new)
          KeyError (mret tt));
  df ← read dataframe;
  _ ← write dataframe (drop_duplicates df);
  mret dataframe.

Section to_numeric.

(** The conversion of a string to a float that [pd.to_numeric] applies; it is
    pandas' own and stays a parameter. *)
Variable str_to_float : string -> option Qc.

(** [pd.to_numeric(series)]: a string that is no number is a ValueError. *)
Definition to_numeric (series : Series cell) : result (Series cell) :=
  items ← mapM (fun '(i, x) =>
                  match x with
                  | Text s =>
                      match str_to_float s with
                      | Some q => Ok (i, Num q)
                      | None => Raise ValueError
                      end
                  | Null | Num _ => Ok (i, x)
                  end) (s_items series);
  Ok (mkSeries number items).

(** [clean_data(dataframe)]. *)
Definition clean_data (dataframe : ref) : M ref :=
  let money_to_numeric_cols := ["price"; "extra_people"] in
  let perc_to_numeric_cols := ["host_response_rate"; "host_acceptance_rate"] in
  _ ← for_ money_to_numeric_cols (fun column =>
        try_except
          (df ← read dataframe;
           s ← lift (getitem df column);
           s ← lift (money_to_numeric s);
           s ← lift (to_numeric s);
           write dataframe (setitem df column s))
          KeyError (mret tt));
  _ ← for_ perc_to_numeric_cols (fun column =>
        try_except
          (df ← read dataframe;
           s ← lift (getitem df column);
           s ← lift (percentage_to_numeric s);
           s ← lift (to_numeric s);
           write dataframe (setitem df column s))
          KeyError (mret tt));
  dataframe ← handle_repetitive_data dataframe;
  dataframe ← handle_numeric dataframe "median";
  dataframe ← handle_categorical dataframe;
  mret dataframe.

End to_numeric.

(** ** The multi-value expander *)

(** [split_by_pattern(string, pattern)]; [pattern] is the effect of
    [re.sub(pattern, "", ·)] on a string. *)
Definition split_by_pattern (str : string) (pattern : string -> string)
    : list string :=
  split_comma (pattern str).

(** Python's order on strings (by code point, here by byte). *)
Definition str_le (a b : string) : Prop := String.leb a b = true.
Global Instance str_le_dec : RelDecision str_le.
Proof. intros a b. unfold str_le. apply _. Defined.

(** [s.apply(f)] on a column of the derived table. *)
Definition s_apply (f : dcell -> result dcell) (s : Series dcell)
    : result (Series dcell) :=
  items ← mapM (fun '(i, x) => y ← f x; Ok (i, y)) (s_items s);
  Ok (mkSeries (s_dtype s) items).

(** [int(value in x)]: membership in a list of tokens; an int is not
    iterable (TypeError). *)
Definition contains (value : string) (x : dcell) : result dcell :=
  match x with
  | Tokens l => Ok (Int (if decide (value ∈ l) then 1 else 0))
  | Int _ => Raise TypeError
  end.

(** [len(x)]. *)
Definition len (x : dcell) : result dcell :=
  match x with
  | Tokens l => Ok (Int (Z.of_nat (length l)))
  | Int _ => Raise TypeError
  end.

(** The tokens of every row, chained. *)
Definition chain_tokens (l : list dcell) : list string :=
  concat (map (fun x => match x with Tokens t => t | Int _ => [] end) l).

(** [get_df_from_column(dataframe, column, pattern)]: the table of the parsed
    column, one indicator column per token and the count column; for
    "amenities" the placeholder columns are dropped at the end. The table is
    built and updated locally and then returned. *)
Definition get_df_from_column (dataframe : DataFrame cell) (column : string)
    (pattern : string -> string) : result (DataFrame dcell) :=
  s ← getitem dataframe column;
  items ← mapM (fun '(i, x) =>
                  match x with
                  | Text str => Ok (i, Tokens (split_by_pattern str pattern))
                  | Null | Num _ => Raise TypeError
                  end) (s_items s);
  let df_column :=
    mkDataFrame [(column, object)] (map (fun '(i, x) => (i, {[column := x]})) items) in
  lists ← getitem df_column column;
  let values_set := merge_sort str_le (remove_dups (chain_tokens (s_values lists))) in
  df_column ← foldl (fun acc value =>
                       df_column ← acc;
                       s ← getitem df_column column;
                       s ← s_apply (contains value) s;
                       Ok (setitem df_column value (mkSeries number (s_items s))))
                    (Ok df_column) values_set;
  s ← getitem df_column column;
  s ← s_apply len s;
  let df_column :=
    setitem df_column (String.append "number_of_" column) (mkSeries number (s_items s)) in
  if decide (column = "amenities") then
    let column_to_drop :=
      [EmptyString;
       "translation missing: en.hosting_amenity_49";
       "translation missing: en.hosting_amenity_50"] in
    try_result (drop_labels df_column (ColumnLabels column_to_drop))
      KeyError (drop_labels df_column (ColumnLabels (take 1 column_to_drop)))
  else Ok df_column.

(** ** Aligning two tables *)

(** [align_dataframes(df1, df2)]: in place on [df2], the columns that [df1]
    does not have are dropped; [df2] itself is returned. *)
Definition align_dataframes (df1 df2 : ref) : M ref :=
  d1 ← read df1;
  d2 ← read df2;
  let columns_diff : gset string :=
    list_to_set (names d2) ∖ list_to_set (names d1) in
  new ← lift (drop_labels d2 (ColumnLabels (elements columns_diff)));
  _ ← write df2 new;
  mret df2.

(** * Vocabulary of the properties, and example tables *)

Definition row_of (l : list (string * cell)) : gmap string cell := list_to_map l.

(** A table as a list of rows of cells, in column order. *)
Definition to_lists {C} `{!Inhabited C} (df : DataFrame C) : list (label * list C) :=
  map (fun '(i, r) => (i, map (fun c => r !!! c) (names df))) (rows df).



(** The state of the table after one column was imputed. *)
Definition impute_column (func : list cell -> cell) (df : DataFrame cell)
    (column : string) : DataFrame cell :=
  match getitem df column with
  | Ok s => setitem df column (fillna s (func (dropna (s_values s))))
  | Raise _ => df
  end.

(** The first entry of a sorted list of counts carries the largest count. *)
Definition head_max (l : list (cell * nat)) : Prop :=
  match l with
  | [] => True
  | x :: t => forall y, y ∈ t -> (y.2 <= x.2)%nat
  end.

(** [value_counts().index[0]] with the fallback of [search_similar_zip]: the
    most frequent value, None when every value is null. *)
Definition most_frequent (l : list cell) : cell :=
  match value_counts_of l with
  | [] => Null
  | (v, _) :: _ => v
  end.

(** The values of a column in the rows of one zipcode: what
    [dataframe[column][dataframe["zipcode"] == zipcode]] holds. *)
Definition zip_group (rs : list (label * gmap string cell)) (column : string)
    (zipcode : cell) : list cell :=
  map (fun p => p.2 !!! column)
      (filter (fun p => eq_cell (p.2 !!! "zipcode") zipcode = true) rs).

(** The rows after [dataframe.loc[i, column] = v], for a label of the index. *)
Definition assign (rs : list (label * gmap string cell)) (i : label)
    (column : string) (v : cell) : list (label * gmap string cell) :=
  map (fun '(j, r) => if decide (j = i) then (j, <[column := v]> r) else (j, r)) rs.

(** The loop of [get_mode_by_zip] on the rows: the pending entries are the
    label and zipcode of the rows whose cell was null when the loop started. *)
Definition impute_rows (column : string) (rs : list (label * gmap string cell))
    (pending : list (label * cell)) : list (label * gmap string cell) :=
  foldl (fun rs p => assign rs p.1 column (most_frequent (zip_group rs column p.2)))
        rs pending.

(** One iteration of the loop of [get_mode_by_zip] on the table. *)
Definition impute_step (column : string) (df : DataFrame cell)
    (x : label * list cell) : DataFrame cell :=
  loc_setitem df x.1 column
    (most_frequent (zip_group (rows df) column (default Null (x.2 !! 1%nat)))).

(** The non-null values the column holds in the other rows of a zipcode:
    the peers of the row at position [p]. *)
Definition peer_values (df : DataFrame cell) (column : string) (p : nat)
    (zipcode : cell) : list cell :=
  dropna (zip_group (take p (rows df) ++ drop (S p) (rows df)) column zipcode).

(** What a successful run of [handle_categorical] returns. *)
Definition categorical_result (df df' : DataFrame cell) : Prop :=
  (forall c, c ∈ ["host_location"; "neighbourhood"] -> c ∈ names df /\ c ∉ names df') /\
  (forall c, c ∈ names df' -> c ∈ names df) /\
  forall i r, (i, r) ∈ rows df' ->
    isna (r !!! "host_neighbourhood") = false /\ isna (r !!! "city") = false.

Ltac raise_here :=
  repeat match goal with x := _ |- _ => subst x end;
  eexists _, (Raise _);
  split; [first [by rewrite <- ?app_assoc | by rewrite app_nil_r]|done].

(** A conversion that reads plain decimal numbers ("-12", "1234.50"), to run
    the pipeline on examples. *)
Definition digit (a : Ascii.ascii) : option N :=
  let n := N_of_ascii a in
  if ((48 <=? n) && (n <=? 57))%N then Some (n - 48)%N else None.

Fixpoint digits (s : string) (acc : N * N) : option (N * N) :=
  match s with
  | EmptyString => Some acc
  | String a s' =>
      match digit a with
      | Some d => digits s' (10 * acc.1 + d, 10 * acc.2)%N
      | None => None
      end
  end.

Fixpoint split_dot (s : string) : string * option string :=
  match s with
  | EmptyString => (EmptyString, None)
  | String a s' =>
      if decide (a = "."%char) then (EmptyString, Some s')
      else let '(i, f) := split_dot s' in (String a i, f)
  end.

Definition parse_decimal (s : string) : option Qc :=
  let '(neg, body) :=
    match s with
    | String a s' => if decide (a = "-"%char) then (true, s') else (false, s)
    | EmptyString => (false, s)
    end in
  let '(i, f) := split_dot body in
  match digits i (0, 1)%N, digits (default EmptyString f) (0, 1)%N with
  | Some (n, p), Some (m, q) =>
      if decide (p = 1 /\ q = 1)%N then None
      else
        let z := Z.of_N (n * q + m) in
        Some (Q2Qc ((if neg : bool then - z else z)%Z # Pos.of_nat (N.to_nat q)))
  | _, _ => None
  end.

(** Rows of one zipcode with markets A, A, null, B, and a row alone in its
    zipcode, without a market. *)
Definition markets_by_zip : DataFrame cell :=
  mkDataFrame [("zipcode", object); ("market", object)]
    [ (1%Z, row_of [("zipcode", Text "90210"); ("market", Text "A")]);
      (2%Z, row_of [("zipcode", Text "90210"); ("market", Text "A")]);
      (3%Z, row_of [("zipcode", Text "90210"); ("market", Null)]);
      (4%Z, row_of [("zipcode", Text "90210"); ("market", Text "B")]);
      (5%Z, row_of [("zipcode", Text "10001"); ("market", Null)]) ].

Ltac by_decide :=
  match goal with |- ?P => apply (@bool_decide_unpack P _) end; vm_compute; exact I.

(** A column of property types A, A, null, B. *)
Definition property_types : DataFrame cell :=
  mkDataFrame [("property_type", object)]
    [ (1%Z, row_of [("property_type", Text "A")]);
      (2%Z, row_of [("property_type", Text "A")]);
      (3%Z, row_of [("property_type", Null)]);
      (4%Z, row_of [("property_type", Text "B")]) ].

(** A numeric column that is entirely null, beside one that is not. *)
Definition all_null_bathrooms : DataFrame cell :=
  mkDataFrame [("bathrooms", number); ("beds", number)]
    [ (1%Z, row_of [("bathrooms", Null); ("beds", Num (Q2Qc 1))]);
      (2%Z, row_of [("bathrooms", Null); ("beds", Null)]);
      (3%Z, row_of [("bathrooms", Null); ("beds", Num (Q2Qc 3))]);
      (4%Z, row_of [("bathrooms", Null); ("beds", Num (Q2Qc 5))]) ].

(** A price column and a rate column, each with a null. *)
Definition prices : Series cell :=
  mkSeries object [(1%Z, Text "$1,234.50"); (2%Z, Null)].
Definition rates : Series cell :=
  mkSeries object [(1%Z, Text "95%"); (2%Z, Null)].
Definition price_with_null : DataFrame cell :=
  mkDataFrame [("price", object)]
    [ (1%Z, row_of [("price", Text "$1,234.50")]); (2%Z, row_of [("price", Null)]) ].

(** [re.sub] with a pattern that removes braces and double quotes. *)
Definition strip_braces (s : string) : string :=
  remove_char "{"%char (remove_char "}"%char (remove_char (ascii_of_nat 34) s)).

(** One listing with a placeholder amenity, one without amenities (its list
    is the empty token). *)
Definition amenities_one_placeholder : DataFrame cell :=
  mkDataFrame [("amenities", object)]
    [ (1%Z, row_of [("amenities",
                     Text "{TV,translation missing: en.hosting_amenity_49}")]);
      (2%Z, row_of [("amenities", Text "{}")]) ].

(** Listings that all have amenities: no empty token. *)
Definition amenities_no_empty_token : DataFrame cell :=
  mkDataFrame [("amenities", object)]
    [ (1%Z, row_of [("amenities",
                     Text "{TV,translation missing: en.hosting_amenity_49}")]);
      (2%Z, row_of [("amenities", Text "{TV,Wifi}")]) ].

(** The specification's example of the expander: rows "a,b" and "b,c". *)
Definition letters : DataFrame cell :=
  mkDataFrame [("letters", object)]
    [ (1%Z, row_of [("letters", Text "a,b")]); (2%Z, row_of [("letters", Text "b,c")]) ].

(** A raw table on which the pipeline succeeds. *)
Definition raw_listings : DataFrame cell :=
  mkDataFrame
    [("zipcode", object); ("host_location", object); ("neighbourhood", object);
     ("summary", object); ("property_type", object); ("host_response_time", object);
     ("market", object); ("host_neighbourhood", object); ("city", object)]
    [ (1%Z, row_of [("zipcode", Text "02108"); ("host_location", Text "Boston");
                    ("neighbourhood", Text "Beacon Hill"); ("summary", Text "Nice");
                    ("property_type", Text "Apartment");
                    ("host_response_time", Text "within an hour");
                    ("market", Text "Boston"); ("host_neighbourhood", Text "Beacon Hill");
                    ("city", Text "Boston")]);
      (2%Z, row_of [("zipcode", Text "02108"); ("host_location", Null);
                    ("neighbourhood", Null); ("summary", Null);
                    ("property_type", Null);
                    ("host_response_time", Text "within an hour");
                    ("market", Null); ("host_neighbourhood", Null);
                    ("city", Text "Boston")]);
      (3%Z, row_of [("zipcode", Text "02139"); ("host_location", Text "Cambridge");
                    ("neighbourhood", Null); ("summary", Text "Quiet");
                    ("property_type", Text "House");
                    ("host_response_time", Null);
                    ("market", Text "Boston"); ("host_neighbourhood", Null);
                    ("city", Text "Cambridge")]) ].

(** A raw table without a zipcode column: [handle_categorical] raises. *)
Definition listings_without_zipcode : DataFrame cell :=
  mkDataFrame [("price", object); ("experiences_offered", object)]
    [ (1%Z, row_of [("price", Text "$1,200.00"); ("experiences_offered", Text "none")]);
      (2%Z, row_of [("price", Text "$1,200.00"); ("experiences_offered", Text "none")]) ].

(** ** Vocabulary of the further properties *)

(** The labels [drop_missing] hands to [drop], as the source computes them. *)
Definition rows_to_drop (df : DataFrame cell) (threshold : Qc) : list label :=
  (filter (fun p => float_gt p.2 threshold = true)
     (map (fun '(i, k) => (i, divide k (shape df).2)) (isnull_sum_rows df))).*1.

Definition columns_to_drop (df : DataFrame cell) (threshold : Qc) : list string :=
  (filter (fun p => float_gt p.2 threshold = true)
     (map (fun '(c, k) => (c, divide k (shape df).1)) (isnull_sum_columns df))).*1.

(** The table [drop_missing] builds. *)
Definition pruned (df : DataFrame cell) (row : bool) (threshold : Qc) : DataFrame cell :=
  if row then
    mkDataFrame (columns df)
      (filter (fun p => p.1 ∉ rows_to_drop df threshold) (rows df))
  else
    mkDataFrame
      (filter (fun p => p.1 ∉ columns_to_drop df threshold) (columns df))
      (map (fun '(i, r) => (i, foldr delete r (columns_to_drop df threshold))) (rows df)).

(** [try: dataframe.drop(column, inplace=True, axis=1) except KeyError: pass]
    on the table. *)
Definition drop_if_present (df : DataFrame cell) (column : string) : DataFrame cell :=
  match drop_labels df (ColumnLabels [column]) with
  | Ok new => new
  | Raise _ => df
  end.

(** The columns [handle_repetitive_data] removes. *)
Definition redundant_columns : list string :=
  ["experiences_offered"; "host_listings_count";
   "neighbourhood_group_cleansed"; "jurisdiction_names"].


(** The values of a column, and the statistic [handle_numeric] fills it with. *)
Definition column_values (df : DataFrame cell) (c : string) : list cell :=
  map (fun p => p.2 !!! c) (rows df).

Definition statistic (func : list cell -> cell) (df : DataFrame cell) (c : string)
    : cell :=
  func (dropna (column_values df c)).

(** A cell after the columns [l] were imputed. *)
Definition imputed_cell (func : list cell -> cell) (df : DataFrame cell)
    (l : list string) (r : gmap string cell) (c : string) : cell :=
  if decide (c ∈ l) then
    if isna (r !!! c) then statistic func df c else r !!! c
  else r !!! c.

(** The tokens of a cell, and the sorted distinct tokens of a column: the
    names of the indicator columns. *)
Definition tokens_of (pattern : string -> string) (c : cell) : list string :=
  match c with
  | Text s => split_by_pattern s pattern
  | Null | Num _ => []
  end.

Definition all_tokens (df : DataFrame cell) (column : string)
    (pattern : string -> string) : list string :=
  merge_sort str_le
    (remove_dups (concat (map (fun p => tokens_of pattern (p.2 !!! column)) (rows df)))).

Definition indicator (value : string) (tokens : list string) : dcell :=
  Int (if decide (value ∈ tokens) then 1 else 0).

(** The table while the indicator columns are added: the tokens column
    first, then one column per value handled so far. *)
Definition expanded (column : string) (base : list (label * list string))
    (vs : list string) (d : DataFrame dcell) : Prop :=
  names d = column :: vs /\
  exists f : list string -> gmap string dcell,
    rows d = map (fun q => (q.1, f q.2)) base /\
    forall x, f x !!! column = Tokens x /\
              forall v, v ∈ vs -> f x !!! v = indicator v x.

(** [",".join(l)]. *)
Fixpoint join_comma (l : list string) : string :=
  match l with
  | [] => EmptyString
  | t :: l' =>
      match l' with
      | [] => t
      | _ :: _ => String.append t (String ","%char (join_comma l'))
      end
  end.

(** Every row of [d'] comes from a row of [d] with the same label, the two
    related by [P]. *)
Definition rows_rel (P : gmap string cell -> gmap string cell -> Prop)
    (d d' : DataFrame cell) : Prop :=
  forall i r', (i, r') ∈ rows d' -> exists r, (i, r) ∈ rows d /\ P r r'.

(** What a successful run of [handle_categorical] returns, in full. *)
Definition categorical_full (df df' : DataFrame cell) : Prop :=
  names df' = filter (fun c => c ∉ ["host_location"; "neighbourhood"]) (names df) /\
  forall i r', (i, r') ∈ rows df' ->
    (forall c, c ∈ ["zipcode"; "summary"; "property_type"; "host_response_time";
                    "host_neighbourhood"; "city"] ->
               isna (r' !!! c) = false) /\
    exists r,
      (i, r) ∈ rows df /\
      isna (r !!! "zipcode") = false /\
      r' !!! "summary" =
        (if isna (r !!! "summary") then Text "missing" else r !!! "summary") /\
      (forall c, c ∈ ["property_type"; "host_response_time"] ->
                 isna (r !!! c) = false -> r' !!! c = r !!! c) /\
      forall c, c ∉ ["host_location"; "neighbourhood"; "summary"; "property_type";
                     "host_response_time"; "market"; "host_neighbourhood"; "city"] ->
                r' !!! c = r !!! c.

(** The columns [handle_categorical] reads. *)
Definition categorical_columns : list string :=
  ["zipcode"; "host_location"; "neighbourhood"; "summary"; "property_type";
   "host_response_time"; "market"; "host_neighbourhood"; "city"].

(** A table that has lost all its rows. *)
Definition no_listings : DataFrame cell :=
  mkDataFrame [("price", object); ("beds", number)] [].

(** A price column without nulls. *)
Definition clean_prices : Series cell :=
  mkSeries object [(1%Z, Text "$1,234.50"); (2%Z, Text "$80.00")].


(** A column of property types without any value. *)
Definition no_property_types : DataFrame cell :=
  mkDataFrame [("property_type", object)]
    [ (1%Z, row_of [("property_type", Null)]);
      (2%Z, row_of [("property_type", Null)]) ].

(** * Properties *)

(** ** Lists and frames *)

Lemma filter_ext_in {A} (P Q : A -> Prop) `{!forall x, Decision (P x)}
    `{!forall x, Decision (Q x)} (l : list A) :
  (forall x, x ∈ l -> P x <-> Q x) -> filter P l = filter Q l.
Proof.
  induction l as [|x l IH]; intros Hext; [done|].
  rewrite !filter_cons.
  assert (Hx : P x <-> Q x) by (apply Hext; left).
  rewrite IH by (intros y Hy; apply Hext; by right).
  destruct (decide (P x)), (decide (Q x)); tauto.
Qed.

Lemma NoDup_fst_inj {A B} (l : list (A * B)) i x y :
  NoDup (l.*1) -> (i, x) ∈ l -> (i, y) ∈ l -> x = y.
Proof.
  induction l as [|[j z] l IH]; simpl; intros Hnd Hx Hy.
  - by apply elem_of_nil in Hx.
  - apply NoDup_cons in Hnd as [Hj Hnd].
    apply elem_of_cons in Hx as [Hx|Hx]; apply elem_of_cons in Hy as [Hy|Hy].
    + congruence.
    + inversion Hx; subst. destruct Hj. apply list_elem_of_fmap. by exists (j, y).
    + inversion Hy; subst. destruct Hj. apply list_elem_of_fmap. by exists (j, x).
    + by apply IH.
Qed.

Lemma foldr_delete_lookup_total {C} `{!Inhabited C} (r : gmap string C)
    (ls : list string) (c : string) :
  c ∉ ls -> foldr delete r ls !!! c = r !!! c.
Proof.
  induction ls as [|l ls IH]; intros Hc; [done|].
  simpl. apply not_elem_of_cons in Hc as [Hne Hc].
  rewrite lookup_total_delete_ne by done. by apply IH.
Qed.

(** ** The store monad *)

Lemma bind_run {A B} (m : M A) (f : A -> M B) σ :
  (m ≫= f) σ = match m σ with
               | (σ', Ok a) => f a σ'
               | (σ', Raise e) => (σ', Raise e)
               end.
Proof. reflexivity. Qed.

Lemma read_run r σ : read r σ = (σ, Ok (σ !!! r)).
Proof. reflexivity. Qed.

Lemma lookup_total_store (σ : store) r df : σ !! r = Some df -> σ !!! r = df.
Proof. apply list_lookup_total_correct. Qed.

(** ** The threshold pruner *)



Lemma isnull_sum_rows_fst (df : DataFrame cell) : (isnull_sum_rows df).*1 = index df.
Proof.
  unfold isnull_sum_rows, index. rewrite <- list_fmap_compose.
  apply list_fmap_ext. by intros ? [i r].
Qed.

Lemma isnull_sum_columns_fst (df : DataFrame cell) : (isnull_sum_columns df).*1 = names df.
Proof.
  unfold isnull_sum_columns. rewrite <- list_fmap_compose.
  etrans; [|apply list_fmap_id]. by apply list_fmap_ext.
Qed.

Lemma filter_divide_subseteq {A} (l : list (A * nat)) (f : A * float -> Prop)
    `{!forall p, Decision (f p)} n x :
  x ∈ (filter f (map (fun '(i, k) => (i, divide k n)) l)).*1 -> x ∈ l.*1.
Proof.
  intros Hx. apply list_elem_of_fmap in Hx as [[j y] [-> Hj]].
  apply list_elem_of_filter in Hj as [_ Hj].
  apply list_elem_of_fmap in Hj as [[j' k] [Heq Hj]]. inversion Heq; subst.
  apply list_elem_of_fmap. by exists (j', k).
Qed.


Lemma drop_missing_run σ dataframe row threshold :
  exists new, drop_missing dataframe row threshold σ = (σ ++ [new], Ok (length σ)).
Proof.
  unfold drop_missing. rewrite bind_run, read_run. cbv zeta.
  rewrite bind_run. unfold lift, drop_labels. destruct row.
  - unfold drop_rows. rewrite decide_True; [by eexists|].
    apply Forall_forall. intros i Hi. rewrite <- isnull_sum_rows_fst.
    by eapply filter_divide_subseteq.
  - unfold drop_columns. rewrite decide_True; [by eexists|].
    apply Forall_forall. intros i Hi. rewrite <- isnull_sum_columns_fst.
    by eapply filter_divide_subseteq.
Qed.


(** C10. [drop_missing] never writes to an existing table: it appends one new
    table to the store and returns the reference of that new table, so every
    table that existed before, the argument among them, reads as before. *)
Theorem drop_missing_input_unchanged σ dataframe row threshold :
  exists new,
    drop_missing dataframe row threshold σ = (σ ++ [new], Ok (length σ)) /\
    forall r, (r < length σ)%nat -> (σ ++ [new]) !! r = σ !! r.
Proof.
  destruct (drop_missing_run σ dataframe row threshold) as [new Hrun].
  exists new. split; [done|]. intros r Hr. by apply lookup_app_l.
Qed.

(** ** Running the primitives of the store monad *)

Lemma bind_lift_Ok {A B} (a : A) (f : A -> M B) σ : (lift (Ok a) ≫= f) σ = f a σ.
Proof. reflexivity. Qed.

Lemma bind_lift_Raise {A B} e (f : A -> M B) σ :
  (lift (Raise e) ≫= f) σ = (σ, Raise e).
Proof. reflexivity. Qed.

Lemma bind_read {B} r (f : DataFrame cell -> M B) σ df :
  σ !! r = Some df -> (read r ≫= f) σ = f df σ.
Proof. intros H. rewrite bind_run, read_run. by rewrite (lookup_total_store _ _ _ H). Qed.

Lemma bind_write {B} r df (f : unit -> M B) σ :
  (write r df ≫= f) σ = f tt (<[r := df]> σ).
Proof. reflexivity. Qed.

Lemma bind_alloc {B} df (f : ref -> M B) σ :
  (alloc df ≫= f) σ = f (length σ) (σ ++ [df]).
Proof. reflexivity. Qed.

Lemma ret_run {A} (a : A) σ : (mret a : M A) σ = (σ, Ok a).
Proof. reflexivity. Qed.

Lemma write_run r df σ : write r df σ = (<[r := df]> σ, Ok tt).
Proof. reflexivity. Qed.

(** ** Columns of a frame *)

Section frame_lemmas.
Context {C : Type} `{!Inhabited C}.
Implicit Types (df : DataFrame C) (c : string).

Lemma dtype_of_Some cols c t : dtype_of cols c = Some t -> c ∈ cols.*1.
Proof.
  induction cols as [|[c' t'] cols IH]; simpl; [done|].
  case_decide; [intros _; subst; left | intros H'; right; auto].
Qed.

Lemma dtype_of_None cols c : dtype_of cols c = None -> c ∉ cols.*1.
Proof.
  induction cols as [|[c' t'] cols IH]; simpl; [intros _; apply not_elem_of_nil|].
  case_decide; [done|]. intros H'. apply not_elem_of_cons. split; [done|auto].
Qed.

Lemma dtype_of_is_Some cols c : c ∈ cols.*1 -> is_Some (dtype_of cols c).
Proof.
  intros Hc. destruct (dtype_of cols c) eqn:E; [by eexists|].
  by apply dtype_of_None in E.
Qed.

Lemma getitem_Ok df c s :
  getitem df c = Ok s ->
  c ∈ names df /\
  s_items s = map (fun p => (p.1, p.2 !!! c)) (rows df) /\
  dtype_of (columns df) c = Some (s_dtype s).
Proof.
  unfold getitem. destruct (dtype_of (columns df) c) as [t|] eqn:E; [|done].
  intros [= <-]. split; [by eapply dtype_of_Some|]. split; [|done].
  simpl. apply list_fmap_ext. by intros ? [i r].
Qed.

Lemma getitem_in df c :
  c ∈ names df ->
  exists t, dtype_of (columns df) c = Some t /\
    getitem df c = Ok (mkSeries t (map (fun p => (p.1, p.2 !!! c)) (rows df))).
Proof.
  intros Hc. destruct (dtype_of_is_Some _ _ Hc) as [t Ht]. exists t.
  split; [done|]. unfold getitem. rewrite Ht. do 2 f_equal.
  apply list_fmap_ext. by intros ? [i r].
Qed.

Lemma set_dtype_fst c t cols : (set_dtype c t cols).*1 = cols.*1.
Proof.
  unfold set_dtype. rewrite <- list_fmap_compose. apply list_fmap_ext.
  intros ? [c' t'] _. simpl. by case_decide.
Qed.

Lemma dtype_of_set_dtype c t cols c' :
  dtype_of (set_dtype c t cols) c' =
    if decide (c' = c)
    then match dtype_of cols c' with Some _ => Some t | None => None end
    else dtype_of cols c'.
Proof.
  induction cols as [|[c0 t0] cols IH]; simpl; [by case_decide|].
  destruct (decide (c0 = c)) as [->|Hne]; simpl.
  - destruct (decide (c = c')) as [->|Hne']; [by rewrite decide_True|].
    rewrite IH. by rewrite (decide_False (P := c' = c)).
  - destruct (decide (c0 = c')) as [->|Hne'].
    + by rewrite decide_False.
    + done.
Qed.

Lemma names_setitem df c s : c ∈ names df -> names (setitem df c s) = names df.
Proof.
  intros Hc. unfold setitem, names at 1. simpl. rewrite decide_True by done.
  apply set_dtype_fst.
Qed.

Lemma assign_column_map c (rs : list (label * gmap string C)) (f : label * gmap string C -> C) :
  assign_column c rs (map f rs) = map (fun p => (p.1, <[c := f p]> p.2)) rs.
Proof.
  induction rs as [|[i r] rs IH]; [done|]. simpl. by rewrite IH.
Qed.

Lemma assign_column_fst c (rs : list (label * gmap string C)) vs :
  (assign_column c rs vs).*1 = rs.*1.
Proof.
  revert vs. induction rs as [|[i r] rs IH]; intros vs; [done|].
  simpl. by rewrite IH.
Qed.

Lemma index_setitem df c s : index (setitem df c s) = index df.
Proof. apply assign_column_fst. Qed.

End frame_lemmas.

(** ** Loops that update one table in place and never raise *)

Lemma for_in_place {A} (l : list A) (body : A -> M unit) (r : ref)
    (step : DataFrame cell -> A -> DataFrame cell) (I : DataFrame cell -> Prop) :
  (forall x df σ, x ∈ l -> I df -> σ !! r = Some df ->
     body x σ = (<[r := step df x]> σ, Ok tt) /\ I (step df x)) ->
  forall df σ, I df -> σ !! r = Some df ->
    for_ l body σ = (<[r := foldl step df l]> σ, Ok tt) /\ I (foldl step df l).
Proof.
  induction l as [|x l IH]; intros Hbody df σ HI Hσ; simpl.
  - split; [|done]. unfold mret, M_ret. by rewrite list_insert_id.
  - destruct (Hbody x df σ) as [Hrun HI']; [by left|done|done|].
    rewrite bind_run, Hrun.
    destruct (IH (fun y d s Hy => Hbody y d s (list_elem_of_further _ _ _ Hy))
                (step df x) (<[r := step df x]> σ) HI') as [Hrun' HI''].
    { apply list_lookup_insert_eq. by eapply lookup_lt_Some. }
    rewrite Hrun'. split; [|done]. by rewrite list_insert_insert_eq.
Qed.

(** ** The numeric imputer *)

Lemma s_values_getitem (df : DataFrame cell) c s :
  getitem df c = Ok s -> s_values s = map (fun p => p.2 !!! c) (rows df).
Proof.
  intros (_ & Hitems & _)%getitem_Ok. unfold s_values. rewrite Hitems.
  by rewrite <- list_fmap_compose.
Qed.

Lemma rows_setitem_fillna (df : DataFrame cell) c s v :
  getitem df c = Ok s ->
  rows (setitem df c (fillna s v)) =
    map (fun p => (p.1, <[c := if isna (p.2 !!! c) then v else p.2 !!! c]> p.2))
        (rows df).
Proof.
  intros (_ & Hitems & _)%getitem_Ok. unfold setitem. simpl.
  rewrite <- (assign_column_map c (rows df)
                (fun p => if isna (p.2 !!! c) then v else p.2 !!! c)).
  f_equal. unfold s_values, fillna. simpl. rewrite Hitems.
  rewrite <- !list_fmap_compose. by apply list_fmap_ext.
Qed.

Lemma dropna_all_null l : Forall (fun x => x = Null) l -> dropna l = [].
Proof.
  induction 1 as [|x l -> _ IH]; [done|]. unfold dropna in *.
  rewrite filter_cons. by case_decide.
Qed.

Lemma columns_missing_list_names (df : DataFrame cell) t x :
  x ∈ columns_missing_list df t -> x ∈ names df.
Proof.
  unfold columns_missing_list. intros Hx.
  apply list_elem_of_fmap in Hx as [[c k] [-> Hx]].
  apply list_elem_of_filter in Hx as [_ Hx]. unfold isnull_sum_columns in Hx.
  apply list_elem_of_fmap in Hx as [c' [[= <- _] Hc]].
  unfold names, select_dtypes in Hc. simpl in Hc.
  apply list_elem_of_fmap in Hc as [[c0 t0] [-> Hc]].
  apply list_elem_of_filter in Hc as [_ Hc].
  apply list_elem_of_fmap. by exists (c0, t0).
Qed.

Lemma handle_numeric_run σ dataframe df method :
  σ !! dataframe = Some df ->
  handle_numeric dataframe method σ =
    (<[dataframe :=
         foldl (impute_column (if decide (method = "median") then np_median else np_mean))
           df (columns_missing_list df number)]> σ,
     Ok dataframe).
Proof.
  intros Hσ. unfold handle_numeric. cbv zeta.
  rewrite (bind_read _ _ _ _ Hσ), bind_run.
  set (func := if decide (method = "median") then np_median else np_mean).
  destruct (for_in_place (columns_missing_list df number)
              (fun column => df0 ← read dataframe; s ← lift (getitem df0 column);
                 s' ← lift (getitem df0 column);
                 write dataframe
                   (setitem df0 column (fillna s (func (dropna (s_values s'))))))
              dataframe (impute_column func)
              (fun d => names d = names df)) with df σ as [Hrun _]; try done.
  - intros x d σ' Hx Hd Hσ'.
    apply columns_missing_list_names in Hx. rewrite <- Hd in Hx.
    destruct (getitem_in d x Hx) as (t & Ht & Hget).
    rewrite (bind_read _ _ _ _ Hσ'), Hget, !bind_lift_Ok, write_run.
    unfold impute_column. rewrite Hget. split; [done|].
    by rewrite names_setitem.
  - by rewrite Hrun.
Qed.

Lemma impute_column_all_null func (df : DataFrame cell) x c :
  func [] = Null ->
  dtype_of (columns df) c = Some number ->
  (forall i r, (i, r) ∈ rows df -> r !!! c = Null) ->
  dtype_of (columns (impute_column func df x)) c = Some number /\
  index (impute_column func df x) = index df /\
  (forall i r, (i, r) ∈ rows (impute_column func df x) -> r !!! c = Null).
Proof.
  intros Hfunc Ht Hnull. unfold impute_column.
  destruct (getitem df x) as [s|e] eqn:Hget; [|done].
  pose proof (getitem_Ok _ _ _ Hget) as (Hx & Hitems & Hdt).
  assert (Hv : c = x -> func (dropna (s_values s)) = Null).
  { intros ->. rewrite dropna_all_null; [done|].
    rewrite (s_values_getitem _ _ _ Hget). apply Forall_fmap, Forall_forall.
    intros [i r] Hir. simpl. by eapply Hnull. }
  split; [|split].
  - unfold setitem. simpl. rewrite decide_True by done.
    rewrite dtype_of_set_dtype. case_decide as Hc; [|done].
    rewrite Ht. rewrite (Hv Hc). simpl. subst x. congruence.
  - apply index_setitem.
  - intros i r. rewrite (rows_setitem_fillna _ _ _ _ Hget).
    intros ([j r0] & [= -> ->] & Hin)%list_elem_of_fmap. simpl.
    destruct (decide (c = x)) as [->|Hne].
    + rewrite lookup_total_insert_eq. rewrite (Hnull _ _ Hin). simpl. by apply Hv.
    + rewrite lookup_total_insert_ne by done. by eapply Hnull.
Qed.

Lemma foldl_impute_all_null func c l :
  func [] = Null ->
  forall df : DataFrame cell,
  dtype_of (columns df) c = Some number ->
  (forall i r, (i, r) ∈ rows df -> r !!! c = Null) ->
  dtype_of (columns (foldl (impute_column func) df l)) c = Some number /\
  index (foldl (impute_column func) df l) = index df /\
  (forall i r, (i, r) ∈ rows (foldl (impute_column func) df l) -> r !!! c = Null).
Proof.
  intros Hfunc. induction l as [|x l IH]; intros df Ht Hnull; simpl; [done|].
  destruct (impute_column_all_null func df x c Hfunc Ht Hnull) as (Ht' & Hi' & Hn').
  destruct (IH _ Ht' Hn') as (? & ? & ?). split; [done|]. split; [congruence|done].
Qed.

(** C5, as the code has it. A numeric column whose cells are all null does
    not make [handle_numeric] fail: the statistic of the empty set is NaN,
    filling with NaN changes nothing, and the call returns the table with
    that column still numeric and still entirely null. *)
Theorem handle_numeric_all_null σ dataframe df method c :
  σ !! dataframe = Some df ->
  dtype_of (columns df) c = Some number ->
  (forall i r, (i, r) ∈ rows df -> r !!! c = Null) ->
  exists df',
    handle_numeric dataframe method σ = (<[dataframe := df']> σ, Ok dataframe) /\
    dtype_of (columns df') c = Some number /\
    index df' = index df /\
    (forall i r, (i, r) ∈ rows df' -> r !!! c = Null).
Proof.
  intros Hσ Ht Hnull. eexists. split; [by apply handle_numeric_run|].
  apply foldl_impute_all_null; [by case_decide|done|done].
Qed.

(** ** Counting values *)

Lemma elem_of_uniques x l : x ∈ uniques l <-> x ∈ l.
Proof.
  induction l as [|y l IH]; simpl; [done|].
  rewrite !elem_of_cons, list_elem_of_filter, IH.
  destruct (decide (x = y)); tauto.
Qed.

Lemma elem_of_insert_desc y x l : y ∈ insert_desc x l <-> y = x \/ y ∈ l.
Proof.
  induction l as [|z l IH]; simpl.
  - rewrite list_elem_of_singleton. split; [by left|].
    intros [?|Hy]; [done|by apply elem_of_nil in Hy].
  - case_decide; rewrite !elem_of_cons; [done|]. rewrite IH. tauto.
Qed.

Lemma elem_of_sort_desc y l : y ∈ sort_desc l <-> y ∈ l.
Proof.
  induction l as [|x l IH]; simpl; [done|].
  by rewrite elem_of_insert_desc, IH, elem_of_cons.
Qed.

Lemma head_max_insert_desc x l : head_max l -> head_max (insert_desc x l).
Proof.
  destruct l as [|z l]; simpl; [intros _ y Hy; by apply elem_of_nil in Hy|].
  intros Hz. case_decide as Hle; simpl.
  - intros y [->|Hy]%elem_of_cons; [done|]. specialize (Hz y Hy). lia.
  - intros y [->|Hy]%elem_of_insert_desc; [lia|by apply Hz].
Qed.

Lemma head_max_sort_desc l : head_max (sort_desc l).
Proof. induction l; simpl; [done|by apply head_max_insert_desc]. Qed.

Lemma sort_desc_head l x t :
  sort_desc l = x :: t -> x ∈ l /\ forall y, y ∈ l -> (y.2 <= x.2)%nat.
Proof.
  intros Hs. pose proof (head_max_sort_desc l) as Hm. rewrite Hs in Hm. simpl in Hm.
  split.
  - apply elem_of_sort_desc. rewrite Hs. by left.
  - intros y Hy. apply elem_of_sort_desc in Hy. rewrite Hs in Hy.
    apply elem_of_cons in Hy as [->|Hy]; [done|by apply Hm].
Qed.

Lemma sort_desc_nil l : sort_desc l = [] -> l = [].
Proof.
  destruct l as [|x l]; [done|]. intros Hs.
  assert (x ∈ sort_desc (x :: l)) as Hx by (apply elem_of_sort_desc; by left).
  rewrite Hs in Hx. by apply elem_of_nil in Hx.
Qed.

Lemma count_notin v l : v ∉ l -> count v l = 0%nat.
Proof.
  intros Hv. unfold count. induction l as [|x l IH]; [done|].
  apply not_elem_of_cons in Hv as [Hne Hv]. rewrite filter_cons.
  rewrite decide_False by done. by apply IH.
Qed.

Lemma count_app v l1 l2 : count v (l1 ++ l2) = (count v l1 + count v l2)%nat.
Proof. unfold count. by rewrite filter_app, length_app. Qed.

Lemma count_cons v x l :
  count v (x :: l) = ((if decide (x = v) then 1 else 0) + count v l)%nat.
Proof. unfold count. rewrite filter_cons. by case_decide. Qed.

(** The first entry of [value_counts]: a value of the column that no other
    value outnumbers, with its number of occurrences. *)
Lemma value_counts_of_head l v n t :
  value_counts_of l = (v, n) :: t ->
  v ∈ dropna l /\ n = count v (dropna l) /\
  forall w, (count w (dropna l) <= count v (dropna l))%nat.
Proof.
  unfold value_counts_of. cbv zeta. intros (Hin & Hmax)%sort_desc_head.
  apply list_elem_of_fmap in Hin as [k [[= -> ->] Hk]].
  apply (proj1 (elem_of_uniques _ _)) in Hk.
  split; [done|]. split; [done|]. intros w.
  destruct (decide (w ∈ dropna l)) as [Hw|Hw].
  - apply (Hmax (w, count w (dropna l))). apply list_elem_of_fmap.
    exists w. split; [done|]. by apply elem_of_uniques.
  - rewrite (count_notin _ _ Hw). lia.
Qed.

Lemma value_counts_of_nil l : value_counts_of l = [] <-> dropna l = [].
Proof.
  unfold value_counts_of. cbv zeta. split.
  - intros Hs%sort_desc_nil. apply fmap_nil_inv in Hs.
    destruct (dropna l) as [|x l']; [done|]. simpl in Hs. done.
  - by intros ->.
Qed.

Lemma most_frequent_spec l :
  match dropna l with
  | [] => most_frequent l = Null
  | _ => most_frequent l ∈ dropna l /\
         forall w, (count w (dropna l) <= count (most_frequent l) (dropna l))%nat
  end.
Proof.
  unfold most_frequent. destruct (value_counts_of l) as [|[v n] t] eqn:E.
  - apply value_counts_of_nil in E. by rewrite E.
  - apply value_counts_of_head in E as (Hin & _ & Hmax).
    destruct (dropna l); [by apply elem_of_nil in Hin|done].
Qed.

Lemma dropna_app l1 l2 : dropna (l1 ++ l2) = dropna l1 ++ dropna l2.
Proof. apply filter_app. Qed.

Lemma elem_of_dropna x l : x ∈ dropna l <-> x ∈ l /\ x <> Null.
Proof.
  unfold dropna. rewrite list_elem_of_filter. destruct x; simpl; split; intros [? ?]; done.
Qed.

Lemma most_frequent_skip_null l1 l2 :
  most_frequent (l1 ++ Null :: l2) = most_frequent (l1 ++ l2).
Proof.
  unfold most_frequent, value_counts_of.
  by rewrite !dropna_app.
Qed.

(** Writing the most frequent value once more keeps it the most frequent:
    it now outnumbers every other value strictly. *)
Lemma most_frequent_insert l1 l2 :
  most_frequent (l1 ++ most_frequent (l1 ++ l2) :: l2) = most_frequent (l1 ++ l2).
Proof.
  set (m := most_frequent (l1 ++ l2)).
  pose proof (most_frequent_spec (l1 ++ l2)) as Hm. fold m in Hm.
  destruct (dropna (l1 ++ l2)) as [|x0 l0] eqn:E.
  { rewrite Hm, most_frequent_skip_null. exact Hm. }
  destruct Hm as [Hin Hmax]. rewrite <- E in Hin, Hmax.
  assert (Hm : m <> Null) by (by apply elem_of_dropna in Hin as [_ ?]).
  pose proof (most_frequent_spec (l1 ++ m :: l2)) as Hm'.
  assert (Hd : dropna (l1 ++ m :: l2) = dropna l1 ++ m :: dropna l2).
  { rewrite dropna_app. f_equal. unfold dropna. rewrite filter_cons.
    rewrite decide_True; [done|]. by destruct m. }
  rewrite Hd in Hm'. destruct (dropna l1 ++ m :: dropna l2) eqn:E'.
  { by destruct (dropna l1). }
  rewrite <- E' in Hm'. destruct Hm' as [_ Hmax'].
  destruct (decide (most_frequent (l1 ++ m :: l2) = m)) as [|Hne]; [done|].
  exfalso. specialize (Hmax' m). specialize (Hmax (most_frequent (l1 ++ m :: l2))).
  rewrite dropna_app in Hmax.
  rewrite !count_app, !count_cons in Hmax'. rewrite !count_app in Hmax.
  rewrite decide_True in Hmax' by done. rewrite decide_False in Hmax' by done. lia.
Qed.

(** ** The zip-scoped mode imputer *)

Lemma s_select_values {A} (f g : A -> cell) (z : cell) t t' (l : list (label * A)) :
  s_values (s_select (mkSeries t (map (fun p => (p.1, f p.2)) l))
              (s_eq (mkSeries t' (map (fun p => (p.1, g p.2)) l)) z)) =
  map (fun p => f p.2) (filter (fun p => eq_cell (g p.2) z = true) l).
Proof.
  unfold s_values, s_select, s_eq, s_values. simpl.
  induction l as [|x l IH]; [done|]. rewrite filter_cons. simpl.
  destruct (decide (eq_cell (g x.2) z = true)) as [Hg|Hg].
  - rewrite Hg. simpl. f_equal. exact IH.
  - destruct (eq_cell (g x.2) z); [done|]. exact IH.
Qed.

Lemma search_similar_zip_run (df : DataFrame cell) column zipcode :
  column ∈ names df -> "zipcode" ∈ names df ->
  search_similar_zip df column zipcode =
    Ok (most_frequent (zip_group (rows df) column zipcode)).
Proof.
  intros Hc Hz. unfold search_similar_zip.
  destruct (getitem_in df column Hc) as (t & _ & ->).
  destruct (getitem_in df "zipcode" Hz) as (tz & _ & ->).
  simpl. unfold value_counts, most_frequent.
  rewrite (s_select_values (fun r => r !!! column) (fun r => r !!! "zipcode")).
  fold (zip_group (rows df) column zipcode).
  by destruct (value_counts_of _) as [|[v n] l].
Qed.

Lemma assign_fst rs i column v : (assign rs i column v).*1 = rs.*1.
Proof.
  unfold assign. rewrite <- list_fmap_compose. apply list_fmap_ext.
  intros ? [j r] _. simpl. by case_decide.
Qed.

Lemma assign_notin rs i column v : i ∉ rs.*1 -> assign rs i column v = rs.
Proof.
  intros Hi. unfold assign. etrans; [|apply list_fmap_id].
  apply list_fmap_ext. intros k [j r] Hk. simpl.
  case_decide as Hj; [|done]. subst j. destruct Hi.
  apply list_elem_of_fmap. exists (i, r). split; [done|].
  by eapply list_elem_of_lookup_2.
Qed.

Lemma assign_split l1 l2 i r column v :
  i ∉ l1.*1 -> i ∉ l2.*1 ->
  assign (l1 ++ (i, r) :: l2) i column v = l1 ++ (i, <[column := v]> r) :: l2.
Proof.
  intros H1 H2. unfold assign. rewrite map_app. simpl.
  rewrite decide_True by done.
  fold (assign l1 i column v). fold (assign l2 i column v).
  by rewrite !assign_notin.
Qed.

Lemma zip_group_app l1 l2 column z :
  zip_group (l1 ++ l2) column z = zip_group l1 column z ++ zip_group l2 column z.
Proof. unfold zip_group. by rewrite filter_app, map_app. Qed.

Lemma zip_group_cons i r l column z :
  zip_group ((i, r) :: l) column z =
    (if eq_cell (r !!! "zipcode") z then [r !!! column] else []) ++ zip_group l column z.
Proof.
  unfold zip_group. rewrite filter_cons. simpl.
  destruct (eq_cell (r !!! "zipcode") z) eqn:E.
  - by rewrite decide_True.
  - by rewrite decide_False.
Qed.

Lemma eq_cell_eq a b : eq_cell a b = true -> a = b.
Proof.
  destruct a, b; simpl; try done; by intros ?%bool_decide_eq_true.
Qed.

Lemma NoDup_split_fst {A B} (l : list (A * B)) i x :
  NoDup (l.*1) -> (i, x) ∈ l ->
  exists l1 l2, l = l1 ++ (i, x) :: l2 /\ (i ∉ l1.*1) /\ (i ∉ l2.*1).
Proof.
  intros Hnd (l1 & l2 & ->)%list_elem_of_split. exists l1, l2. split; [done|].
  rewrite fmap_app, fmap_cons in Hnd. simpl in Hnd.
  apply NoDup_app in Hnd as (_ & H1 & H2). apply NoDup_cons in H2 as [H2 _].
  split; [|done]. intros Hi. apply (H1 i Hi). by left.
Qed.

(** Imputing one null cell leaves the most frequent value of every zipcode
    as it was. *)
Lemma most_frequent_assign rs i r column :
  column <> "zipcode" ->
  NoDup (rs.*1) -> (i, r) ∈ rs -> r !!! column = Null ->
  forall z',
    most_frequent
      (zip_group
         (assign rs i column (most_frequent (zip_group rs column (r !!! "zipcode"))))
         column z') =
    most_frequent (zip_group rs column z').
Proof.
  intros Hcz Hnd Hin Hnull z'.
  destruct (NoDup_split_fst _ _ _ Hnd Hin) as (l1 & l2 & -> & H1 & H2).
  set (m := most_frequent (zip_group (l1 ++ (i, r) :: l2) column (r !!! "zipcode"))).
  rewrite assign_split by done.
  rewrite !zip_group_app, !zip_group_cons.
  rewrite lookup_total_insert_ne by done. rewrite lookup_total_insert_eq, Hnull.
  destruct (eq_cell (r !!! "zipcode") z') eqn:E; [|done].
  apply eq_cell_eq in E. subst z'. simpl.
  rewrite most_frequent_skip_null.
  assert (Hm : m = most_frequent (zip_group l1 column (r !!! "zipcode")
                                  ++ zip_group l2 column (r !!! "zipcode"))).
  { unfold m. rewrite zip_group_app, zip_group_cons, Hnull.
    destruct (eq_cell _ _); simpl; [apply most_frequent_skip_null|done]. }
  rewrite Hm. apply most_frequent_insert.
Qed.

Lemma impute_rows_cons column rs p rest :
  impute_rows column rs (p :: rest) =
    impute_rows column
      (assign rs p.1 column (most_frequent (zip_group rs column p.2))) rest.
Proof. reflexivity. Qed.

(** All the pending rows receive the most frequent value their zipcode had
    when the loop started. *)
Lemma impute_rows_spec column pending :
  column <> "zipcode" ->
  forall rs,
    NoDup (rs.*1) -> NoDup (pending.*1) ->
    (forall i z, (i, z) ∈ pending ->
       exists r, (i, r) ∈ rs /\ r !!! "zipcode" = z /\ r !!! column = Null) ->
    impute_rows column rs pending =
      map (fun p =>
             if decide (p.1 ∈ pending.*1)
             then (p.1, <[column :=
                            most_frequent (zip_group rs column (p.2 !!! "zipcode"))]> p.2)
             else p) rs.
Proof.
  intros Hcz. induction pending as [|[i z] rest IH]; intros rs Hnd Hpd Hpend.
  - simpl. symmetry. etrans; [|apply list_fmap_id].
    apply list_fmap_ext. intros k p _.
    destruct (decide (p.1 ∈ ([] : list (label * cell)).*1)) as [Hp|]; [|done].
    by apply elem_of_nil in Hp.
  - simpl in Hpd. apply NoDup_cons in Hpd as [Hi Hpd].
    destruct (Hpend i z) as (r0 & Hr0 & Hz0 & Hn0); [by left|]. subst z.
    rewrite impute_rows_cons. simpl.
    set (m := most_frequent (zip_group rs column (r0 !!! "zipcode"))).
    rewrite IH; [|by rewrite assign_fst|done|].
    + unfold assign at 2. rewrite <- list_fmap_compose.
      apply list_fmap_ext. intros k [j r] Hk.
      apply list_elem_of_lookup_2 in Hk. simpl.
      destruct (decide (j = i)) as [->|Hji]; simpl.
      * assert (r = r0) as -> by (eapply NoDup_fst_inj; eauto).
        rewrite decide_False by done. rewrite decide_True by (by left). done.
      * destruct (decide (j ∈ rest.*1)) as [Hj|Hj].
        -- rewrite decide_True by (by right). do 2 f_equal.
           by apply most_frequent_assign.
        -- rewrite decide_False; [done|].
           intros [?|?]%elem_of_cons; done.
    + intros i' z' Hin. destruct (Hpend i' z') as (r & Hr & Hz & Hn); [by right|].
      exists r. split; [|done]. unfold assign. apply list_elem_of_fmap.
      exists (i', r). split; [|done]. rewrite decide_False; [done|].
      intros ->. apply Hi. apply list_elem_of_fmap. by exists (i, z').
Qed.

Lemma select_filter {A} (g : A -> bool) (l : list A) :
  select l (map g l) = filter (fun x => g x = true) l.
Proof.
  induction l as [|x l IH]; [done|]. rewrite filter_cons. simpl.
  destruct (decide (g x = true)) as [Hg|Hg].
  - rewrite Hg. f_equal. exact IH.
  - destruct (g x); [done|]. exact IH.
Qed.

Lemma names_loc_setitem (df : DataFrame cell) i c v :
  c ∈ names df -> names (loc_setitem df i c v) = names df.
Proof.
  intros Hc. unfold loc_setitem, names at 1. simpl. rewrite decide_True by done.
  rewrite <- list_fmap_compose. apply list_fmap_ext.
  intros ? [c' t] _. simpl. by case_decide.
Qed.

Lemma rows_loc_setitem (df : DataFrame cell) i c v :
  i ∈ index df -> rows (loc_setitem df i c v) = assign (rows df) i c v.
Proof. intros Hi. unfold loc_setitem. simpl. by rewrite decide_True. Qed.

Lemma foldl_impute_step column pend :
  forall df : DataFrame cell,
    column ∈ names df ->
    (forall x, x ∈ pend -> x.1 ∈ index df) ->
    names (foldl (impute_step column) df pend) = names df /\
    rows (foldl (impute_step column) df pend) =
      impute_rows column (rows df)
        (map (fun x => (x.1, default Null (x.2 !! 1%nat))) pend).
Proof.
  induction pend as [|x pend IH]; intros df Hc Hin; [done|].
  change (impute_rows column (rows df)
            (map (fun x => (x.1, default Null (x.2 !! 1%nat))) (x :: pend)))
    with (impute_rows column
            (assign (rows df) x.1 column
               (most_frequent (zip_group (rows df) column (default Null (x.2 !! 1%nat)))))
            (map (fun x => (x.1, default Null (x.2 !! 1%nat))) pend)).
  change (foldl (impute_step column) df (x :: pend))
    with (foldl (impute_step column) (impute_step column df x) pend).
  assert (Hx : x.1 ∈ index df) by (apply Hin; by left).
  destruct (IH (impute_step column df x)) as [Hn Hr].
  - unfold impute_step. by rewrite names_loc_setitem.
  - intros y Hy. unfold impute_step, index. rewrite rows_loc_setitem by done.
    rewrite assign_fst. apply Hin. by right.
  - rewrite Hn, Hr. unfold impute_step at 1 2.
    rewrite names_loc_setitem by done. by rewrite rows_loc_setitem.
Qed.

Lemma get_mode_by_zip_loop σ dataframe df column :
  σ !! dataframe = Some df ->
  column ∈ names df -> "zipcode" ∈ names df ->
  get_mode_by_zip dataframe column σ =
    (<[dataframe :=
         foldl (impute_step column) df
           (map (fun p => (p.1, [p.2 !!! column; p.2 !!! "zipcode"]))
              (filter (fun p => isna (p.2 !!! column) = true) (rows df)))]> σ,
     Ok dataframe).
Proof.
  intros Hσ Hc Hz. unfold get_mode_by_zip.
  rewrite (bind_read _ _ _ _ Hσ).
  destruct (getitem_in df column Hc) as (t & Ht & ->).
  destruct (getitem_in df "zipcode" Hz) as (tz & Htz & _).
  rewrite bind_lift_Ok. cbv zeta.
  assert (Hmask : s_isna (mkSeries t (map (fun p => (p.1, p.2 !!! column)) (rows df)))
                  = map (fun p => isna (p.2 !!! column)) (rows df)).
  { unfold s_isna, s_values. simpl. by rewrite <- !list_fmap_compose. }
  rewrite Hmask, select_filter.
  unfold getitem_list. simpl. rewrite Ht, Htz. simpl. rewrite bind_lift_Ok, bind_run.
  set (nulls := filter _ (rows df)).
  assert (Hit : iterrows (mkDataFrame [(column, t); ("zipcode", tz)] nulls)
                = map (fun p => (p.1, [p.2 !!! column; p.2 !!! "zipcode"])) nulls).
  { unfold iterrows. simpl. apply list_fmap_ext. by intros ? [i r]. }
  rewrite Hit.
  destruct (for_in_place
              (map (fun p => (p.1, [p.2 !!! column; p.2 !!! "zipcode"])) nulls)
              (fun '(i, row) =>
                 df0 ← read dataframe;
                 value ← lift (search_similar_zip df0 column (default Null (row !! 1%nat)));
                 write dataframe (loc_setitem df0 i column value))
              dataframe (impute_step column)
              (fun d => names d = names df)) with df σ as [Hrun _]; try done.
  - intros [i row] d σ' Hx Hd Hσ'.
    rewrite (bind_read _ _ _ _ Hσ').
    rewrite search_similar_zip_run by (by rewrite Hd).
    rewrite bind_lift_Ok, write_run. split; [done|].
    unfold impute_step. rewrite names_loc_setitem; [done|by rewrite Hd].
  - by rewrite Hrun.
Qed.

Lemma NoDup_fst_filter {A B} (P : A * B -> Prop) `{!forall x, Decision (P x)}
    (l : list (A * B)) :
  NoDup (l.*1) -> NoDup ((filter P l).*1).
Proof.
  intros Hnd. eapply sublist_NoDup; [exact Hnd|].
  apply fmap_sublist, sublist_filter.
Qed.

(** The table [get_mode_by_zip] leaves: every cell of the column that was
    null holds the most frequent value of its zipcode in the table as it was
    (None when there is none), and nothing else has changed. *)
Lemma get_mode_by_zip_run σ dataframe df column :
  σ !! dataframe = Some df ->
  NoDup (index df) ->
  column ∈ names df -> "zipcode" ∈ names df -> column <> "zipcode" ->
  exists df',
    get_mode_by_zip dataframe column σ = (<[dataframe := df']> σ, Ok dataframe) /\
    names df' = names df /\
    rows df' =
      map (fun p =>
             if isna (p.2 !!! column)
             then (p.1, <[column :=
                            most_frequent
                              (zip_group (rows df) column (p.2 !!! "zipcode"))]> p.2)
             else p) (rows df).
Proof.
  intros Hσ Hnd Hc Hz Hcz. eexists. split; [by apply get_mode_by_zip_loop|].
  set (nulls := filter (fun p => isna (p.2 !!! column) = true) (rows df)).
  destruct (foldl_impute_step column
              (map (fun p => (p.1, [p.2 !!! column; p.2 !!! "zipcode"])) nulls)
              df Hc) as [Hn Hr].
  { intros x ([i r] & -> & Hin)%list_elem_of_fmap. simpl.
    apply list_elem_of_filter in Hin as [_ Hin].
    apply list_elem_of_fmap. by exists (i, r). }
  split; [done|]. rewrite Hr. rewrite <- list_fmap_compose.
  rewrite impute_rows_spec; try done.
  - apply list_fmap_ext. intros k [j r] Hk.
    apply list_elem_of_lookup_2 in Hk. simpl.
    rewrite <- list_fmap_compose.
    destruct (isna (r !!! column)) eqn:E.
    + rewrite decide_True; [done|]. apply list_elem_of_fmap. exists (j, r).
      split; [done|]. by apply list_elem_of_filter.
    + rewrite decide_False; [done|].
      intros ([j' r'] & Hj & Hin)%list_elem_of_fmap. simpl in Hj. subst j'.
      apply list_elem_of_filter in Hin as [Hna Hin]. simpl in Hna.
      assert (r' = r) as -> by (eapply NoDup_fst_inj; eauto). congruence.
  - rewrite <- list_fmap_compose.
    change (NoDup (nulls.*1)). by apply NoDup_fst_filter.
  - intros i z ([j r] & [= -> ->] & Hin)%list_elem_of_fmap.
    apply list_elem_of_filter in Hin as [Hna Hin]. simpl in Hna.
    exists r. split; [done|]. split; [done|]. by destruct (r !!! column).
Qed.



Lemma dropna_zip_group_peers (df : DataFrame cell) column p i r z :
  rows df !! p = Some (i, r) -> isna (r !!! column) = true ->
  dropna (zip_group (rows df) column z) = peer_values df column p z.
Proof.
  intros Hp Hna. unfold peer_values.
  rewrite <- (take_drop_middle _ _ _ Hp) at 1.
  rewrite !zip_group_app, zip_group_cons, !dropna_app.
  destruct (r !!! column); try done.
  by destruct (eq_cell _ _).
Qed.


(** ** What the steps of the pipeline do to a table and to the store *)

Lemma s_index_select_isna {A} (f : A -> cell) t (l : list (label * A)) :
  s_index (s_select (mkSeries t (map (fun p => (p.1, f p.2)) l))
             (s_isna (mkSeries t (map (fun p => (p.1, f p.2)) l)))) =
  (filter (fun p => isna (f p.2) = true) l).*1.
Proof.
  unfold s_index, s_select, s_isna, s_values. simpl.
  induction l as [|x l IH]; [done|]. rewrite filter_cons. simpl.
  destruct (decide (isna (f x.2) = true)) as [Hg|Hg].
  - rewrite Hg. simpl. f_equal. exact IH.
  - destruct (isna (f x.2)); [done|]. exact IH.
Qed.

Lemma drop_rows_missing_Ok (df new : DataFrame cell) c :
  drop_rows_missing df c = Ok new ->
  c ∈ names df /\ columns new = columns df /\
  forall i r, (i, r) ∈ rows new -> (i, r) ∈ rows df /\ isna (r !!! c) = false.
Proof.
  unfold drop_rows_missing. destruct (decide (c ∈ names df)) as [Hc|Hc]; last first.
  { unfold getitem. destruct (dtype_of (columns df) c) eqn:E; [|done].
    by apply dtype_of_Some in E. }
  destruct (getitem_in df c Hc) as (t & _ & ->). simpl.
  rewrite (s_index_select_isna (fun r : gmap string cell => r !!! c)).
  unfold drop_rows. case_decide; [|done]. intros [= <-].
  split; [done|]. split; [done|]. simpl. intros i r [Hi Hin]%list_elem_of_filter.
  split; [done|]. simpl in Hi. destruct (isna (r !!! c)) eqn:E; [|done].
  destruct Hi. apply list_elem_of_fmap. exists (i, r).
  split; [done|]. by apply list_elem_of_filter.
Qed.

Lemma drop_columns_Ok {C} `{!Inhabited C} (df new : DataFrame C) ls :
  drop_labels df (ColumnLabels ls) = Ok new ->
  Forall (fun l => l ∈ names df) ls /\
  (forall c, c ∈ names new <-> c ∈ names df /\ c ∉ ls).
Proof.
  simpl. unfold drop_columns. case_decide as Hall; [|done]. intros [= <-].
  split; [done|]. intros c. unfold names. simpl. rewrite !list_elem_of_fmap. split.
  - intros ([c' t] & -> & Hin). apply list_elem_of_filter in Hin as [Hn Hin].
    split; [by exists (c', t)|done].
  - intros [([c' t] & -> & Hin) Hn]. exists (c', t). split; [done|].
    by apply list_elem_of_filter.
Qed.

Lemma get_mode_Ok (df : DataFrame cell) column s :
  get_mode df column = Ok s -> column ∈ names df.
Proof.
  unfold get_mode. destruct (getitem df column) as [s0|e] eqn:Hget; [|done].
  intros _. by apply getitem_Ok in Hget as [? _].
Qed.

Lemma get_mode_by_zip_cases σ dataframe df column :
  σ !! dataframe = Some df ->
  (exists e, get_mode_by_zip dataframe column σ = (σ, Raise e)) \/
  (exists df', get_mode_by_zip dataframe column σ = (<[dataframe := df']> σ, Ok dataframe)
               /\ names df' = names df).
Proof.
  intros Hσ.
  destruct (decide (column ∈ names df)) as [Hc|Hc]; last first.
  { left. exists KeyError. unfold get_mode_by_zip.
    rewrite (bind_read _ _ _ _ Hσ). unfold getitem.
    destruct (dtype_of (columns df) column) eqn:E; [|done].
    by apply dtype_of_Some in E. }
  destruct (decide ("zipcode" ∈ names df)) as [Hz|Hz]; last first.
  { left. exists KeyError. unfold get_mode_by_zip.
    rewrite (bind_read _ _ _ _ Hσ).
    destruct (getitem_in df column Hc) as (t & Ht & ->).
    rewrite bind_lift_Ok. cbv zeta. unfold getitem_list. simpl. rewrite Ht. simpl.
    destruct (dtype_of (columns df) "zipcode") eqn:E; [|done].
    by apply dtype_of_Some in E. }
  right. eexists. split; [by apply get_mode_by_zip_loop|].
  apply foldl_impute_step; [done|].
  intros x ([i r] & -> & Hin)%list_elem_of_fmap. simpl.
  apply list_elem_of_filter in Hin as [_ Hin].
  apply list_elem_of_fmap. by exists (i, r).
Qed.

(** Loops whose iterations keep the store in one shape: [S cur] is the store
    holding [cur] as the table being worked on. *)
Lemma for_shape {A} (S : DataFrame cell -> store) (I : DataFrame cell -> Prop)
    (l : list A) (body : A -> M unit) :
  (forall x cur, x ∈ l -> I cur ->
     exists res cur', body x (S cur) = (S cur', res) /\ I cur') ->
  forall cur, I cur ->
    exists res cur', for_ l body (S cur) = (S cur', res) /\ I cur'.
Proof.
  induction l as [|x l IH]; intros Hbody cur HI; simpl.
  - by exists (Ok tt), cur.
  - destruct (Hbody x cur) as (res & cur' & Hrun & HI'); [by left|done|].
    rewrite bind_run, Hrun. destruct res as [[]|e]; [|by exists (Raise e), cur'].
    apply IH; [|done]. intros y c Hy. apply Hbody. by right.
Qed.

Lemma for_fold_shape {A} (S : DataFrame cell -> store) (I : DataFrame cell -> Prop)
    (l : list A) (body : ref -> A -> M ref) (r : ref) :
  (forall x cur, x ∈ l -> I cur ->
     exists res cur', body r x (S cur) = (S cur', res) /\ I cur' /\
                      forall a, res = Ok a -> a = r) ->
  forall cur, I cur ->
    exists res cur', for_fold l body r (S cur) = (S cur', res) /\ I cur' /\
                     forall a, res = Ok a -> a = r.
Proof.
  induction l as [|x l IH]; intros Hbody cur HI; simpl.
  - exists (Ok r), cur. split; [done|]. split; [done|]. by intros a [= <-].
  - destruct (Hbody x cur) as (res & cur' & Hrun & HI' & Hres); [by left|done|].
    rewrite bind_run, Hrun. destruct res as [a|e].
    + rewrite (Hres a eq_refl). apply IH; [|done]. intros y c Hy. apply Hbody. by right.
    + exists (Raise e), cur'. split; [done|]. split; [done|]. by intros a.
Qed.

Lemma lookup_snoc (σ : store) d : (σ ++ [d]) !! length σ = Some d.
Proof. by rewrite lookup_app_r, Nat.sub_diag. Qed.

Lemma insert_snoc (σ : store) d d' : <[length σ := d']> (σ ++ [d]) = σ ++ [d'].
Proof. by rewrite insert_app_r_alt, Nat.sub_diag. Qed.

Lemma handle_categorical_spec σ dataframe :
  exists ext res,
    handle_categorical dataframe σ = (σ ++ ext, res) /\
    forall new, res = Ok new ->
      (length σ <= new)%nat /\
      exists df', (σ ++ ext) !! new = Some df' /\
                  categorical_result (σ !!! dataframe) df'.
Proof.
  unfold handle_categorical. rewrite bind_run, read_run.
  set (df := σ !!! dataframe).
  destruct (drop_rows_missing df "zipcode") as [d1|e] eqn:E1;
    [rewrite bind_lift_Ok|rewrite bind_lift_Raise; raise_here].
  rewrite bind_alloc, (bind_read _ _ _ _ (lookup_snoc σ d1)).
  destruct (drop_labels d1 (ColumnLabels ["host_location"; "neighbourhood"]))
    as [d2|e] eqn:E2; [rewrite bind_lift_Ok|rewrite bind_lift_Raise; raise_here].
  rewrite bind_alloc. set (σ1 := σ ++ [d1]).
  rewrite (bind_read _ _ _ _ (lookup_snoc σ1 d2)).
  destruct (getitem d2 "summary") as [s|e] eqn:E3;
    [rewrite !bind_lift_Ok|rewrite bind_lift_Raise; raise_here].
  rewrite bind_write, insert_snoc.
  set (d3 := setitem d2 "summary" _).
  assert (Hd3 : names d3 = names d2).
  { apply names_setitem. by apply getitem_Ok in E3 as [? _]. }
  clearbody d3. rewrite bind_run.
  destruct (for_shape (fun cur => σ1 ++ [cur]) (fun cur => names cur = names d2)
              ["property_type"; "host_response_time"]
              (fun column => df0 ← read (length σ1); s0 ← lift (get_mode df0 column);
                 write (length σ1) (setitem df0 column s0)))
    with d3 as (res & d4 & -> & Hd4); [|done|].
  { intros x cur _ Hcur. rewrite (bind_read _ _ _ _ (lookup_snoc σ1 cur)).
    destruct (get_mode cur x) as [s0|e] eqn:E4.
    - rewrite bind_lift_Ok, write_run, insert_snoc. eexists _, _. split; [done|].
      rewrite names_setitem; [done|]. by eapply get_mode_Ok.
    - rewrite bind_lift_Raise. by eexists _, _. }
  destruct res as [[]|e]; [|raise_here]. rewrite bind_run.
  destruct (for_fold_shape (fun cur => σ1 ++ [cur]) (fun cur => names cur = names d2)
              ["market"; "host_neighbourhood"; "city"] get_mode_by_zip (length σ1))
    with d4 as (res & d5 & -> & Hd5 & Hres); [|done|].
  { intros x cur _ Hcur.
    destruct (get_mode_by_zip_cases (σ1 ++ [cur]) (length σ1) cur x (lookup_snoc σ1 cur))
      as [[e ->]|(cur' & -> & Hn)].
    - exists (Raise e), cur. split; [done|]. split; [done|]. by intros a.
    - rewrite insert_snoc. exists (Ok (length σ1)), cur'. split; [done|].
      split; [congruence|]. by intros a [= <-]. }
  destruct res as [a|e]; [|raise_here]. rewrite (Hres a eq_refl).
  rewrite (bind_read _ _ _ _ (lookup_snoc σ1 d5)).
  destruct (drop_rows_missing d5 "host_neighbourhood") as [d6|e] eqn:E6;
    [rewrite bind_lift_Ok|rewrite bind_lift_Raise; raise_here].
  rewrite bind_alloc. set (σ2 := σ1 ++ [d5]).
  rewrite (bind_read _ _ _ _ (lookup_snoc σ2 d6)).
  destruct (drop_rows_missing d6 "city") as [d7|e] eqn:E7;
    [rewrite bind_lift_Ok|rewrite bind_lift_Raise; raise_here].
  rewrite bind_alloc, ret_run. set (σ3 := σ2 ++ [d6]).
  exists [d1; d5; d6; d7], (Ok (length σ3)). split.
  { unfold σ3, σ2, σ1. by rewrite <- !app_assoc. }
  intros new [= <-]. split.
  { unfold σ3, σ2, σ1. rewrite !length_app. lia. }
  exists d7. split.
  { replace (σ ++ [d1; d5; d6; d7]) with (σ3 ++ [d7]); [apply lookup_snoc|].
    unfold σ3, σ2, σ1. by rewrite <- !app_assoc. }
  apply drop_rows_missing_Ok in E1 as (_ & Hc1 & _).
  apply drop_columns_Ok in E2 as (Hall & Hn2).
  apply drop_rows_missing_Ok in E6 as (_ & Hc6 & Hr6).
  apply drop_rows_missing_Ok in E7 as (_ & Hc7 & Hr7).
  assert (Hn1 : names d1 = names df) by (unfold names; by rewrite Hc1).
  assert (Hn7 : names d7 = names d2).
  { unfold names. rewrite Hc7, Hc6. exact Hd5. }
  split; [|split].
  - intros c Hc. split.
    + rewrite <- Hn1. by apply (proj1 (Forall_forall _ _) Hall).
    + rewrite Hn7, Hn2. by intros [_ Hnot].
  - intros c. rewrite Hn7, Hn2, Hn1. tauto.
  - intros i r Hin. destruct (Hr7 i r Hin) as [Hin6 Hcity].
    destruct (Hr6 i r Hin6) as [_ Hhn]. done.
Qed.

(** C2. A null cell without peers (no other row of its zipcode, or none with
    a value in the column) is still null after [get_mode_by_zip], the rest of
    its row unchanged; and the table [handle_categorical] returns holds no
    row that is null in host_neighbourhood or in city. *)
Theorem zip_fallback_null_then_dropped σ dataframe df column :
  σ !! dataframe = Some df ->
  NoDup (index df) ->
  column ∈ names df -> "zipcode" ∈ names df -> column <> "zipcode" ->
  (exists df',
     get_mode_by_zip dataframe column σ = (<[dataframe := df']> σ, Ok dataframe) /\
     forall p i r,
       rows df !! p = Some (i, r) ->
       isna (r !!! column) = true ->
       peer_values df column p (r !!! "zipcode") = [] ->
       exists r', rows df' !! p = Some (i, r') /\ r' !!! column = Null /\
                  forall c, c <> column -> r' !!! c = r !!! c) /\
  (forall σ0 table σ' new,
     handle_categorical table σ0 = (σ', Ok new) ->
     exists df', σ' !! new = Some df' /\
       forall i r, (i, r) ∈ rows df' ->
         isna (r !!! "host_neighbourhood") = false /\ isna (r !!! "city") = false).
Proof.
  intros Hσ Hnd Hc Hz Hcz. split.
  - destruct (get_mode_by_zip_run σ dataframe df column) as (df' & Hrun & _ & Hrows);
      try done.
    exists df'. split; [done|]. intros p i r Hp Hna Hpeers.
    pose proof (dropna_zip_group_peers df column p i r (r !!! "zipcode") Hp Hna) as Hd.
    pose proof (most_frequent_spec (zip_group (rows df) column (r !!! "zipcode"))) as Hm.
    rewrite Hd, Hpeers in Hm. eexists. split.
    { rewrite Hrows, list_lookup_fmap, Hp. simpl. by rewrite Hna. }
    rewrite Hm. split; [apply lookup_total_insert_eq|].
    intros c Hne. by apply lookup_total_insert_ne.
  - intros σ0 table σ' new Hrun.
    destruct (handle_categorical_spec σ0 table) as (ext & res & Hrun' & Hres).
    rewrite Hrun in Hrun'. injection Hrun' as -> <-.
    destruct (Hres new eq_refl) as (_ & df' & Hdf' & _ & _ & Hnull).
    by exists df'.
Qed.

Lemma try_except_run {A} (m : M A) e (h : M A) σ :
  try_except m e h σ =
    match m σ with
    | (σ', Raise e') => if decide (e' = e) then h σ' else (σ', Raise e')
    | (σ', Ok a) => (σ', Ok a)
    end.
Proof. reflexivity. Qed.

Lemma lookup_insert_store (σ : store) r d :
  (r < length σ)%nat -> <[r := d]> σ !! r = Some d.
Proof. apply list_lookup_insert_eq. Qed.

Lemma names_impute_column func (df : DataFrame cell) x :
  names (impute_column func df x) = names df.
Proof.
  unfold impute_column. destruct (getitem df x) as [s|e] eqn:E; [|done].
  apply names_setitem. by apply getitem_Ok in E as [? _].
Qed.

Lemma names_foldl_impute_column func l (df : DataFrame cell) :
  names (foldl (impute_column func) df l) = names df.
Proof.
  revert df. induction l as [|x l IH]; intros df; [done|]. simpl.
  by rewrite IH, names_impute_column.
Qed.

Lemma names_drop_duplicates (df : DataFrame cell) :
  names (drop_duplicates df) = names df.
Proof. unfold drop_duplicates. by case_decide. Qed.

Lemma for_shape_ok {A} (S : DataFrame cell -> store) (I : DataFrame cell -> Prop)
    (l : list A) (body : A -> M unit) :
  (forall x cur, x ∈ l -> I cur ->
     exists cur', body x (S cur) = (S cur', Ok tt) /\ I cur') ->
  forall cur, I cur ->
    exists cur', for_ l body (S cur) = (S cur', Ok tt) /\ I cur'.
Proof.
  induction l as [|x l IH]; intros Hbody cur HI; simpl.
  - by exists cur.
  - destruct (Hbody x cur) as (cur' & Hrun & HI'); [by left|done|].
    rewrite bind_run, Hrun. apply IH; [|done]. intros y c Hy. apply Hbody. by right.
Qed.

(** [handle_repetitive_data] never raises; it updates its table in place and
    adds no column. *)
Lemma handle_repetitive_data_spec (σ : store) dataframe cur :
  (dataframe < length σ)%nat ->
  exists cur',
    handle_repetitive_data dataframe (<[dataframe := cur]> σ) =
      (<[dataframe := cur']> σ, Ok dataframe) /\
    forall c, c ∈ names cur' -> c ∈ names cur.
Proof.
  intros Hr. unfold handle_repetitive_data. cbv zeta. rewrite bind_run.
  destruct (for_shape_ok (fun d => <[dataframe := d]> σ)
              (fun d => forall c, c ∈ names d -> c ∈ names cur)
              ["experiences_offered"; "host_listings_count";
               "neighbourhood_group_cleansed"; "jurisdiction_names"]
              (fun column =>
                 try_except
                   (df ← read dataframe;
                    new ← lift (drop_labels df (ColumnLabels [column]));
                    write dataframe new)
                   KeyError (mret tt)))
    with cur as (d1 & -> & Hd1); [|done|].
  { intros x d _ Hd. rewrite try_except_run.
    rewrite (bind_read _ _ _ _ (lookup_insert_store σ dataframe d Hr)).
    destruct (drop_labels d (ColumnLabels [x])) as [new|e] eqn:E.
    - rewrite bind_lift_Ok, write_run, list_insert_insert_eq.
      exists new. split; [done|]. intros c Hc. apply Hd.
      apply drop_columns_Ok in E as [_ Hn]. by apply Hn in Hc as [? _].
    - rewrite bind_lift_Raise. simpl in E. unfold drop_columns in E.
      case_decide; [done|]. injection E as <-. rewrite decide_True by done.
      by exists d. }
  rewrite (bind_read _ _ _ _ (lookup_insert_store σ dataframe d1 Hr)).
  rewrite bind_write, ret_run, list_insert_insert_eq. eexists. split; [done|].
  intros c. rewrite names_drop_duplicates. apply Hd1.
Qed.

Section clean_data_props.
Variable str_to_float : string -> option Qc.

(** One normalization step of [clean_data]: the table keeps its columns,
    whether the step converts the column, skips it or raises. *)
Lemma normalize_step (σ : store) dataframe cur column
    (convert : Series cell -> result (Series cell)) :
  (dataframe < length σ)%nat ->
  exists res cur',
    try_except
      (df ← read dataframe;
       s ← lift (getitem df column);
       s ← lift (convert s);
       s ← lift (to_numeric str_to_float s);
       write dataframe (setitem df column s))
      KeyError (mret tt) (<[dataframe := cur]> σ) = (<[dataframe := cur']> σ, res) /\
    names cur' = names cur.
Proof.
  intros Hr. rewrite try_except_run.
  rewrite (bind_read _ _ _ _ (lookup_insert_store σ dataframe cur Hr)).
  destruct (getitem cur column) as [s|e] eqn:E1;
    [rewrite bind_lift_Ok|rewrite bind_lift_Raise; case_decide; by eexists _, _].
  destruct (convert s) as [s1|e] eqn:E2;
    [rewrite bind_lift_Ok|rewrite bind_lift_Raise; case_decide; by eexists _, _].
  destruct (to_numeric str_to_float s1) as [s2|e] eqn:E3;
    [rewrite bind_lift_Ok|rewrite bind_lift_Raise; case_decide; by eexists _, _].
  rewrite write_run, list_insert_insert_eq. eexists _, _. split; [done|].
  apply names_setitem. by apply getitem_Ok in E1 as [? _].
Qed.

(** The whole pipeline on the store: the input table is updated in place and
    keeps or loses columns, the tables [handle_categorical] creates are
    appended, and a returned table is one of the new ones. *)
Lemma clean_data_spec_in_place (σ : store) dataframe df :
  (dataframe < length σ)%nat ->
  exists cur ext res,
    clean_data str_to_float dataframe (<[dataframe := df]> σ) =
      (<[dataframe := cur]> σ ++ ext, res) /\
    (forall c, c ∈ names cur -> c ∈ names df) /\
    forall new, res = Ok new ->
      (length σ <= new)%nat /\
      exists df', (<[dataframe := cur]> σ ++ ext) !! new = Some df' /\
                  categorical_result cur df'.
Proof.
  intros Hr. unfold clean_data. cbv zeta.
  rewrite bind_run.
  destruct (for_shape (fun d => <[dataframe := d]> σ) (fun d => names d = names df)
              ["price"; "extra_people"]
              (fun column =>
                 try_except
                   (df0 ← read dataframe; s ← lift (getitem df0 column);
                    s0 ← lift (money_to_numeric s);
                    s1 ← lift (to_numeric str_to_float s0);
                    write dataframe (setitem df0 column s1))
                   KeyError (mret tt)))
    with df as (res & d1 & -> & Hd1); [|done|].
  { intros x d _ Hd. destruct (normalize_step σ dataframe d x money_to_numeric Hr)
      as (res & d' & Hrun & Hn). exists res, d'. split; [done|congruence]. }
  destruct res as [[]|e]; last first.
  { exists d1, [], (Raise e). rewrite app_nil_r. split; [done|].
    split; [by rewrite Hd1|done]. }
  rewrite bind_run.
  destruct (for_shape (fun d => <[dataframe := d]> σ) (fun d => names d = names df)
              ["host_response_rate"; "host_acceptance_rate"]
              (fun column =>
                 try_except
                   (df0 ← read dataframe; s ← lift (getitem df0 column);
                    s0 ← lift (percentage_to_numeric s);
                    s1 ← lift (to_numeric str_to_float s0);
                    write dataframe (setitem df0 column s1))
                   KeyError (mret tt)))
    with d1 as (res & d2 & -> & Hd2); [|done|].
  { intros x d _ Hd. destruct (normalize_step σ dataframe d x percentage_to_numeric Hr)
      as (res & d' & Hrun & Hn). exists res, d'. split; [done|congruence]. }
  destruct res as [[]|e]; last first.
  { exists d2, [], (Raise e). rewrite app_nil_r. split; [done|].
    split; [by rewrite Hd2|done]. }
  rewrite bind_run.
  destruct (handle_repetitive_data_spec σ dataframe d2 Hr) as (d3 & -> & Hd3).
  rewrite bind_run.
  rewrite (handle_numeric_run _ _ d3 "median" (lookup_insert_store σ dataframe d3 Hr)).
  rewrite list_insert_insert_eq.
  set (d4 := foldl _ d3 _).
  assert (Hd4 : names d4 = names d3) by apply names_foldl_impute_column.
  clearbody d4. rewrite bind_run.
  destruct (handle_categorical_spec (<[dataframe := d4]> σ) dataframe)
    as (ext & res & -> & Hres).
  exists d4, ext. destruct res as [new|e].
  - rewrite ret_run. exists (Ok new). split; [done|]. split.
    { intros c. rewrite Hd4, <- Hd2. apply Hd3. }
    intros ? [= <-]. destruct (Hres new eq_refl) as (Hlen & df' & Hdf' & Hcat).
    rewrite length_insert in Hlen. split; [done|]. exists df'. split; [done|].
    by rewrite (list_lookup_total_correct _ _ _ (lookup_insert_store σ dataframe d4 Hr))
      in Hcat.
  - exists (Raise e). split; [done|]. split; [|done].
    intros c. rewrite Hd4, <- Hd2. apply Hd3.
Qed.

Lemma clean_data_spec (σ : store) dataframe df :
  σ !! dataframe = Some df ->
  exists cur ext res,
    clean_data str_to_float dataframe σ = (<[dataframe := cur]> σ ++ ext, res) /\
    (forall c, c ∈ names cur -> c ∈ names df) /\
    forall new, res = Ok new ->
      (length σ <= new)%nat /\
      exists df', (<[dataframe := cur]> σ ++ ext) !! new = Some df' /\
                  categorical_result cur df'.
Proof.
  intros Hσ. assert (Hr : (dataframe < length σ)%nat) by (by eapply lookup_lt_Some).
  pose proof (clean_data_spec_in_place σ dataframe df Hr) as Hspec.
  by rewrite (list_insert_id σ dataframe df Hσ) in Hspec.
Qed.

End clean_data_props.

(** C8, as the code has it. [clean_data] is a single pass over a raw table:
    on a table without the column host_location (or neighbourhood) it raises
    an error; and whenever it succeeds, the returned table has lost these two
    columns, so that running [clean_data] on the returned table raises an
    error instead of returning an equal table. *)
Theorem clean_data_not_rerunnable str_to_float σ dataframe df :
  σ !! dataframe = Some df ->
  ((exists c, c ∈ ["host_location"; "neighbourhood"] /\ c ∉ names df) ->
   exists σ' e, clean_data str_to_float dataframe σ = (σ', Raise e)) /\
  (forall σ' new,
     clean_data str_to_float dataframe σ = (σ', Ok new) ->
     (exists df', σ' !! new = Some df' /\
        forall c, c ∈ ["host_location"; "neighbourhood"] -> c ∉ names df') /\
     exists σ'' e, clean_data str_to_float new σ' = (σ'', Raise e)).
Proof.
  assert (Hraise : forall σ0 r d,
            σ0 !! r = Some d ->
            (exists c, c ∈ ["host_location"; "neighbourhood"] /\ c ∉ names d) ->
            exists σ' e, clean_data str_to_float r σ0 = (σ', Raise e)).
  { intros σ0 r d Hd (c & Hc & Hnot).
    destruct (clean_data_spec str_to_float σ0 r d Hd)
      as (cur & ext & res & Hrun & Hsub & Hres).
    rewrite Hrun. destruct res as [new|e]; [|by eexists _, _].
    destruct (Hres new eq_refl) as (_ & df' & _ & Hin & _).
    destruct Hnot. apply Hsub. by apply Hin. }
  intros Hσ. split; [by apply Hraise|]. intros σ' new Hrun.
  destruct (clean_data_spec str_to_float σ dataframe df Hσ)
    as (cur & ext & res & Hrun' & _ & Hres).
  rewrite Hrun in Hrun'. injection Hrun' as -> <-.
  destruct (Hres new eq_refl) as (_ & df' & Hdf' & Hcols & _).
  assert (Hnot : forall c, c ∈ ["host_location"; "neighbourhood"] -> c ∉ names df')
    by (intros c Hc; by apply Hcols).
  split; [by exists df'|]. apply (Hraise _ new df' Hdf').
  exists "host_location". split; [by left|]. apply Hnot. by left.
Qed.

(** C9, as the code has it. [clean_data] either returns a table, which is
    then a new table and not the input, or raises and returns none. In both
    cases no table other than the input is changed; the input table itself is
    updated in place (it may lose columns and never gains one), also when a
    later step raises. [handle_categorical], the last step, changes no
    existing table: it works on copies. *)
Theorem clean_data_updates_input_in_place str_to_float σ dataframe df σ' res :
  σ !! dataframe = Some df ->
  clean_data str_to_float dataframe σ = (σ', res) ->
  (forall r, (r < length σ)%nat -> r <> dataframe -> σ' !! r = σ !! r) /\
  (exists cur, σ' !! dataframe = Some cur /\ forall c, c ∈ names cur -> c ∈ names df) /\
  (forall new, res = Ok new -> (length σ <= new)%nat /\ is_Some (σ' !! new)) /\
  (forall σ0 table σ1 res0,
     handle_categorical table σ0 = (σ1, res0) ->
     forall r, (r < length σ0)%nat -> σ1 !! r = σ0 !! r).
Proof.
  intros Hσ Hrun.
  assert (Hr : (dataframe < length σ)%nat) by (by eapply lookup_lt_Some).
  destruct (clean_data_spec str_to_float σ dataframe df Hσ)
    as (cur & ext & res' & Hrun' & Hsub & Hres).
  rewrite Hrun in Hrun'. injection Hrun' as -> ->.
  split; [|split; [|split]].
  - intros r Hlt Hne. rewrite lookup_app_l by (by rewrite length_insert).
    by apply list_lookup_insert_ne.
  - exists cur. split; [|done]. rewrite lookup_app_l by (by rewrite length_insert).
    by apply list_lookup_insert_eq.
  - intros new ->. destruct (Hres new eq_refl) as (Hlen & df' & Hdf' & _).
    split; [done|by exists df'].
  - intros σ0 table σ1 res0 Hrun0 r Hlt.
    destruct (handle_categorical_spec σ0 table) as (ext0 & res1 & Hrun1 & _).
    rewrite Hrun0 in Hrun1. injection Hrun1 as -> _. by rewrite lookup_app_l.
Qed.

(** ** Examples, witnesses and counterexamples *)

Example parse_decimal_ex :
  parse_decimal "1234.50" = Some (Q2Qc (123450 # 100)) /\
  parse_decimal "95" = Some (Q2Qc (95 # 1)) /\
  parse_decimal "1,234" = None /\ parse_decimal "" = None.
Proof. repeat split; reflexivity. Qed.

Lemma rows_Forall {A B} (P : A -> B -> Prop) (l : list (A * B)) :
  Forall (fun p => P p.1 p.2) l -> forall i r, (i, r) ∈ l -> P i r.
Proof. intros Hall i r Hin. by apply (proj1 (Forall_forall _ _) Hall (i, r)). Qed.

(** The example of the specification: the null among A, A, null, B becomes A,
    and the null of the lone zipcode stays. *)
Example get_mode_by_zip_markets :
  (get_mode_by_zip 0%nat "market" [markets_by_zip]).2 = Ok 0%nat /\
  map to_lists (get_mode_by_zip 0%nat "market" [markets_by_zip]).1 =
    [[ (1%Z, [Text "90210"; Text "A"]); (2%Z, [Text "90210"; Text "A"]);
       (3%Z, [Text "90210"; Text "A"]); (4%Z, [Text "90210"; Text "B"]);
       (5%Z, [Text "10001"; Null]) ]].
Proof. split; vm_compute; reflexivity. Qed.


Lemma zip_fallback_null_then_dropped_witness :
  (exists df',
     get_mode_by_zip 0%nat "market" [markets_by_zip] =
       (<[0%nat := df']> [markets_by_zip], Ok 0%nat) /\
     forall p i r,
       rows markets_by_zip !! p = Some (i, r) ->
       isna (r !!! "market") = true ->
       peer_values markets_by_zip "market" p (r !!! "zipcode") = [] ->
       exists r', rows df' !! p = Some (i, r') /\ r' !!! "market" = Null /\
                  forall c, c <> "market" -> r' !!! c = r !!! c) /\
  (forall σ0 table σ' new,
     handle_categorical table σ0 = (σ', Ok new) ->
     exists df', σ' !! new = Some df' /\
       forall i r, (i, r) ∈ rows df' ->
         isna (r !!! "host_neighbourhood") = false /\ isna (r !!! "city") = false).
Proof.
  apply (zip_fallback_null_then_dropped [markets_by_zip] 0%nat markets_by_zip "market").
  - reflexivity.
  - by_decide.
  - by_decide.
  - by_decide.
  - discriminate.
Defined.


(** With threshold 1/4: rows 3 and 5 (half of their cells null) go; so does
    the column market (two nulls in five rows). *)
Example drop_missing_markets :
  map to_lists (drop_missing 0%nat true (Q2Qc (1 # 4)) [markets_by_zip]).1 !! 1%nat =
    Some [ (1%Z, [Text "90210"; Text "A"]); (2%Z, [Text "90210"; Text "A"]);
           (4%Z, [Text "90210"; Text "B"]) ] /\
  map names (drop_missing 0%nat false (Q2Qc (1 # 4)) [markets_by_zip]).1 !! 1%nat =
    Some ["zipcode"].
Proof. split; vm_compute; reflexivity. Qed.

(** C3, where the code departs from it. On the column A, A, null, B,
    [value_counts()] is the series A: 2, B: 1, whose index holds strings, so
    [value_counts()[0]] is the count 2 at position 0 and not the value A: the
    null is filled with the number 2. In general, on an object column with a
    non-null value, [get_mode] fills the nulls with the number of occurrences
    of the most frequent value. *)
Theorem get_mode_fills_with_the_count :
  get_mode property_types "property_type" =
    Ok (mkSeries object
          [(1%Z, Text "A"); (2%Z, Text "A"); (3%Z, int_cell 2); (4%Z, Text "B")]) /\
  (forall (df : DataFrame cell) column s v n t,
     getitem df column = Ok s -> s_dtype s = object ->
     value_counts s = (v, n) :: t ->
     get_mode df column = Ok (fillna s (int_cell n))).
Proof.
  split; [vm_compute; reflexivity|].
  intros df column s v n t Hget Hdt Hvc. unfold get_mode.
  rewrite Hget. simpl. by rewrite Hdt, Hvc.
Qed.

(** C5 fails on the code: on a table whose column bathrooms is entirely
    null the call completes, beds gets its median 3 and bathrooms stays
    null. *)
Lemma handle_numeric_all_null_completes :
  (handle_numeric 0%nat "median" [all_null_bathrooms]).2 = Ok 0%nat /\
  map to_lists (handle_numeric 0%nat "median" [all_null_bathrooms]).1 =
    [[ (1%Z, [Null; Num (Q2Qc 1)]); (2%Z, [Null; Num (Q2Qc 3)]);
       (3%Z, [Null; Num (Q2Qc 3)]); (4%Z, [Null; Num (Q2Qc 5)]) ]].
Proof. split; vm_compute; reflexivity. Qed.

Lemma handle_numeric_all_null_witness :
  exists df',
    handle_numeric 0%nat "median" [all_null_bathrooms] =
      (<[0%nat := df']> [all_null_bathrooms], Ok 0%nat) /\
    dtype_of (columns df') "bathrooms" = Some number /\
    index df' = index all_null_bathrooms /\
    (forall i r, (i, r) ∈ rows df' -> r !!! "bathrooms" = Null).
Proof.
  apply (handle_numeric_all_null [all_null_bathrooms] 0%nat all_null_bathrooms
           "median" "bathrooms").
  - reflexivity.
  - reflexivity.
  - apply (rows_Forall (fun _ r => r !!! "bathrooms" = Null)). by_decide.
Defined.

(** C6, where the code departs from it. The null of the rate column passes
    through [percentage_to_numeric]; the null of the price column is sliced
    like a string by [money_to_numeric] and raises a TypeError, which
    [clean_data] does not catch. *)
Theorem money_to_numeric_raises_on_null :
  percentage_to_numeric rates = Ok (mkSeries object [(1%Z, Text "95"); (2%Z, Null)]) /\
  money_to_numeric prices = Raise TypeError /\
  clean_data parse_decimal 0%nat [price_with_null] = ([price_with_null], Raise TypeError).
Proof. repeat split; vm_compute; reflexivity. Qed.

(** C7, where the code departs from it. When one placeholder column is
    missing, the drop of the three fails as a whole and the fallback drops the
    empty token only: the placeholder that is there stays among the columns.
    When the empty token is missing, the fallback itself raises a KeyError. *)
Theorem get_df_from_column_keeps_placeholder :
  names <$> get_df_from_column amenities_one_placeholder "amenities" strip_braces =
    Ok ["amenities"; "TV"; "translation missing: en.hosting_amenity_49";
        "number_of_amenities"] /\
  get_df_from_column amenities_no_empty_token "amenities" strip_braces = Raise KeyError.
Proof. split; vm_compute; reflexivity. Qed.

Example get_df_from_column_letters :
  (fun d => (names d, to_lists d)) <$> get_df_from_column letters "letters" id =
    Ok (["letters"; "a"; "b"; "c"; "number_of_letters"],
        [ (1%Z, [Tokens ["a"; "b"]; Int 1; Int 1; Int 0; Int 2]);
          (2%Z, [Tokens ["b"; "c"]; Int 0; Int 1; Int 1; Int 2]) ]).
Proof. vm_compute. reflexivity. Qed.

(** C8 fails on the code: the first run returns a new table (the fifth of
    the store); the second run, on that table, raises a KeyError. *)
Lemma clean_data_twice_raises :
  (clean_data parse_decimal 0%nat [raw_listings]).2 = Ok 4%nat /\
  (clean_data parse_decimal 4%nat (clean_data parse_decimal 0%nat [raw_listings]).1).2 =
    Raise KeyError.
Proof. split; vm_compute; reflexivity. Qed.

Example clean_data_raw_listings :
  (fun d => (names d, to_lists d)) <$>
    (clean_data parse_decimal 0%nat [raw_listings]).1 !! 4%nat =
  Some (["zipcode"; "summary"; "property_type"; "host_response_time"; "market";
         "host_neighbourhood"; "city"],
        [ (1%Z, [Text "02108"; Text "Nice"; Text "Apartment"; Text "within an hour";
                 Text "Boston"; Text "Beacon Hill"; Text "Boston"]);
          (2%Z, [Text "02108"; Text "missing"; int_cell 1; Text "within an hour";
                 Text "Boston"; Text "Beacon Hill"; Text "Boston"]) ]).
Proof. vm_compute. reflexivity. Qed.

Lemma clean_data_not_rerunnable_witness :
  ((exists c, c ∈ ["host_location"; "neighbourhood"] /\ c ∉ names raw_listings) ->
   exists σ' e, clean_data parse_decimal 0%nat [raw_listings] = (σ', Raise e)) /\
  (forall σ' new,
     clean_data parse_decimal 0%nat [raw_listings] = (σ', Ok new) ->
     (exists df', σ' !! new = Some df' /\
        forall c, c ∈ ["host_location"; "neighbourhood"] -> c ∉ names df') /\
     exists σ'' e, clean_data parse_decimal new σ' = (σ'', Raise e)).
Proof.
  apply (clean_data_not_rerunnable parse_decimal [raw_listings] 0%nat raw_listings).
  reflexivity.
Defined.

(** C9 fails on the code: the KeyError of the last step leaves the input
    table with its price converted, its redundant column and its duplicate
    row dropped. *)
Lemma clean_data_raises_after_update :
  (clean_data parse_decimal 0%nat [listings_without_zipcode]).2 = Raise KeyError /\
  (fun d => (columns d, to_lists d)) <$>
    (clean_data parse_decimal 0%nat [listings_without_zipcode]).1 =
    [([("price", number)], [(1%Z, [Num (Q2Qc (120000 # 100))])])] /\
  (clean_data parse_decimal 0%nat [listings_without_zipcode]).1 !! 0%nat <>
    Some listings_without_zipcode.
Proof.
  split; [vm_compute; reflexivity|]. split; [vm_compute; reflexivity|].
  intros Heq. apply (f_equal (fmap names)) in Heq. vm_compute in Heq. discriminate.
Qed.

Lemma clean_data_updates_input_in_place_witness :
  (forall r, (r < length [listings_without_zipcode])%nat -> r <> 0%nat ->
     (clean_data parse_decimal 0%nat [listings_without_zipcode]).1 !! r =
       [listings_without_zipcode] !! r) /\
  (exists cur,
     (clean_data parse_decimal 0%nat [listings_without_zipcode]).1 !! 0%nat = Some cur /\
     forall c, c ∈ names cur -> c ∈ names listings_without_zipcode) /\
  (forall new, (clean_data parse_decimal 0%nat [listings_without_zipcode]).2 = Ok new ->
     (length [listings_without_zipcode] <= new)%nat /\
     is_Some ((clean_data parse_decimal 0%nat [listings_without_zipcode]).1 !! new)) /\
  (forall σ0 table σ1 res0,
     handle_categorical table σ0 = (σ1, res0) ->
     forall r, (r < length σ0)%nat -> σ1 !! r = σ0 !! r).
Proof.
  apply (clean_data_updates_input_in_place parse_decimal [listings_without_zipcode]
           0%nat listings_without_zipcode).
  - reflexivity.
  - vm_compute. reflexivity.
Defined.

(** ** More on the threshold pruner *)

Lemma drop_missing_pruned σ dataframe df row threshold :
  σ !! dataframe = Some df ->
  drop_missing dataframe row threshold σ =
    (σ ++ [pruned df row threshold], Ok (length σ)).
Proof.
  intros Hσ. unfold drop_missing.
  rewrite bind_run, read_run, (lookup_total_store _ _ _ Hσ). cbv zeta.
  rewrite bind_run. unfold lift, drop_labels, pruned. destruct row.
  - unfold drop_rows. rewrite decide_True; [done|].
    apply Forall_forall. intros i Hi. rewrite <- isnull_sum_rows_fst.
    by eapply filter_divide_subseteq.
  - unfold drop_columns. rewrite decide_True; [done|].
    apply Forall_forall. intros i Hi. rewrite <- isnull_sum_columns_fst.
    by eapply filter_divide_subseteq.
Qed.

Lemma filter_notin_nil {A B} `{EqDecision A} (l : list (A * B)) :
  filter (fun p => p.1 ∉ ([] : list A)) l = l.
Proof.
  induction l as [|x l IH]; [done|]. rewrite filter_cons, IH.
  rewrite decide_True; [done|apply not_elem_of_nil].
Qed.

Lemma elem_of_rows_to_drop (df : DataFrame cell) threshold i :
  i ∈ rows_to_drop df threshold <->
  exists r, (i, r) ∈ rows df /\
    float_gt (divide (length (filter (fun c => isna (r !!! c) = true) (names df)))
                (length (columns df))) threshold = true.
Proof.
  unfold rows_to_drop, isnull_sum_rows, shape. simpl.
  rewrite list_elem_of_fmap. split.
  - intros ([j x] & -> & Hin). apply list_elem_of_filter in Hin as [Hgt Hin].
    rewrite <- list_fmap_compose in Hin.
    apply list_elem_of_fmap in Hin as ([j' r] & Heq & Hin). simpl in Heq.
    injection Heq as -> ->. by exists r.
  - intros (r & Hin & Hgt). eexists (i, _). split; [done|].
    apply list_elem_of_filter. split; [exact Hgt|].
    rewrite <- list_fmap_compose. apply list_elem_of_fmap. by exists (i, r).
Qed.

Lemma elem_of_columns_to_drop (df : DataFrame cell) threshold c :
  c ∈ columns_to_drop df threshold <->
  c ∈ names df /\
  float_gt (divide (length (filter (fun p => isna (p.2 !!! c) = true) (rows df)))
              (length (rows df))) threshold = true.
Proof.
  unfold columns_to_drop, isnull_sum_columns, shape. simpl.
  rewrite list_elem_of_fmap. split.
  - intros ([c' x] & -> & Hin). apply list_elem_of_filter in Hin as [Hgt Hin].
    rewrite <- list_fmap_compose in Hin.
    apply list_elem_of_fmap in Hin as (c0 & Heq & Hin). simpl in Heq.
    injection Heq as -> ->. done.
  - intros (Hin & Hgt). eexists (c, _). split; [done|].
    apply list_elem_of_filter. split; [exact Hgt|].
    rewrite <- list_fmap_compose. apply list_elem_of_fmap. by exists c.
Qed.

Lemma pruned_nothing_to_drop (df : DataFrame cell) row threshold :
  (if row : bool then rows_to_drop df threshold = []
   else columns_to_drop df threshold = []) ->
  pruned df row threshold = df.
Proof.
  unfold pruned. destruct row; intros Hnil; rewrite Hnil, filter_notin_nil.
  - by destruct df.
  - destruct df as [cols rs]. simpl. f_equal. etrans; [|apply list_fmap_id].
    apply list_fmap_ext. by intros ? [i r].
Qed.

Lemma length_filter_le {A} (P : A -> Prop) `{!forall x, Decision (P x)} (l : list A) :
  (length (filter P l) <= length l)%nat.
Proof. apply length_filter. Qed.

Lemma positive_of_nat_Z n : (0 < n)%nat -> Z.pos (Pos.of_nat n) = Z.of_nat n.
Proof. intros Hn. rewrite <- positive_nat_Z. by rewrite Nat2Pos.id by lia. Qed.

Lemma float_gt_divide_le k n t :
  (k <= n)%nat -> (1 <= t)%Qc -> float_gt (divide k n) t = false.
Proof.
  intros Hk Ht. destruct n as [|n].
  - by replace k with 0%nat by lia.
  - unfold divide. simpl float_gt. apply bool_decide_eq_false.
    apply Qcle_not_lt. etrans; [|exact Ht].
    unfold Qcle. simpl. rewrite Qred_correct. unfold Qle. simpl.
    rewrite positive_of_nat_Z by lia. lia.
Qed.

Lemma float_gt_divide_zero n t :
  (0 <= t)%Qc -> float_gt (divide 0 n) t = false.
Proof.
  intros Ht. destruct n as [|n]; [done|].
  unfold divide. simpl float_gt. apply bool_decide_eq_false.
  apply Qcle_not_lt. etrans; [|exact Ht].
  unfold Qcle. simpl. rewrite Qred_correct. unfold Qle. simpl. lia.
Qed.

Lemma filter_none {A} (P : A -> Prop) `{!forall x, Decision (P x)} (l : list A) :
  Forall (fun x => ¬ P x) l -> filter P l = [].
Proof.
  induction 1 as [|x l Hx _ IH]; [done|]. rewrite filter_cons, IH.
  by rewrite decide_False.
Qed.

(** X1. A table without columns, pruned by rows, or without rows, pruned by
    columns, makes the divisor zero: the quotient is NaN, no comparison holds,
    and [drop_missing] returns an equal copy instead of raising. *)
Theorem drop_missing_zero_divisor σ dataframe df row threshold :
  σ !! dataframe = Some df ->
  (if row : bool then columns df = [] else rows df = []) ->
  drop_missing dataframe row threshold σ = (σ ++ [df], Ok (length σ)).
Proof.
  intros Hσ Hempty. rewrite (drop_missing_pruned _ _ df) by done.
  rewrite pruned_nothing_to_drop; [done|]. destruct row.
  - apply elem_of_nil_inv. intros i (r & Hin & Hgt)%elem_of_rows_to_drop.
    unfold names in Hgt. by rewrite Hempty in Hgt.
  - apply elem_of_nil_inv. intros c (Hin & Hgt)%elem_of_columns_to_drop.
    by rewrite Hempty in Hgt.
Qed.

(** X2. Nothing is dropped, on either axis, when the threshold is at least 1
    (a share of nulls never exceeds 1), or when it is at least 0 and the table
    holds no null: the result is an equal copy. *)
Theorem drop_missing_keeps_all σ dataframe df row threshold :
  σ !! dataframe = Some df ->
  (1 <= threshold)%Qc \/
  ((0 <= threshold)%Qc /\
   forall i r c, (i, r) ∈ rows df -> c ∈ names df -> isna (r !!! c) = false) ->
  drop_missing dataframe row threshold σ = (σ ++ [df], Ok (length σ)).
Proof.
  intros Hσ Hcase. rewrite (drop_missing_pruned _ _ df) by done.
  rewrite pruned_nothing_to_drop; [done|]. destruct row.
  - apply elem_of_nil_inv. intros i (r & Hin & Hgt)%elem_of_rows_to_drop.
    destruct Hcase as [Ht|[Ht Hnull]].
    + rewrite float_gt_divide_le in Hgt; [done| |done].
      unfold names. rewrite <- (length_fmap fst (columns df)). apply length_filter.
    + rewrite filter_none in Hgt.
      * by rewrite float_gt_divide_zero in Hgt.
      * apply Forall_forall. intros c Hc. by rewrite (Hnull i r c Hin Hc).
  - apply elem_of_nil_inv. intros c (Hin & Hgt)%elem_of_columns_to_drop.
    destruct Hcase as [Ht|[Ht Hnull]].
    + rewrite float_gt_divide_le in Hgt; [done|apply length_filter|done].
    + rewrite filter_none in Hgt.
      * by rewrite float_gt_divide_zero in Hgt.
      * apply Forall_forall. intros [i r] Hir. simpl. by rewrite (Hnull i r c Hir Hin).
Qed.

Lemma length_filter_fmap {A B} (g : A -> B) (P : B -> Prop) (Q : A -> Prop)
    `{!forall x, Decision (P x)} `{!forall x, Decision (Q x)} (l : list A) :
  (forall x, x ∈ l -> P (g x) <-> Q x) ->
  length (filter P (map g l)) = length (filter Q l).
Proof.
  induction l as [|x l IH]; intros Hext; [done|]. simpl.
  rewrite !filter_cons.
  assert (Hx : P (g x) <-> Q x) by (apply Hext; by left).
  assert (IH' : length (filter P (map g l)) = length (filter Q l))
    by (apply IH; intros y Hy; apply Hext; by right).
  destruct (decide (P (g x))), (decide (Q x)); simpl; rewrite ?IH'; tauto || done.
Qed.

Lemma pruned_idempotent (df : DataFrame cell) row threshold :
  pruned (pruned df row threshold) row threshold = pruned df row threshold.
Proof.
  apply pruned_nothing_to_drop. destruct row.
  - apply elem_of_nil_inv. intros i (r & Hin & Hgt)%elem_of_rows_to_drop.
    unfold pruned in Hin, Hgt. simpl in Hin, Hgt.
    apply list_elem_of_filter in Hin as [Hnot Hin]. apply Hnot. simpl.
    apply elem_of_rows_to_drop. by exists r.
  - apply elem_of_nil_inv. intros c (Hin & Hgt)%elem_of_columns_to_drop.
    unfold pruned, names in Hin. simpl in Hin.
    apply list_elem_of_fmap in Hin as ([c' t] & -> & Hin).
    apply list_elem_of_filter in Hin as [Hnot Hin]. apply Hnot. simpl.
    apply elem_of_columns_to_drop. split.
    { apply list_elem_of_fmap. by exists (c', t). }
    unfold pruned in Hgt. simpl in Hgt. rewrite length_map in Hgt.
    rewrite (length_filter_fmap _ _ (fun p => isna (p.2 !!! c') = true)) in Hgt;
      [done|].
    intros [i r] _. simpl. by rewrite foldr_delete_lookup_total.
Qed.

(** X3. Pruning is idempotent on each axis: [drop_missing] applied to its own
    result, with the same axis and threshold, returns an equal table. *)
Theorem drop_missing_idempotent σ dataframe df row threshold :
  σ !! dataframe = Some df ->
  exists new,
    drop_missing dataframe row threshold σ = (σ ++ [new], Ok (length σ)) /\
    drop_missing (length σ) row threshold (σ ++ [new]) =
      ((σ ++ [new]) ++ [new], Ok (length (σ ++ [new]))).
Proof.
  intros Hσ. exists (pruned df row threshold).
  split; [by apply drop_missing_pruned|].
  rewrite (drop_missing_pruned _ _ (pruned df row threshold)) by apply lookup_snoc.
  by rewrite pruned_idempotent.
Qed.

(** ** The redundancy remover *)

Lemma handle_repetitive_data_run σ dataframe df :
  σ !! dataframe = Some df ->
  handle_repetitive_data dataframe σ =
    (<[dataframe := drop_duplicates (foldl drop_if_present df redundant_columns)]> σ,
     Ok dataframe).
Proof.
  intros Hσ. unfold handle_repetitive_data. cbv zeta. rewrite bind_run.
  destruct (for_in_place redundant_columns
              (fun column =>
                 try_except
                   (df0 ← read dataframe;
                    new ← lift (drop_labels df0 (ColumnLabels [column]));
                    write dataframe new)
                   KeyError (mret tt))
              dataframe drop_if_present (fun _ => True)) with df σ
    as [Hrun _]; [|done|done|].
  - intros x d σ' _ _ Hσ'. split; [|done]. rewrite try_except_run.
    rewrite (bind_read _ _ _ _ Hσ'). unfold drop_if_present.
    destruct (drop_labels d (ColumnLabels [x])) as [new|e] eqn:E.
    + by rewrite bind_lift_Ok, write_run.
    + rewrite bind_lift_Raise. simpl in E. unfold drop_columns in E.
      case_decide; [done|]. injection E as <-. rewrite decide_True by done.
      rewrite ret_run. by rewrite list_insert_id.
  - unfold redundant_columns in Hrun. rewrite Hrun.
    assert (Hlt : (dataframe < length σ)%nat) by (by eapply lookup_lt_Some).
    rewrite (bind_read _ _ _ _ (lookup_insert_store σ dataframe _ Hlt)).
    by rewrite bind_write, ret_run, list_insert_insert_eq.
Qed.

Lemma filter_notin_fst {B} (ls : list string) (l : list (string * B)) :
  (filter (fun p => p.1 ∉ ls) l).*1 = filter (fun x => x ∉ ls) (l.*1).
Proof.
  induction l as [|[a b] l IH]; [done|]. rewrite fmap_cons, !filter_cons.
  cbn [fst]. case_decide; [rewrite fmap_cons|]; by rewrite IH.
Qed.

Lemma names_drop_if_present (df : DataFrame cell) c :
  names (drop_if_present df c) = filter (fun x => x <> c) (names df).
Proof.
  unfold drop_if_present, drop_labels, drop_columns. case_decide as Hall.
  - unfold names. cbn [columns].
    rewrite filter_notin_fst.
    apply filter_ext_in. intros x _. by rewrite list_elem_of_singleton.
  - symmetry. induction (names df) as [|x l IH]; [done|].
    rewrite filter_cons. rewrite decide_True.
    + f_equal. apply IH. intros Hl. apply Hall. apply Forall_cons in Hl as [Hl _].
      apply Forall_cons. split; [by right|done].
    + intros ->. apply Hall. apply Forall_cons. split; [by left|done].
Qed.

Lemma keep_first_sublist cs seen rs : keep_first cs seen rs `sublist_of` rs.
Proof.
  revert seen. induction rs as [|[i r] rs IH]; intros seen; simpl; [done|].
  case_decide; [by apply sublist_cons|by apply sublist_skip].
Qed.




Lemma keep_first_idempotent cs seen rs :
  keep_first cs seen (keep_first cs seen rs) = keep_first cs seen rs.
Proof.
  revert seen. induction rs as [|[i r] rs IH]; intros seen; simpl; [done|].
  case_decide as Hseen; [apply IH|]. simpl. rewrite decide_False by done.
  by rewrite IH.
Qed.

Lemma drop_duplicates_idempotent (df : DataFrame cell) :
  drop_duplicates (drop_duplicates df) = drop_duplicates df.
Proof.
  unfold drop_duplicates. destruct (decide (columns df = [])) as [Hc|Hc].
  - by rewrite decide_True.
  - cbn [columns]. rewrite decide_False by done. unfold names. cbn [columns rows].
    by rewrite keep_first_idempotent.
Qed.

Lemma names_foldl_drop_if_present ls (df : DataFrame cell) :
  names (foldl drop_if_present df ls) = filter (fun c => c ∉ ls) (names df).
Proof.
  revert df. induction ls as [|c ls IH]; intros df; simpl.
  - symmetry. induction (names df) as [|x l IHl]; [done|].
    rewrite filter_cons, decide_True by apply not_elem_of_nil. by rewrite IHl.
  - rewrite IH, names_drop_if_present. generalize (names df) as l.
    induction l as [|x l IHl]; [done|]. rewrite !filter_cons.
    destruct (decide (x <> c)) as [Hne|Heq].
    + rewrite filter_cons.
      destruct (decide (x ∉ ls)) as [Hn|Hn].
      * rewrite decide_True; [by rewrite IHl|].
        by intros [?|?]%elem_of_cons.
      * rewrite decide_False; [done|]. intros Hx. apply Hn. intros Hin. apply Hx.
        by right.
    + apply dec_stable in Heq. subst x. rewrite decide_False; [done|].
      intros Hx. apply Hx. by left.
Qed.

Lemma rows_foldl_drop_if_present ls (df : DataFrame cell) :
  exists g : gmap string cell -> gmap string cell,
    rows (foldl drop_if_present df ls) = map (fun p => (p.1, g p.2)) (rows df) /\
    forall r c, c ∉ ls -> g r !!! c = r !!! c.
Proof.
  revert df. induction ls as [|c ls IH]; intros df; simpl.
  - exists id. split; [|done]. symmetry. etrans; [|apply list_fmap_id].
    apply list_fmap_ext. by intros ? [i r].
  - destruct (IH (drop_if_present df c)) as (g & Hrows & Hg).
    assert (Hstep : exists h : gmap string cell -> gmap string cell,
              rows (drop_if_present df c) = map (fun p => (p.1, h p.2)) (rows df) /\
              forall r c', c' <> c -> h r !!! c' = r !!! c').
    { unfold drop_if_present, drop_labels, drop_columns. case_decide.
      - exists (delete c). split.
        + cbn [rows]. apply list_fmap_ext. by intros ? [i r].
        + intros r c' Hne. by apply lookup_total_delete_ne.
      - exists id. split; [|done]. symmetry. etrans; [|apply list_fmap_id].
        apply list_fmap_ext. by intros ? [i r]. }
    destruct Hstep as (h & Hrows' & Hh). exists (g ∘ h). split.
    + rewrite Hrows, Hrows'. rewrite <- list_fmap_compose.
      apply list_fmap_ext. by intros ? [i r].
    + intros r c' Hc'. apply not_elem_of_cons in Hc' as [Hne Hc'].
      simpl. rewrite Hg by done. by apply Hh.
Qed.

(** X4. [handle_repetitive_data] never raises, whichever of the four
    redundant columns the table has: it updates the table in place and
    returns it; afterwards the columns are those of the input that are not
    redundant, in their order, the row labels are a subsequence of the
    input's, and every row left is a row of the input with its cells in
    the remaining columns unchanged. *)
Theorem handle_repetitive_data_result σ dataframe df :
  σ !! dataframe = Some df ->
  exists df',
    handle_repetitive_data dataframe σ = (<[dataframe := df']> σ, Ok dataframe) /\
    names df' = filter (fun c => c ∉ redundant_columns) (names df) /\
    index df' `sublist_of` index df /\
    forall i r', (i, r') ∈ rows df' ->
      exists r, (i, r) ∈ rows df /\
                forall c, c ∉ redundant_columns -> r' !!! c = r !!! c.
Proof.
  intros Hσ. eexists. split; [by apply handle_repetitive_data_run|].
  set (df1 := foldl drop_if_present df redundant_columns).
  destruct (rows_foldl_drop_if_present redundant_columns df) as (g & Hrows & Hg).
  fold df1 in Hrows.
  assert (Hsub : rows (drop_duplicates df1) `sublist_of` rows df1).
  { unfold drop_duplicates. case_decide; [done|]. apply keep_first_sublist. }
  split; [|split].
  - rewrite names_drop_duplicates. apply names_foldl_drop_if_present.
  - unfold index. etrans; [apply fmap_sublist, Hsub|]. rewrite Hrows.
    rewrite <- list_fmap_compose. done.
  - intros i r' Hin. apply (fun H => elem_of_sublist _ _ _ H Hsub) in Hin.
    rewrite Hrows in Hin.
    apply list_elem_of_fmap in Hin as ([j r] & [= -> ->] & Hin).
    exists r. split; [done|]. intros c Hc. by apply Hg.
Qed.


(** X6. [handle_repetitive_data] is idempotent: a second call finds no
    redundant column and no duplicate row, and leaves the table as the first
    call left it. *)
Theorem handle_repetitive_data_idempotent σ dataframe df :
  σ !! dataframe = Some df ->
  exists df',
    handle_repetitive_data dataframe σ = (<[dataframe := df']> σ, Ok dataframe) /\
    handle_repetitive_data dataframe (<[dataframe := df']> σ) =
      (<[dataframe := df']> σ, Ok dataframe).
Proof.
  intros Hσ. eexists. split; [by apply handle_repetitive_data_run|].
  assert (Hlt : (dataframe < length σ)%nat) by (by eapply lookup_lt_Some).
  rewrite (handle_repetitive_data_run _ _ _ (lookup_insert_store σ dataframe _ Hlt)).
  rewrite list_insert_insert_eq. do 2 f_equal.
  set (df1 := foldl drop_if_present df redundant_columns).
  assert (Hfix : forall ls (d : DataFrame cell),
            (forall c, c ∈ ls -> c ∉ names d) -> foldl drop_if_present d ls = d).
  { induction ls as [|c ls IH]; intros d Hd; [done|]. simpl.
    assert (Hc : drop_if_present d c = d).
    { unfold drop_if_present, drop_labels, drop_columns. rewrite decide_False; [done|].
      intros [Hin _]%Forall_cons. by apply (Hd c); [left|]. }
    rewrite Hc. apply IH. intros c' Hc'. apply Hd. by right. }
  rewrite Hfix; [apply drop_duplicates_idempotent|].
  intros c Hc. rewrite names_drop_duplicates.
  unfold df1. rewrite names_foldl_drop_if_present.
  by intros [Hn _]%list_elem_of_filter.
Qed.

(** ** More on the numeric imputer *)

Lemma rows_impute_column func (df : DataFrame cell) x :
  x ∈ names df ->
  rows (impute_column func df x) =
    map (fun p => (p.1, <[x := if isna (p.2 !!! x) then statistic func df x
                               else p.2 !!! x]> p.2)) (rows df).
Proof.
  intros Hx. unfold impute_column. destruct (getitem_in df x Hx) as (t & _ & Hget).
  rewrite Hget. rewrite (rows_setitem_fillna _ _ _ _ Hget).
  by rewrite (s_values_getitem _ _ _ Hget).
Qed.

Lemma column_values_impute_column func (df : DataFrame cell) x c :
  x ∈ names df ->
  column_values (impute_column func df x) c =
    if decide (c = x)
    then map (fun v => if isna v then statistic func df x else v) (column_values df x)
    else column_values df c.
Proof.
  intros Hx. unfold column_values. rewrite rows_impute_column by done.
  rewrite <- !list_fmap_compose. case_decide as Hc.
  - subst c. apply list_fmap_ext. intros ? [i r] _. simpl.
    by rewrite lookup_total_insert_eq.
  - apply list_fmap_ext. intros ? [i r] _. simpl.
    by rewrite lookup_total_insert_ne.
Qed.

Lemma dropna_fill_null l :
  dropna (map (fun v => if isna v then Null else v) l) = dropna l.
Proof.
  unfold dropna. induction l as [|v l IH]; [done|]. simpl.
  rewrite !filter_cons. destruct v; simpl; by rewrite IH.
Qed.

Lemma foldl_impute_column func l :
  forall df : DataFrame cell,
    (forall x, x ∈ l -> x ∈ names df) ->
    forall k i r,
      rows df !! k = Some (i, r) ->
      exists r', rows (foldl (impute_column func) df l) !! k = Some (i, r') /\
                 forall c, r' !!! c = imputed_cell func df l r c.
Proof.
  induction l as [|x l IH]; intros df Hl k i r Hk.
  - exists r. split; [done|]. intros c. unfold imputed_cell.
    rewrite decide_False; [done|apply not_elem_of_nil].
  - assert (Hx : x ∈ names df) by (apply Hl; by left).
    simpl. set (d1 := impute_column func df x).
    assert (Hk1 : rows d1 !! k =
                  Some (i, <[x := if isna (r !!! x) then statistic func df x
                                  else r !!! x]> r)).
    { unfold d1. rewrite rows_impute_column by done.
      by rewrite list_lookup_fmap, Hk. }
    destruct (IH d1) with k i (<[x := if isna (r !!! x) then statistic func df x
                                      else r !!! x]> r) as (r' & Hk' & Hr'); [|done|].
    { intros y Hy. unfold d1. rewrite names_impute_column. apply Hl. by right. }
    exists r'. split; [done|]. intros c. rewrite Hr'. unfold imputed_cell.
    assert (Hstat : forall c', c' <> x -> statistic func d1 c' = statistic func df c').
    { intros c' Hne. unfold statistic, d1.
      rewrite column_values_impute_column by done. by rewrite decide_False. }
    destruct (decide (c = x)) as [->|Hne].
    + rewrite lookup_total_insert_eq. rewrite (decide_True (P := x ∈ x :: l)) by (by left).
      destruct (isna (r !!! x)) eqn:Hna.
      * destruct (decide (x ∈ l)) as [Hin|Hin]; [|done].
        destruct (statistic func df x) eqn:Hs; try done. simpl.
        unfold statistic, d1. rewrite column_values_impute_column by done.
        rewrite decide_True by done. fold (statistic func df x). rewrite Hs.
        rewrite dropna_fill_null. exact Hs.
      * rewrite Hna. by case_decide.
    + rewrite lookup_total_insert_ne by done. rewrite Hstat by done.
      destruct (decide (c ∈ l)) as [Hin|Hin].
      * by rewrite decide_True by (by right).
      * rewrite decide_False; [done|]. by intros [?|?]%elem_of_cons.
Qed.

Lemma elem_of_columns_missing_list (df : DataFrame cell) t c :
  c ∈ columns_missing_list df t <->
  (c, t) ∈ columns df /\ exists i r, (i, r) ∈ rows df /\ isna (r !!! c) = true.
Proof.
  unfold columns_missing_list, isnull_sum_columns, names, select_dtypes. simpl.
  split.
  - intros Hc. apply list_elem_of_fmap in Hc as [[c0 k] [-> Hc]].
    apply list_elem_of_filter in Hc as [Hk Hc]. simpl in Hk.
    apply list_elem_of_fmap in Hc as [c' [[= <- ->] Hc]].
    apply list_elem_of_fmap in Hc as [[c1 t1] [-> Hc]].
    apply list_elem_of_filter in Hc as [Ht Hc]. simpl in Ht. subst t1. simpl.
    split; [done|].
    match type of Hk with
    | (0 < length ?l)%nat =>
        assert (Hin : exists p, p ∈ l)
          by (destruct l as [|p l']; [by apply Nat.lt_irrefl in Hk|exists p; by left])
    end.
    destruct Hin as [[i r] Hin].
    apply list_elem_of_filter in Hin as [Hna Hin]. by exists i, r.
  - intros [Hc (i & r & Hir & Hna)].
    apply list_elem_of_fmap.
    exists (c, length (filter (fun p : label * gmap string cell =>
                                 isna (p.2 !!! c) = true) (rows df))).
    split; [done|]. apply list_elem_of_filter. split.
    + simpl.
      assert (Hin : (i, r) ∈ filter (fun p : label * gmap string cell =>
                                       isna (p.2 !!! c) = true) (rows df))
        by (by apply list_elem_of_filter).
      destruct (filter _ (rows df)); [by apply elem_of_nil in Hin|simpl; apply Nat.lt_0_succ].
    + apply list_elem_of_fmap. exists c. split; [done|].
      apply list_elem_of_fmap. exists (c, t). split; [done|].
      by apply list_elem_of_filter.
Qed.

Lemma rows_foldl_impute_column_length func l (df : DataFrame cell) :
  length (rows (foldl (impute_column func) df l)) = length (rows df).
Proof.
  revert df. induction l as [|x l IH]; intros df; [done|]. simpl. rewrite IH.
  unfold impute_column. destruct (getitem df x) as [s|] eqn:Hget; [|done].
  simpl. generalize (s_values (fillna s (func (dropna (s_values s))))).
  induction (rows df) as [|[i r] rs IHrs]; intros vs; [done|]. simpl.
  by rewrite IHrs.
Qed.

Lemma foldl_impute_cells func (df : DataFrame cell) k i r :
  rows df !! k = Some (i, r) ->
  exists r',
    rows (foldl (impute_column func) df (columns_missing_list df number)) !! k =
      Some (i, r') /\
    forall c, r' !!! c =
      if isna (r !!! c) && bool_decide ((c, number) ∈ columns df)
      then statistic func df c else r !!! c.
Proof.
  intros Hk.
  destruct (foldl_impute_column func (columns_missing_list df number) df) with k i r
    as (r' & Hk' & Hr'); [apply columns_missing_list_names|done|].
  exists r'. split; [done|]. intros c. rewrite Hr'. unfold imputed_cell.
  destruct (isna (r !!! c)) eqn:Hna; simpl; [|by case_decide].
  case_bool_decide as Hc.
  - rewrite decide_True; [done|]. apply elem_of_columns_missing_list.
    split; [done|]. exists i, r. split; [by eapply list_elem_of_lookup_2|done].
  - rewrite decide_False; [done|]. by intros [? _]%elem_of_columns_missing_list.
Qed.

Lemma foldl_impute_cells_inv func (df : DataFrame cell) k i r' :
  rows (foldl (impute_column func) df (columns_missing_list df number)) !! k =
    Some (i, r') ->
  exists r,
    rows df !! k = Some (i, r) /\
    forall c, r' !!! c =
      if isna (r !!! c) && bool_decide ((c, number) ∈ columns df)
      then statistic func df c else r !!! c.
Proof.
  intros Hk'. pose proof (lookup_lt_Some _ _ _ Hk') as Hlt.
  rewrite rows_foldl_impute_column_length in Hlt.
  destruct (lookup_lt_is_Some_2 _ _ Hlt) as [[j r] Hk].
  destruct (foldl_impute_cells func df k j r Hk) as (r0 & Hk0 & Hr0).
  rewrite Hk' in Hk0. injection Hk0 as -> ->. by exists r.
Qed.

Lemma numbers_length_merge_sort qs : length (merge_sort Qcle qs) = length qs.
Proof. apply Permutation_length, merge_sort_Permutation. Qed.

Lemma np_median_Num l q : Num q ∈ l -> isna (np_median l) = false.
Proof.
  intros Hq. unfold np_median. cbv zeta. rewrite numbers_length_merge_sort.
  assert (Hin : q ∈ numbers l).
  { unfold numbers. apply list_elem_of_omap. by exists (Num q). }
  destruct (numbers l) as [|q0 qs]; [by apply elem_of_nil in Hin|].
  cbn [length]. by destruct (Nat.odd _).
Qed.

Lemma np_mean_Num l q : Num q ∈ l -> isna (np_mean l) = false.
Proof.
  intros Hq. unfold np_mean.
  assert (Hin : q ∈ numbers l).
  { unfold numbers. apply list_elem_of_omap. by exists (Num q). }
  by destruct (numbers l) as [|q0 qs]; [apply elem_of_nil in Hin|].
Qed.

Lemma np_median_not_Text l s : np_median l <> Text s.
Proof.
  unfold np_median. cbv zeta. destruct (length _); [done|]. by destruct (Nat.odd _).
Qed.

Lemma np_mean_not_Text l s : np_mean l <> Text s.
Proof. unfold np_mean. by destruct (numbers l). Qed.

(** X7. [handle_numeric] works in place and always succeeds; it keeps the
    column names and the rows, fills every null cell of a column of numeric
    dtype with the median (or the mean, for any method other than "median")
    of the numbers of that column, and changes no other cell. *)
Theorem handle_numeric_result σ dataframe df method :
  σ !! dataframe = Some df ->
  exists df',
    handle_numeric dataframe method σ = (<[dataframe := df']> σ, Ok dataframe) /\
    names df' = names df /\
    index df' = index df /\
    forall k i r, rows df !! k = Some (i, r) ->
      exists r', rows df' !! k = Some (i, r') /\
        forall c, r' !!! c =
          if isna (r !!! c) && bool_decide ((c, number) ∈ columns df)
          then statistic (if decide (method = "median") then np_median else np_mean)
                 df c
          else r !!! c.
Proof.
  intros Hσ. eexists. split; [by apply handle_numeric_run|].
  split; [apply names_foldl_impute_column|].
  split; [|intros k i r Hk; by apply foldl_impute_cells].
  apply list_eq. intros k. unfold index. rewrite !list_lookup_fmap.
  destruct (rows df !! k) as [[i r]|] eqn:Hk.
  - destruct (foldl_impute_cells
                (if decide (method = "median") then np_median else np_mean) df k i r Hk)
      as (r' & -> & _). done.
  - rewrite (lookup_ge_None_2 (rows (foldl _ _ _)) k); [done|].
    rewrite rows_foldl_impute_column_length. by apply lookup_ge_None_1.
Qed.

(** X8. After [handle_numeric] a column of numeric dtype that held at least
    one number holds no null. *)
Theorem handle_numeric_no_null_left σ dataframe df method c :
  σ !! dataframe = Some df ->
  (c, number) ∈ columns df ->
  (exists i r q, (i, r) ∈ rows df /\ r !!! c = Num q) ->
  exists df',
    handle_numeric dataframe method σ = (<[dataframe := df']> σ, Ok dataframe) /\
    forall i r, (i, r) ∈ rows df' -> isna (r !!! c) = false.
Proof.
  intros Hσ Hc (i0 & r0 & q & Hin0 & Hq). eexists.
  split; [by apply handle_numeric_run|]. intros i r' Hin.
  apply list_elem_of_lookup_1 in Hin as [k Hk].
  apply foldl_impute_cells_inv in Hk as (r & Hk & Hr). rewrite Hr.
  destruct (isna (r !!! c)) eqn:Hna; [|done]. simpl.
  rewrite bool_decide_eq_true_2 by done.
  assert (Hval : Num q ∈ dropna (column_values df c)).
  { unfold dropna. apply list_elem_of_filter. split; [done|].
    unfold column_values. apply list_elem_of_fmap. exists (i0, r0). split; [by simpl|done]. }
  unfold statistic. case_decide; [by eapply np_median_Num|by eapply np_mean_Num].
Qed.

Lemma dtype_of_elem cols c t : dtype_of cols c = Some t -> (c, t) ∈ cols.
Proof.
  induction cols as [|[c' t'] cols IH]; simpl; [done|].
  case_decide; [intros [= ->]; subst; by left | intros H'; right; auto].
Qed.

Lemma number_impute_column func (df : DataFrame cell) x c :
  (forall l s, func l <> Text s) ->
  (c, number) ∈ columns (impute_column func df x) -> (c, number) ∈ columns df.
Proof.
  intros Hfunc. unfold impute_column.
  destruct (getitem df x) as [s|e] eqn:Hget; [|done].
  pose proof (getitem_Ok _ _ _ Hget) as (Hx & _ & Hdt).
  unfold setitem. simpl. rewrite decide_True by done.
  assert (Hv : match func (dropna (s_values s)) with
               | Text _ => if existsb isna (s_values s) then object else s_dtype s
               | _ => s_dtype s
               end = s_dtype s).
  { destruct (func (dropna (s_values s))) eqn:Hf; [done|done|by apply Hfunc in Hf]. }
  rewrite Hv. unfold set_dtype. intros Hc.
  apply list_elem_of_fmap in Hc as [[c0 t0] [Heq Hc]].
  case_decide as Hc0; injection Heq as -> Ht; [|by subst t0].
  subst c0. rewrite <- Ht in Hdt. by apply dtype_of_elem.
Qed.

Lemma number_foldl_impute_column func l (df : DataFrame cell) c :
  (forall l s, func l <> Text s) ->
  (c, number) ∈ columns (foldl (impute_column func) df l) -> (c, number) ∈ columns df.
Proof.
  intros Hfunc. revert df. induction l as [|x l IH]; intros df; [done|]. simpl.
  intros Hc. apply IH in Hc. by eapply number_impute_column.
Qed.

Lemma statistic_foldl_impute func (df : DataFrame cell) c :
  (c, number) ∈ columns df ->
  statistic func df c = Null ->
  statistic func (foldl (impute_column func) df (columns_missing_list df number)) c =
    Null.
Proof.
  intros Hc Hs. etrans; [|exact Hs]. unfold statistic. f_equal.
  rewrite <- (dropna_fill_null (column_values df c)). f_equal.
  unfold column_values. apply list_eq. intros k. rewrite !list_lookup_fmap.
  destruct (rows df !! k) as [[i r]|] eqn:Hk.
  - destruct (foldl_impute_cells func df k i r Hk) as (r' & -> & Hr'). simpl.
    rewrite Hr', Hs. rewrite bool_decide_eq_true_2 by done.
    by rewrite andb_true_r.
  - rewrite (lookup_ge_None_2 (rows (foldl _ _ _)) k); [done|].
    rewrite rows_foldl_impute_column_length. by apply lookup_ge_None_1.
Qed.

(** X9. A second run of [handle_numeric] on the table it has just filled
    changes no cell: the nulls the first run left are in columns without any
    number, whose statistic is NaN again. *)
Theorem handle_numeric_twice σ dataframe df method :
  σ !! dataframe = Some df ->
  exists df' df'',
    handle_numeric dataframe method σ = (<[dataframe := df']> σ, Ok dataframe) /\
    handle_numeric dataframe method (<[dataframe := df']> σ) =
      (<[dataframe := df'']> σ, Ok dataframe) /\
    names df'' = names df' /\
    index df'' = index df' /\
    forall k i r', rows df' !! k = Some (i, r') ->
      exists r'', rows df'' !! k = Some (i, r'') /\ forall c, r'' !!! c = r' !!! c.
Proof.
  intros Hσ.
  set (func := if decide (method = "median") then np_median else np_mean).
  assert (Hfunc : forall l s, func l <> Text s).
  { intros l s. unfold func. case_decide; [apply np_median_not_Text|apply np_mean_not_Text]. }
  set (df' := foldl (impute_column func) df (columns_missing_list df number)).
  set (df'' := foldl (impute_column func) df' (columns_missing_list df' number)).
  assert (Hlen : (dataframe < length σ)%nat) by (by eapply lookup_lt_Some).
  exists df', df''. split; [by apply handle_numeric_run|].
  split.
  { rewrite (handle_numeric_run (<[dataframe := df']> σ) dataframe df' method)
      by (by apply lookup_insert_store).
    by rewrite list_insert_insert_eq. }
  split; [apply names_foldl_impute_column|].
  assert (Hcells : forall k i r', rows df' !! k = Some (i, r') ->
            exists r'', rows df'' !! k = Some (i, r'') /\ forall c, r'' !!! c = r' !!! c).
  { intros k i r' Hk'.
    destruct (foldl_impute_cells func df' k i r' Hk') as (r'' & Hk'' & Hr'').
    exists r''. split; [done|]. intros c. rewrite Hr''.
    destruct (isna (r' !!! c)) eqn:Hna; [|done]. simpl.
    case_bool_decide as Hc; [|done].
    apply number_foldl_impute_column in Hc; [|done].
    apply foldl_impute_cells_inv in Hk' as (r & Hk & Hr).
    rewrite Hr in Hna |- *. rewrite bool_decide_eq_true_2, andb_true_r in Hna |- * by done.
    destruct (isna (r !!! c)) eqn:Hna0; [|by rewrite Hna0 in Hna].
    destruct (statistic func df c) eqn:Hs; try done.
    by apply statistic_foldl_impute. }
  split; [|done].
  apply list_eq. intros k. unfold index. rewrite !list_lookup_fmap.
  destruct (rows df' !! k) as [[i r]|] eqn:Hk.
  - destruct (Hcells k i r Hk) as (r'' & -> & _). done.
  - rewrite (lookup_ge_None_2 (rows df'') k); [done|]. unfold df''.
    rewrite rows_foldl_impute_column_length. by apply lookup_ge_None_1.
Qed.

(** ** The converters of formatted columns *)

Lemma remove_char_notin a s : a ∉ String.list_ascii_of_string (remove_char a s).
Proof.
  induction s as [|b s IH]; simpl; [apply not_elem_of_nil|].
  case_decide as Hb; [done|]. simpl. apply not_elem_of_cons. split; [|done].
  intros ->. by apply Hb.
Qed.

Lemma remove_char_id a s : a ∉ String.list_ascii_of_string s -> remove_char a s = s.
Proof.
  induction s as [|b s IH]; simpl; [done|]. intros [Hb Hs]%not_elem_of_cons.
  rewrite decide_False by (intros ->; by apply Hb). by rewrite IH.
Qed.

Lemma money_to_numeric_items (l : list (label * cell)) :
  (forall x, x ∈ l.*2 -> exists s, x = Text s) ->
  mapM (fun '(i, x) =>
          match x with
          | Text s => Ok (i, Text (remove_char ","%char (tail_str s)))
          | Null | Num _ => Raise TypeError
          end) l =
    Ok (map (fun p => (p.1, match p.2 with
                            | Text s => Text (remove_char ","%char (tail_str s))
                            | x => x
                            end)) l).
Proof.
  induction l as [|[i x] l IH]; intros Hl; [done|].
  destruct (Hl x) as [s ->]; [by left|]. cbn [mapM]. rewrite IH; [done|].
  intros y Hy. apply Hl. by right.
Qed.

Lemma money_to_numeric_items_raise (l : list (label * cell)) x :
  x ∈ l.*2 -> (forall s, x <> Text s) ->
  mapM (fun '(i, x) =>
          match x with
          | Text s => Ok (i, Text (remove_char ","%char (tail_str s)))
          | Null | Num _ => Raise TypeError
          end) l = Raise TypeError.
Proof.
  intros Hx Hne. induction l as [|[i y] l IH]; [by apply elem_of_nil in Hx|].
  cbn [mapM]. rewrite fmap_cons in Hx. cbn [snd] in Hx.
  apply elem_of_cons in Hx as [->|Hx].
  - simpl. destruct y; [done|done|by destruct (Hne s)].
  - rewrite (IH Hx). by destruct y.
Qed.

(** X10. On a series of strings [money_to_numeric] succeeds and keeps the
    index; every string loses its first character (the currency sign) and all
    its commas, so no comma is left, and a string without a comma only loses
    its first character. *)
Theorem money_to_numeric_strings series :
  (forall x, x ∈ s_values series -> exists s, x = Text s) ->
  exists out,
    money_to_numeric series = Ok out /\
    s_index out = s_index series /\
    forall k s, s_values series !! k = Some (Text s) ->
      exists s', s_values out !! k = Some (Text s') /\
                 s' = remove_char ","%char (tail_str s) /\
                 (","%char ∉ String.list_ascii_of_string s') /\
                 (","%char ∉ String.list_ascii_of_string s -> s' = tail_str s).
Proof.
  intros Htext. unfold money_to_numeric.
  rewrite money_to_numeric_items by done. eexists. split; [reflexivity|].
  unfold s_index, s_values. simpl. split.
  - rewrite <- list_fmap_compose. by apply list_fmap_ext.
  - intros k s Hk. exists (remove_char ","%char (tail_str s)).
    rewrite list_lookup_fmap in Hk. rewrite !list_lookup_fmap.
    destruct (s_items series !! k) as [[i x]|]; [|done]. simpl in Hk.
    injection Hk as ->. split; [done|]. split; [done|].
    split; [apply remove_char_notin|]. intros Hs. apply remove_char_id.
    intros Hin. apply Hs. destruct s; [done|]. simpl. by right.
Qed.

(** X11. One cell that is not a string (a null or a number), anywhere in the
    series, makes [money_to_numeric] raise a TypeError: no value is
    returned. *)
Theorem money_to_numeric_type_error series x :
  x ∈ s_values series -> (forall s, x <> Text s) ->
  money_to_numeric series = Raise TypeError.
Proof.
  intros Hx Hne. unfold money_to_numeric.
  by rewrite (money_to_numeric_items_raise _ x).
Qed.


(** ** More on the two mode imputers *)

Lemma getitem_notin {C} `{!Inhabited C} (df : DataFrame C) c :
  c ∉ names df -> getitem df c = Raise KeyError.
Proof.
  intros Hc. unfold getitem. destruct (dtype_of (columns df) c) eqn:E; [|done].
  by apply dtype_of_Some in E.
Qed.

Lemma getitem_dtype {C} `{!Inhabited C} (df : DataFrame C) c t :
  dtype_of (columns df) c = Some t ->
  getitem df c = Ok (mkSeries t (map (fun p => (p.1, p.2 !!! c)) (rows df))).
Proof.
  intros Ht. unfold getitem. rewrite Ht. do 2 f_equal.
  apply list_fmap_ext. by intros ? [i r].
Qed.

Lemma s_values_column (df : DataFrame cell) c t :
  s_values (mkSeries t (map (fun p => (p.1, p.2 !!! c)) (rows df))) =
    column_values df c.
Proof. unfold s_values, column_values. simpl. by rewrite <- list_fmap_compose. Qed.

(** X13. [get_mode] raises a KeyError when the column is missing, an
    IndexError on a column of object dtype without any non-null value, and a
    KeyError on a column of numeric dtype in which the number 0 does not
    occur (there [value_counts()[0]] looks up the label 0). *)
Theorem get_mode_raises (df : DataFrame cell) column :
  (column ∉ names df -> get_mode df column = Raise KeyError) /\
  (dtype_of (columns df) column = Some object ->
   (forall i r, (i, r) ∈ rows df -> isna (r !!! column) = true) ->
   get_mode df column = Raise IndexError) /\
  (dtype_of (columns df) column = Some number ->
   (forall i r, (i, r) ∈ rows df -> r !!! column <> Num (Q2Qc 0)) ->
   get_mode df column = Raise KeyError).
Proof.
  split; [|split].
  - intros Hc. unfold get_mode. by rewrite getitem_notin.
  - intros Ht Hnull. unfold get_mode. rewrite (getitem_dtype _ _ _ Ht). simpl.
    unfold value_counts. rewrite s_values_column.
    assert (Hvc : value_counts_of (column_values df column) = []).
    { apply value_counts_of_nil. unfold dropna.
      apply filter_none, Forall_forall.
      intros x ([i r] & -> & Hin)%list_elem_of_fmap. simpl.
      rewrite (Hnull i r Hin). done. }
    by rewrite Hvc.
  - intros Ht Hzero. unfold get_mode. rewrite (getitem_dtype _ _ _ Ht). simpl.
    unfold value_counts. rewrite s_values_column.
    destruct (list_find _ _) as [[k [v n]]|] eqn:Hfind; [|done].
    apply list_find_Some in Hfind as (Hk & Hv & _). simpl in Hv. subst v.
    apply list_elem_of_lookup_2 in Hk.
    unfold value_counts_of in Hk. cbv zeta in Hk.
    apply (proj1 (elem_of_sort_desc _ _)) in Hk.
    apply list_elem_of_fmap in Hk as [v [[= <- _] Hk]].
    apply (proj1 (elem_of_uniques _ _)) in Hk.
    apply list_elem_of_filter in Hk as [_ Hk].
    apply list_elem_of_fmap in Hk as [[i r] [Heq Hin]]. simpl in Heq.
    by destruct (Hzero i r Hin).
Qed.


Lemma eq_cell_true a b : eq_cell a b = true -> a = b.
Proof.
  destruct a, b; simpl; try done; intros H%bool_decide_eq_true; done.
Qed.

(** X15. With both columns in the table [search_similar_zip] never raises.
    It returns None exactly when no row of that zipcode has a value in the
    column (so always for a null zipcode, which equals no zipcode); any other
    result is a value the column holds in a row of that zipcode, and no value
    occurs more often among these rows. *)
Theorem search_similar_zip_result (df : DataFrame cell) column zipcode :
  column ∈ names df -> "zipcode" ∈ names df ->
  exists v,
    search_similar_zip df column zipcode = Ok v /\
    (v = Null <->
     forall i r, (i, r) ∈ rows df -> eq_cell (r !!! "zipcode") zipcode = true ->
                 isna (r !!! column) = true) /\
    (zipcode = Null -> v = Null) /\
    (v <> Null ->
     (exists i r, (i, r) ∈ rows df /\ r !!! "zipcode" = zipcode /\ r !!! column = v) /\
     forall w, (count w (dropna (zip_group (rows df) column zipcode)) <=
                count v (dropna (zip_group (rows df) column zipcode)))%nat).
Proof.
  intros Hc Hz. rewrite search_similar_zip_run by done. eexists. split; [done|].
  pose proof (most_frequent_spec (zip_group (rows df) column zipcode)) as Hm.
  assert (Hnull : dropna (zip_group (rows df) column zipcode) = [] <->
            forall i r, (i, r) ∈ rows df -> eq_cell (r !!! "zipcode") zipcode = true ->
                        isna (r !!! column) = true).
  { split.
    - intros Hnil i r Hin Heq. destruct (isna (r !!! column)) eqn:Hna; [done|].
      assert (Hx : r !!! column ∈ dropna (zip_group (rows df) column zipcode)).
      { unfold dropna. apply list_elem_of_filter. split; [done|].
        unfold zip_group. apply list_elem_of_fmap. exists (i, r). split; [done|].
        by apply list_elem_of_filter. }
      rewrite Hnil in Hx. by apply elem_of_nil in Hx.
    - intros Hall. unfold dropna. apply filter_none, Forall_forall.
      intros x ([i r] & -> & Hin)%list_elem_of_fmap.
      apply list_elem_of_filter in Hin as [Heq Hin]. simpl in *.
      by rewrite (Hall i r Hin Heq). }
  assert (Hiff : most_frequent (zip_group (rows df) column zipcode) = Null <->
                 dropna (zip_group (rows df) column zipcode) = []).
  { destruct (dropna (zip_group (rows df) column zipcode)) as [|x l] eqn:E; [done|].
    destruct Hm as [Hin _]. rewrite <- E in Hin.
    apply elem_of_dropna in Hin as [_ Hne]. done. }
  split; [by rewrite Hiff|]. split.
  - intros ->. apply Hiff, Hnull. intros i r _ Heq. by destruct (r !!! "zipcode").
  - intros Hne.
    destruct (dropna (zip_group (rows df) column zipcode)) as [|x l] eqn:E.
    { by destruct Hne. }
    destruct Hm as [Hin Hmax]. split; [|done]. rewrite <- E in Hin.
    apply elem_of_dropna in Hin as [Hin _]. unfold zip_group in Hin.
    apply list_elem_of_fmap in Hin as [[i r] [Hv Hin]].
    apply list_elem_of_filter in Hin as [Heq Hin]. simpl in *.
    exists i, r. split; [done|]. split; [by apply eq_cell_true|done].
Qed.

(** X16. [search_similar_zip] catches the IndexError of an empty group only:
    when the column, or the column zipcode, is not in the table, the KeyError
    is raised to the caller. *)
Theorem search_similar_zip_key_error (df : DataFrame cell) column zipcode :
  column ∉ names df \/ "zipcode" ∉ names df ->
  search_similar_zip df column zipcode = Raise KeyError.
Proof.
  intros Hmiss. unfold search_similar_zip.
  destruct (decide (column ∈ names df)) as [Hc|Hc].
  - destruct Hmiss as [?|Hz]; [done|].
    destruct (getitem_in df column Hc) as (t & _ & ->).
    by rewrite (getitem_notin df "zipcode" Hz).
  - by rewrite (getitem_notin df column Hc).
Qed.

Lemma most_frequent_Null l : most_frequent l = Null <-> dropna l = [].
Proof.
  pose proof (most_frequent_spec l) as Hm.
  destruct (dropna l) as [|x l'] eqn:E; [done|].
  destruct Hm as [Hin _]. rewrite <- E in Hin.
  apply elem_of_dropna in Hin as [_ Hne]. done.
Qed.

Lemma foldl_fixed {A B} (f : A -> B -> A) a l :
  (forall x, x ∈ l -> f a x = a) -> foldl f a l = a.
Proof.
  induction l as [|x l IH]; intros Hl; [done|]. simpl.
  rewrite Hl by (by left). apply IH. intros y Hy. apply Hl. by right.
Qed.

(** X17. When the column, or the column zipcode, is not in the table,
    [get_mode_by_zip] raises a KeyError and leaves every table as it was. *)
Theorem get_mode_by_zip_key_error σ dataframe df column :
  σ !! dataframe = Some df ->
  column ∉ names df \/ "zipcode" ∉ names df ->
  get_mode_by_zip dataframe column σ = (σ, Raise KeyError).
Proof.
  intros Hσ Hmiss. unfold get_mode_by_zip. rewrite (bind_read _ _ _ _ Hσ).
  destruct (decide (column ∈ names df)) as [Hc|Hc].
  - destruct Hmiss as [?|Hz]; [done|].
    destruct (getitem_in df column Hc) as (t & Ht & ->).
    rewrite bind_lift_Ok. cbv zeta. unfold getitem_list. simpl. rewrite Ht. simpl.
    destruct (dtype_of (columns df) "zipcode") eqn:E; [|done].
    by apply dtype_of_Some in E.
  - by rewrite (getitem_notin df column Hc).
Qed.

(** X18. [get_mode_by_zip] changes nothing but null cells of its column: the
    column names and the index are kept, a row whose cell holds a value is
    left as it is, and in the other rows every other column is as it was. *)
Theorem get_mode_by_zip_frame σ dataframe df column :
  σ !! dataframe = Some df ->
  NoDup (index df) ->
  column ∈ names df -> "zipcode" ∈ names df -> column <> "zipcode" ->
  exists df',
    get_mode_by_zip dataframe column σ = (<[dataframe := df']> σ, Ok dataframe) /\
    names df' = names df /\
    index df' = index df /\
    forall k i r, rows df !! k = Some (i, r) ->
      exists r', rows df' !! k = Some (i, r') /\
                 (isna (r !!! column) = false -> r' = r) /\
                 forall c, c <> column -> r' !!! c = r !!! c.
Proof.
  intros Hσ Hnd Hc Hz Hcz.
  destruct (get_mode_by_zip_run σ dataframe df column) as (df' & Hrun & Hn & Hr);
    try done.
  exists df'. split; [done|]. split; [done|]. split.
  - unfold index. rewrite Hr, <- list_fmap_compose. apply list_fmap_ext.
    intros ? [i r] _. simpl. by destruct (isna (r !!! column)).
  - intros k i r Hk. rewrite Hr, list_lookup_fmap, Hk. simpl.
    destruct (isna (r !!! column)) eqn:Hna.
    + eexists. split; [done|]. split; [done|]. intros c Hne.
      by rewrite lookup_total_insert_ne.
    + by exists r.
Qed.

(** X19. A second run of [get_mode_by_zip] changes nothing: the cells the
    first run left null have no value to take in their zipcode. *)
Theorem get_mode_by_zip_idempotent σ dataframe df column :
  σ !! dataframe = Some df ->
  NoDup (index df) ->
  column ∈ names df -> "zipcode" ∈ names df -> column <> "zipcode" ->
  exists df',
    get_mode_by_zip dataframe column σ = (<[dataframe := df']> σ, Ok dataframe) /\
    get_mode_by_zip dataframe column (<[dataframe := df']> σ) =
      (<[dataframe := df']> σ, Ok dataframe).
Proof.
  intros Hσ Hnd Hc Hz Hcz.
  destruct (get_mode_by_zip_run σ dataframe df column) as (df' & Hrun & Hn & Hr);
    try done.
  exists df'. split; [done|].
  assert (Hlen : (dataframe < length σ)%nat) by (by eapply lookup_lt_Some).
  rewrite (get_mode_by_zip_loop (<[dataframe := df']> σ) dataframe df' column);
    [|by apply lookup_insert_store|by rewrite Hn|by rewrite Hn].
  rewrite list_insert_insert_eq. f_equal.
  rewrite <- (list_insert_id σ dataframe df Hσ) at 2.
  rewrite list_insert_insert_eq. f_equal.
  apply foldl_fixed.
  intros x ([i r'] & -> & Hin)%list_elem_of_fmap.
  apply list_elem_of_filter in Hin as [Hna' Hin']. simpl in Hna'.
  unfold impute_step. cbn [fst snd lookup list_lookup default].
  (* the row it comes from *)
  rewrite Hr in Hin'.
  apply list_elem_of_fmap in Hin' as [[j r] [Heq Hin]]. simpl in Heq.
  set (m0 := most_frequent (zip_group (rows df) column (r !!! "zipcode"))) in *.
  assert (Hr' : isna (r !!! column) = true /\ i = j /\ r' = <[column := m0]> r /\
                m0 = Null).
  { destruct (isna (r !!! column)) eqn:Hna.
    - injection Heq as -> ->. rewrite lookup_total_insert_eq in Hna'.
      by destruct m0.
    - injection Heq as -> ->. congruence. }
  destruct Hr' as (Hna & -> & -> & Hm0). clear Heq.
  rewrite lookup_total_insert_ne by done.
  set (z := r !!! "zipcode") in *.
  assert (Hgroup : dropna (zip_group (rows df') column z) = []).
  { unfold dropna. apply filter_none, Forall_forall.
    intros x ([j' q'] & -> & Hq')%list_elem_of_fmap.
    apply list_elem_of_filter in Hq' as [Heq' Hq']. simpl in *.
    rewrite Hr in Hq'. apply list_elem_of_fmap in Hq' as [[j0 q] [Heq Hq]].
    simpl in Heq.
    assert (Hzq : q' !!! "zipcode" = q !!! "zipcode").
    { destruct (isna (q !!! column)); injection Heq as -> ->; [|done].
      by rewrite lookup_total_insert_ne. }
    rewrite Hzq in Heq'. pose proof (eq_cell_true _ _ Heq') as Hzz.
    destruct (isna (q !!! column)) eqn:Hnq.
    - injection Heq as -> ->. rewrite lookup_total_insert_eq. rewrite Hzz.
      fold m0. by rewrite Hm0.
    - exfalso. apply most_frequent_Null in Hm0.
      assert (Hx : q !!! column ∈ dropna (zip_group (rows df) column z)).
      { unfold dropna. apply list_elem_of_filter. split; [done|].
        unfold zip_group. apply list_elem_of_fmap. exists (j0, q). split; [done|].
        by apply list_elem_of_filter. }
      rewrite Hm0 in Hx. by apply elem_of_nil in Hx. }
  change (id z) with z. rewrite (proj2 (most_frequent_Null _) Hgroup).
  (* writing None over None *)
  destruct df' as [cols' rows']. simpl in *. unfold loc_setitem. simpl.
  assert (Hc' : column ∈ names (mkDataFrame cols' rows')) by (by rewrite Hn).
  assert (Hi : j ∈ index (mkDataFrame cols' rows')).
  { unfold index. simpl. rewrite Hr. apply list_elem_of_fmap.
    exists (j, <[column := m0]> r). split; [done|].
    apply list_elem_of_fmap. exists (j, r). split; [|done].
    cbn [fst snd]. fold z. by rewrite Hna. }
  rewrite decide_True by done. rewrite decide_True by done. f_equal.
  - etrans; [|apply list_fmap_id]. apply list_fmap_ext. intros ? [c t] _.
    simpl. by case_decide.
  - etrans; [|apply list_fmap_id]. apply list_fmap_ext. intros k [j1 q1] Hk.
    simpl. case_decide as Hj; [|done]. subst j1. f_equal.
    apply list_elem_of_lookup_2 in Hk. rewrite Hr in Hk.
    apply list_elem_of_fmap in Hk as [[j2 q2] [Heq Hq2]]. simpl in Heq.
    assert (j2 = j) as ->.
    { destruct (isna (q2 !!! column)); by injection Heq as -> ->. }
    assert (q2 = r) as -> by (eapply NoDup_fst_inj; eauto).
    rewrite Hna in Heq. injection Heq as ->.
    change (most_frequent (zip_group (rows df) column (r !!! "zipcode"))) with m0.
    rewrite Hm0. by rewrite insert_insert_eq.
Qed.

(** ** The multi-value expander *)

Lemma mapM_tokens pattern c (l : list (label * gmap string cell)) :
  (forall i r, (i, r) ∈ l -> exists s, r !!! c = Text s) ->
  mapM (fun '(i, x) =>
          match x with
          | Text str => Ok (i, Tokens (split_by_pattern str pattern))
          | Null | Num _ => Raise TypeError
          end) (map (fun p : label * gmap string cell => (p.1, p.2 !!! c)) l) =
    Ok (map (fun p => (p.1, Tokens (tokens_of pattern (p.2 !!! c)))) l).
Proof.
  induction l as [|[i r] l IH]; intros Hl; [done|].
  destruct (Hl i r) as [s Hs]; [by left|]. cbn [map mapM fst snd].
  rewrite Hs. cbn [mbind result_bind]. rewrite IH; [done|].
  intros j q Hq. apply (Hl j q). by right.
Qed.

Lemma mapM_tokens_raise pattern c (l : list (label * gmap string cell)) i r :
  (i, r) ∈ l -> (forall s, r !!! c <> Text s) ->
  mapM (fun '(i, x) =>
          match x with
          | Text str => Ok (i, Tokens (split_by_pattern str pattern))
          | Null | Num _ => Raise TypeError
          end) (map (fun p : label * gmap string cell => (p.1, p.2 !!! c)) l) =
    Raise TypeError.
Proof.
  intros Hin Hne. induction l as [|[j q] l IH]; [by apply elem_of_nil in Hin|].
  cbn [map mapM fst snd]. apply elem_of_cons in Hin as [[= <- <-]|Hin].
  - destruct (r !!! c) as [| |s] eqn:E; [done|done|by destruct (Hne s)].
  - rewrite (IH Hin). by destruct (q !!! c).
Qed.

(** X20. [get_df_from_column] raises a KeyError when the column is missing,
    and a TypeError when a cell of the column is not a string (a null among
    them): [re.sub] takes strings only. *)
Theorem get_df_from_column_raises (df : DataFrame cell) column pattern :
  (column ∉ names df -> get_df_from_column df column pattern = Raise KeyError) /\
  (column ∈ names df ->
   (exists i r, (i, r) ∈ rows df /\ forall s, r !!! column <> Text s) ->
   get_df_from_column df column pattern = Raise TypeError).
Proof.
  split.
  - intros Hc. unfold get_df_from_column. by rewrite getitem_notin.
  - intros Hc (i & r & Hin & Hne). unfold get_df_from_column.
    destruct (getitem_in df column Hc) as (t & _ & ->).
    cbn [mbind result_bind s_items].
    by rewrite (mapM_tokens_raise pattern column (rows df) i r).
Qed.

Lemma assign_column_base {A C} `{!Inhabited C} c (f : A -> gmap string C) (g : A -> C)
    (base : list (label * A)) :
  assign_column c (map (fun q => (q.1, f q.2)) base) (map (fun q => g q.2) base) =
    map (fun q => (q.1, <[c := g q.2]> (f q.2))) base.
Proof. induction base as [|[i x] base IH]; [done|]. simpl. by rewrite IH. Qed.

Lemma s_apply_base (h : dcell -> result dcell) (k : list string -> dcell) t
    (base : list (label * list string)) :
  (forall x, h (Tokens x) = Ok (k x)) ->
  s_apply h (mkSeries t (map (fun q => (q.1, Tokens q.2)) base)) =
    Ok (mkSeries t (map (fun q => (q.1, k q.2)) base)).
Proof.
  intros Hh. unfold s_apply. cbn [s_items s_dtype].
  assert (Hm : mapM (fun '(i, x) => y ← h x; Ok (i, y))
                 (map (fun q : label * list string => (q.1, Tokens q.2)) base) =
               Ok (map (fun q => (q.1, k q.2)) base)).
  { induction base as [|[i x] base IH]; [done|]. cbn [map mapM fst snd].
    rewrite Hh. cbn [mbind result_bind]. by rewrite IH. }
  by rewrite Hm.
Qed.

Lemma result_bind_Ok {A B} (a : A) (k : A -> result B) : (Ok a ≫= k) = k a.
Proof. reflexivity. Qed.

Lemma getitem_expanded column base vs d :
  expanded column base vs d ->
  exists t, getitem d column = Ok (mkSeries t (map (fun q => (q.1, Tokens q.2)) base)).
Proof.
  intros (Hn & f & Hr & Hf).
  destruct (getitem_in d column) as (t & _ & ->); [rewrite Hn; by left|].
  exists t. do 2 f_equal. rewrite Hr, <- list_fmap_compose.
  apply list_fmap_ext. intros ? [i x] _. simpl. by destruct (Hf x) as [-> _].
Qed.

Lemma foldl_expanded column base rest :
  forall vs d,
    NoDup (vs ++ rest) -> column ∉ rest ->
    expanded column base vs d ->
    exists d',
      foldl (fun acc value =>
               df_column ← acc;
               s ← getitem df_column column;
               s ← s_apply (contains value) s;
               Ok (setitem df_column value (mkSeries number (s_items s))))
            (Ok d) rest = Ok d' /\
      expanded column base (vs ++ rest) d'.
Proof.
  induction rest as [|v rest IH]; intros vs d Hnd Hc Hd.
  - exists d. by rewrite app_nil_r.
  - apply not_elem_of_cons in Hc as [Hcv Hc].
    destruct (getitem_expanded _ _ _ _ Hd) as [t Hget].
    destruct Hd as (Hn & f & Hr & Hf).
    cbn [foldl]. rewrite result_bind_Ok, Hget, result_bind_Ok.
    rewrite (s_apply_base (contains v) (indicator v)) by done.
    rewrite result_bind_Ok. cbn [s_items].
    assert (Hv : v ∉ vs).
    { intros Hin. rewrite <- Permutation_middle in Hnd.
      apply NoDup_cons in Hnd as [Hnot _]. apply Hnot, elem_of_app. by left. }
    replace (vs ++ v :: rest) with ((vs ++ [v]) ++ rest) in * by (by rewrite <- app_assoc).
    apply IH; [done|done|]. split.
    + unfold setitem, names at 1. cbn [columns].
      rewrite decide_False by (rewrite Hn; intros [?|?]%elem_of_cons; done).
      rewrite fmap_app. fold (names d). by rewrite Hn.
    + exists (fun x => <[v := indicator v x]> (f x)). split.
      * unfold setitem. cbn [rows]. rewrite Hr. unfold s_values. cbn [s_items].
        rewrite <- list_fmap_compose.
        apply (assign_column_base v f (fun x => indicator v x) base).
      * intros x. destruct (Hf x) as [Hcol Hind]. split.
        -- by rewrite lookup_total_insert_ne.
        -- intros w [Hw|Hw%list_elem_of_singleton]%elem_of_app.
           ++ rewrite lookup_total_insert_ne by (by intros ->). by apply Hind.
           ++ subst w. by rewrite lookup_total_insert_eq.
Qed.

Lemma string_length_append a b :
  String.length (String.append a b) = (String.length a + String.length b)%nat.
Proof. induction a as [|c a IH]; [done|]. simpl. by rewrite IH. Qed.

Lemma append_neq a b : a <> EmptyString -> String.append a b <> b.
Proof.
  intros Ha Heq. apply (f_equal String.length) in Heq.
  rewrite string_length_append in Heq. destruct a; [done|]. simpl in Heq. lia.
Qed.

Lemma elem_of_concat {A} (x : A) (ls : list (list A)) :
  x ∈ concat ls <-> exists l, x ∈ l /\ l ∈ ls.
Proof.
  induction ls as [|l ls IH]; simpl.
  - split; [by intros ?%elem_of_nil|by intros (l & _ & ?%elem_of_nil)].
  - rewrite elem_of_app, IH. split.
    + intros [Hx|(l' & Hx & Hl)]; [exists l; split; [done|by left]|].
      exists l'. split; [done|by right].
    + intros (l' & Hx & [->|Hl]%elem_of_cons); [by left|]. right. by exists l'.
Qed.

Lemma elem_of_all_tokens (df : DataFrame cell) column pattern v :
  v ∈ all_tokens df column pattern <->
  exists i r, (i, r) ∈ rows df /\ v ∈ tokens_of pattern (r !!! column).
Proof.
  unfold all_tokens. rewrite merge_sort_Permutation, elem_of_remove_dups.
  rewrite elem_of_concat. split.
  - intros (l & Hv & ([i r] & -> & Hin)%list_elem_of_fmap). by exists i, r.
  - intros (i & r & Hin & Hv). eexists. split; [exact Hv|].
    apply list_elem_of_fmap. by exists (i, r).
Qed.

Lemma NoDup_all_tokens (df : DataFrame cell) column pattern :
  NoDup (all_tokens df column pattern).
Proof.
  unfold all_tokens. rewrite merge_sort_Permutation. apply NoDup_remove_dups.
Qed.

Global Instance str_le_total : Total str_le.
Proof. intros a b. apply String.leb_total. Qed.

(** X21. On a column of strings, none of whose tokens is the name of the
    column itself, [get_df_from_column] (for a column other than amenities)
    returns the table of the token lists: after the column come one column
    per distinct token, in sorted order, and the count column. In each row an
    indicator column holds 1 when the row has the token and 0 otherwise, and
    the count column holds the number of its tokens. *)
Theorem get_df_from_column_indicators (df : DataFrame cell) column pattern :
  column ∈ names df ->
  (forall i r, (i, r) ∈ rows df -> exists s, r !!! column = Text s) ->
  column <> "amenities" ->
  (column ∉ all_tokens df column pattern) ->
  exists out,
    get_df_from_column df column pattern = Ok out /\
    names out =
      column :: all_tokens df column pattern ++
      (if decide (String.append "number_of_" column ∈ all_tokens df column pattern)
       then [] else [String.append "number_of_" column]) /\
    Sorted str_le (all_tokens df column pattern) /\
    NoDup (all_tokens df column pattern) /\
    (forall v, v ∈ all_tokens df column pattern <->
               exists i r, (i, r) ∈ rows df /\ v ∈ tokens_of pattern (r !!! column)) /\
    index out = index df /\
    forall k i r, rows df !! k = Some (i, r) ->
      exists r',
        rows out !! k = Some (i, r') /\
        r' !!! column = Tokens (tokens_of pattern (r !!! column)) /\
        r' !!! String.append "number_of_" column =
          Int (Z.of_nat (length (tokens_of pattern (r !!! column)))) /\
        forall v, v ∈ all_tokens df column pattern ->
                  v <> String.append "number_of_" column ->
                  r' !!! v = indicator v (tokens_of pattern (r !!! column)).
Proof.
  intros Hc Htext Hne Hcol.
  set (nc := String.append "number_of_" column).
  set (base := map (fun p : label * gmap string cell =>
                      (p.1, tokens_of pattern (p.2 !!! column))) (rows df)).
  unfold get_df_from_column.
  destruct (getitem_in df column Hc) as (t & _ & ->).
  rewrite result_bind_Ok. cbn [s_items].
  rewrite (mapM_tokens pattern column (rows df) Htext), result_bind_Ok. cbv zeta.
  set (d0 := mkDataFrame [(column, object)] _).
  assert (Hd0 : expanded column base [] d0).
  { split; [done|]. exists (fun x => {[column := Tokens x]}). split.
    - unfold d0, base. cbn [rows]. rewrite <- !list_fmap_compose.
      apply list_fmap_ext. by intros ? [i r] _.
    - intros x. split; [|intros v Hv; by apply elem_of_nil in Hv]. 
      by rewrite lookup_total_alt, lookup_singleton_eq. }
  destruct (getitem_expanded _ _ _ _ Hd0) as [t0 ->]. rewrite result_bind_Ok.
  assert (Hvals : chain_tokens (s_values (mkSeries t0
                    (map (fun q : label * list string => (q.1, Tokens q.2)) base))) =
                  concat (map (fun p => tokens_of pattern (p.2 !!! column)) (rows df))).
  { unfold chain_tokens, s_values, base. cbn [s_items].
    rewrite <- !list_fmap_compose. f_equal. }
  rewrite Hvals. fold (all_tokens df column pattern).
  destruct (foldl_expanded column base (all_tokens df column pattern) [] d0)
    as (d1 & -> & Hd1); [apply NoDup_all_tokens|done|done|].
  rewrite result_bind_Ok. cbn [app] in Hd1.
  destruct (getitem_expanded _ _ _ _ Hd1) as [t1 ->]. rewrite result_bind_Ok.
  rewrite (s_apply_base len (fun x => Int (Z.of_nat (length x)))) by done.
  rewrite result_bind_Ok. cbn [s_items]. fold nc.
  rewrite decide_False by done.
  destruct Hd1 as (Hn1 & f & Hr1 & Hf).
  assert (Hncc : nc <> column) by (by apply append_neq).
  eexists. split; [reflexivity|]. split.
  { unfold setitem, names at 1. cbn [columns]. rewrite Hn1.
    destruct (decide (nc ∈ all_tokens df column pattern)) as [Hin|Hin].
    - rewrite decide_True by (by right). rewrite set_dtype_fst.
      fold (names d1). by rewrite Hn1, app_nil_r.
    - rewrite decide_False by (intros [?|?]%elem_of_cons; done).
      rewrite fmap_app. fold (names d1). by rewrite Hn1. }
  split; [apply (Sorted_merge_sort str_le)|].
  split; [apply NoDup_all_tokens|].
  split; [apply elem_of_all_tokens|].
  unfold setitem, index. cbn [rows]. rewrite Hr1. unfold s_values. cbn [s_items].
  rewrite <- (list_fmap_compose _ snd).
  rewrite (assign_column_base nc f (fun x => Int (Z.of_nat (length x))) base).
  split.
  { unfold base. by rewrite <- !list_fmap_compose. }
  intros k i r Hk. unfold base. rewrite <- list_fmap_compose, list_lookup_fmap, Hk.
  eexists. split; [reflexivity|]. cbn [fst snd compose].
  destruct (Hf (tokens_of pattern (r !!! column))) as [Hcolumn Hind].
  split; [by rewrite lookup_total_insert_ne|].
  split; [by rewrite lookup_total_insert_eq|].
  intros v Hv Hvn. rewrite lookup_total_insert_ne by done. by apply Hind.
Qed.

Lemma split_comma_cons s : exists t ts, split_comma s = t :: ts.
Proof.
  induction s as [|b s (t & ts & IH)]; simpl; [by eexists _, _|].
  case_decide; [by eexists _, _|]. rewrite IH. by eexists _, _.
Qed.

Lemma join_split_comma s : join_comma (split_comma s) = s.
Proof.
  induction s as [|b s IH]; [done|]. simpl.
  destruct (split_comma_cons s) as (t & ts & Hs). rewrite Hs in IH |- *.
  case_decide as Hb.
  - subst b. cbn [join_comma]. cbn [join_comma] in IH. by rewrite IH.
  - cbn [join_comma] in IH |- *. destruct ts; simpl; by rewrite <- IH.
Qed.

Lemma split_comma_no_comma s t :
  t ∈ split_comma s -> ","%char ∉ String.list_ascii_of_string t.
Proof.
  revert t. induction s as [|b s IH]; intros t; simpl.
  - intros ->%list_elem_of_singleton. apply not_elem_of_nil.
  - destruct (split_comma_cons s) as (t0 & ts & Hs). rewrite Hs in IH |- *.
    case_decide as Hb.
    + intros [->|Ht]%elem_of_cons; [apply not_elem_of_nil|]. by apply IH.
    + intros [->|Ht]%elem_of_cons.
      * simpl. apply not_elem_of_cons. split; [by intros <-|]. apply IH. by left.
      * apply IH. by right.
Qed.

(** X22. [split_by_pattern] returns at least one token (the cleaned string
    itself when it holds no comma, the empty token for an empty string); no
    token holds a comma, and the tokens joined by commas give the cleaned
    string back. *)
Theorem split_by_pattern_join str pattern :
  split_by_pattern str pattern <> [] /\
  (forall t, t ∈ split_by_pattern str pattern ->
             ","%char ∉ String.list_ascii_of_string t) /\
  join_comma (split_by_pattern str pattern) = pattern str /\
  (","%char ∉ String.list_ascii_of_string (pattern str) ->
   split_by_pattern str pattern = [pattern str]).
Proof.
  unfold split_by_pattern. split.
  { by destruct (split_comma_cons (pattern str)) as (t & ts & ->). }
  split; [intros t; apply split_comma_no_comma|].
  split; [apply join_split_comma|].
  generalize (pattern str). intros s. induction s as [|b s IH]; [done|]. simpl.
  intros [Hb Hs]%not_elem_of_cons. rewrite decide_False by (by intros ->).
  by rewrite (IH Hs).
Qed.

(** ** Aligning two tables: what is kept *)

Lemma elem_of_columns_diff (d1 d2 : DataFrame cell) c :
  c ∈ elements (list_to_set (names d2) ∖ list_to_set (names d1) : gset string) <->
  c ∈ names d2 /\ c ∉ names d1.
Proof. by rewrite elem_of_elements, elem_of_difference, !elem_of_list_to_set. Qed.

Lemma align_dataframes_run σ df1 df2 d1 d2 :
  σ !! df1 = Some d1 -> σ !! df2 = Some d2 ->
  align_dataframes df1 df2 σ =
    (<[df2 :=
         mkDataFrame
           (filter (fun p => p.1 ∉ elements
                      (list_to_set (names d2) ∖ list_to_set (names d1) : gset string))
                   (columns d2))
           (map (fun '(i, r) =>
                   (i, foldr delete r
                         (elements (list_to_set (names d2) ∖ list_to_set (names d1)
                                    : gset string))))
                (rows d2))]> σ,
     Ok df2).
Proof.
  intros H1 H2. unfold align_dataframes.
  rewrite (bind_read _ _ _ _ H1), (bind_read _ _ _ _ H2). cbv zeta.
  cbn [drop_labels]. unfold drop_columns. rewrite decide_True.
  - by rewrite bind_lift_Ok, bind_write, ret_run.
  - apply Forall_forall. by intros c [? _]%elem_of_columns_diff.
Qed.

(** X23. [align_dataframes] never raises and works in place on its second
    table, which it returns: it keeps, in their order, exactly the columns
    whose name is a column of the first table, and the rows with their cells
    in these columns. It adds no column: a column of the first table that the
    second does not have is still missing. *)
Theorem align_dataframes_result σ df1 df2 d1 d2 :
  σ !! df1 = Some d1 -> σ !! df2 = Some d2 ->
  exists d2',
    align_dataframes df1 df2 σ = (<[df2 := d2']> σ, Ok df2) /\
    columns d2' = filter (fun p => p.1 ∈ names d1) (columns d2) /\
    (forall c, c ∈ names d2' <-> c ∈ names d2 /\ c ∈ names d1) /\
    index d2' = index d2 /\
    forall k i r, rows d2 !! k = Some (i, r) ->
      exists r', rows d2' !! k = Some (i, r') /\
                 forall c, c ∈ names d1 -> r' !!! c = r !!! c.
Proof.
  intros H1 H2. eexists. split; [by apply align_dataframes_run|].
  cbn [columns rows].
  assert (Hcols : filter (fun p : string * dtype => p.1 ∉ elements
                    (list_to_set (names d2) ∖ list_to_set (names d1) : gset string))
                    (columns d2) =
                  filter (fun p => p.1 ∈ names d1) (columns d2)).
  { apply filter_ext_in. intros [c t] Hin. simpl. rewrite elem_of_columns_diff.
    assert (c ∈ names d2) by (apply list_elem_of_fmap; by exists (c, t)).
    destruct (decide (c ∈ names d1)); tauto. }
  split; [done|]. split.
  { intros c. unfold names at 1. cbn [columns]. rewrite Hcols.
    rewrite list_elem_of_fmap. split.
    - intros ([c' t] & -> & [Hin1 Hin]%list_elem_of_filter). split; [|done].
      apply list_elem_of_fmap. by exists (c', t).
    - intros [([c' t] & -> & Hin)%list_elem_of_fmap Hin1].
      exists (c', t). split; [done|]. by apply list_elem_of_filter. }
  split.
  { unfold index. cbn [rows]. rewrite <- list_fmap_compose.
    apply list_fmap_ext. by intros ? [i r] _. }
  intros k i r Hk. rewrite list_lookup_fmap, Hk. eexists. split; [done|].
  intros c Hc. apply foldr_delete_lookup_total.
  rewrite elem_of_columns_diff. tauto.
Qed.

(** X24. When every column of the second table is a column of the first,
    [align_dataframes] changes nothing. *)
Theorem align_dataframes_aligned σ df1 df2 d1 d2 :
  σ !! df1 = Some d1 -> σ !! df2 = Some d2 ->
  (forall c, c ∈ names d2 -> c ∈ names d1) ->
  align_dataframes df1 df2 σ = (σ, Ok df2).
Proof.
  intros H1 H2 Hsub. rewrite (align_dataframes_run σ df1 df2 d1 d2) by done.
  assert (Hnil : elements (list_to_set (names d2) ∖ list_to_set (names d1)
                           : gset string) = []).
  { apply elem_of_nil_inv. intros c [Hc Hn]%elem_of_columns_diff. by apply Hn, Hsub. }
  rewrite Hnil. f_equal. rewrite <- (list_insert_id σ df2 d2 H2) at 2. f_equal.
  destruct d2 as [cols rs]. cbn [columns rows]. f_equal.
  - apply filter_notin_nil.
  - etrans; [|apply list_fmap_id]. apply list_fmap_ext. by intros ? [i r] _.
Qed.

(** ** The categorical imputer as a whole *)

Lemma rows_rel_trans P Q d d' d'' :
  rows_rel P d d' -> rows_rel Q d' d'' ->
  rows_rel (fun r r'' => exists r', P r r' /\ Q r' r'') d d''.
Proof.
  intros HP HQ i r'' Hin. destruct (HQ i r'' Hin) as (r' & Hin' & Hq).
  destruct (HP i r' Hin') as (r & Hin0 & Hp). exists r. split; [done|]. by exists r'.
Qed.

Lemma rows_rel_map (g : gmap string cell -> gmap string cell) (d d' : DataFrame cell) :
  rows d' = map (fun p => (p.1, g p.2)) (rows d) ->
  rows_rel (fun r r' => r' = g r) d d'.
Proof.
  intros Hr i r' Hin. rewrite Hr in Hin.
  apply list_elem_of_fmap in Hin as [[j r] [[= -> ->] Hin]]. by exists r.
Qed.

Lemma assign_rel rs j column v i r' :
  (i, r') ∈ assign rs j column v ->
  exists r, (i, r) ∈ rs /\ forall c, c <> column -> r' !!! c = r !!! c.
Proof.
  unfold assign. intros [[i0 r] [Heq Hin]]%list_elem_of_fmap. exists r.
  case_decide; injection Heq as -> ->; (split; [done|]); intros c Hc; [|done].
  by rewrite lookup_total_insert_ne.
Qed.

Lemma impute_rows_rel column pend :
  forall rs i r',
    (i, r') ∈ impute_rows column rs pend ->
    exists r, (i, r) ∈ rs /\ forall c, c <> column -> r' !!! c = r !!! c.
Proof.
  induction pend as [|p pend IH]; intros rs i r' Hin.
  - by exists r'.
  - rewrite impute_rows_cons in Hin. apply IH in Hin as (r1 & Hin & H1).
    apply assign_rel in Hin as (r & Hin & H0). exists r. split; [done|].
    intros c Hc. by rewrite H1, H0.
Qed.

Lemma get_mode_by_zip_rel σ dataframe df column :
  σ !! dataframe = Some df ->
  (exists e, get_mode_by_zip dataframe column σ = (σ, Raise e)) \/
  (exists df', get_mode_by_zip dataframe column σ = (<[dataframe := df']> σ, Ok dataframe)
               /\ column ∈ names df
               /\ names df' = names df
               /\ rows_rel (fun r r' => forall c, c <> column -> r' !!! c = r !!! c)
                    df df').
Proof.
  intros Hσ.
  destruct (decide (column ∈ names df /\ "zipcode" ∈ names df)) as [[Hc Hz]|Hmiss].
  - right. eexists. split; [by apply get_mode_by_zip_loop|]. split; [done|].
    destruct (foldl_impute_step column
                (map (fun p : label * gmap string cell =>
                        (p.1, [p.2 !!! column; p.2 !!! "zipcode"]))
                   (filter (fun p => isna (p.2 !!! column) = true) (rows df)))
                df Hc) as [Hn Hr].
    { intros x ([i r] & -> & Hin)%list_elem_of_fmap. simpl.
      apply list_elem_of_filter in Hin as [_ Hin].
      apply list_elem_of_fmap. by exists (i, r). }
    split; [done|]. intros i r' Hin. rewrite Hr in Hin.
    by apply impute_rows_rel in Hin.
  - left. exists KeyError. unfold get_mode_by_zip. rewrite (bind_read _ _ _ _ Hσ).
    destruct (decide (column ∈ names df)) as [Hc|Hc].
    + destruct (getitem_in df column Hc) as (t & Ht & ->).
      rewrite bind_lift_Ok. cbv zeta. unfold getitem_list. simpl. rewrite Ht. simpl.
      destruct (dtype_of (columns df) "zipcode") eqn:E; [|done].
      apply dtype_of_Some in E. tauto.
    + by rewrite (getitem_notin df column Hc).
Qed.

Lemma vc_getitem0_not_null t vc v : vc_getitem0 t vc = Ok v -> isna v = false.
Proof.
  unfold vc_getitem0. destruct t.
  - destruct (list_find _ vc) as [[k [w n]]|]; [|done]. by intros [= <-].
  - destruct vc as [|[w n] vc']; [done|]. by intros [= <-].
Qed.

Lemma get_mode_rows (df : DataFrame cell) column s :
  get_mode df column = Ok s ->
  names (setitem df column s) = names df /\
  exists v, isna v = false /\
    rows (setitem df column s) =
      map (fun p => (p.1, <[column := if isna (p.2 !!! column) then v
                                      else p.2 !!! column]> p.2)) (rows df).
Proof.
  intros Hrun. pose proof (get_mode_Ok _ _ _ Hrun) as Hc.
  split; [by apply names_setitem|].
  unfold get_mode in Hrun. destruct (getitem df column) as [s0|] eqn:Hget; [|done].
  rewrite !result_bind_Ok in Hrun.
  destruct (vc_getitem0 _ _) as [v|] eqn:Hv; [|done].
  rewrite result_bind_Ok in Hrun. injection Hrun as <-.
  exists v. split; [by eapply vc_getitem0_not_null|].
  by apply rows_setitem_fillna.
Qed.

Lemma zip_with_map2 {A B C D} (f : B -> C -> D) (g : A -> B) (h : A -> C)
    (l : list A) :
  zip_with f (map g l) (map h l) = map (fun x => f (g x) (h x)) l.
Proof. induction l as [|x l IH]; [done|]. simpl. by rewrite IH. Qed.

Lemma setmask_rows (df : DataFrame cell) c s v :
  getitem df c = Ok s ->
  rows (setitem df c (s_setmask s (s_isna s) v)) =
    map (fun p => (p.1, <[c := if isna (p.2 !!! c) then v else p.2 !!! c]> p.2))
        (rows df).
Proof.
  intros (_ & Hitems & _)%getitem_Ok. unfold setitem. cbn [rows].
  unfold s_setmask, s_isna, s_values. cbn [s_items]. rewrite Hitems.
  rewrite <- !list_fmap_compose.
  rewrite (zip_with_map2 _ _ _ (rows df)), <- list_fmap_compose.
  rewrite (assign_column_map c (rows df)).
  apply list_fmap_ext. by intros ? [i r] _.
Qed.

Lemma drop_columns_rows {C} `{!Inhabited C} (df new : DataFrame C) ls :
  drop_labels df (ColumnLabels ls) = Ok new ->
  names new = filter (fun c => c ∉ ls) (names df) /\
  rows new = map (fun p => (p.1, foldr delete p.2 ls)) (rows df).
Proof.
  simpl. unfold drop_columns. case_decide; [|done]. intros [= <-].
  unfold names. cbn [columns rows]. split.
  - by rewrite filter_notin_fst.
  - apply list_fmap_ext. by intros ? [i r] _.
Qed.

Lemma not_elem_of_weaken (c : string) (l1 l2 : list string) :
  c ∉ l2 -> l1 ⊆ l2 -> c ∉ l1.
Proof. intros Hc Hsub Hin. by apply Hc, Hsub. Qed.

Lemma get_mode_step (σ1 : store) cur x :
  exists res cur',
    (df0 ← read (length σ1); s0 ← lift (get_mode df0 x);
     write (length σ1) (setitem df0 x s0)) (σ1 ++ [cur]) = (σ1 ++ [cur'], res) /\
    (res = Ok tt ->
     x ∈ names cur /\ names cur' = names cur /\
     exists v, isna v = false /\
       rows_rel (fun r r' => r' = <[x := if isna (r !!! x) then v else r !!! x]> r)
         cur cur').
Proof.
  rewrite (bind_read _ _ _ _ (lookup_snoc σ1 cur)).
  destruct (get_mode cur x) as [s0|e] eqn:E.
  - rewrite bind_lift_Ok, write_run, insert_snoc. eexists _, _. split; [done|].
    intros _. destruct (get_mode_rows _ _ _ E) as (Hn & v & Hv & Hr).
    split; [by eapply get_mode_Ok|]. split; [done|]. exists v. split; [done|]. by apply rows_rel_map.
  - rewrite bind_lift_Raise. by eexists _, _.
Qed.

Lemma get_mode_by_zip_step (σ1 : store) cur x :
  exists res cur',
    get_mode_by_zip (length σ1) x (σ1 ++ [cur]) = (σ1 ++ [cur'], res) /\
    (forall a, res = Ok a ->
       a = length σ1 /\ x ∈ names cur /\ names cur' = names cur /\
       rows_rel (fun r r' => forall c, c <> x -> r' !!! c = r !!! c) cur cur').
Proof.
  destruct (get_mode_by_zip_rel (σ1 ++ [cur]) (length σ1) cur x (lookup_snoc σ1 cur))
    as [[e ->]|(cur' & -> & Hx & Hn & Hrel)].
  - by exists (Raise e), cur.
  - rewrite insert_snoc. exists (Ok (length σ1)), cur'. split; [done|].
    by intros a [= <-].
Qed.

Lemma handle_categorical_full σ dataframe :
  exists ext res,
    handle_categorical dataframe σ = (σ ++ ext, res) /\
    forall new, res = Ok new ->
      (length σ <= new)%nat /\
      (forall c, c ∈ categorical_columns -> c ∈ names (σ !!! dataframe)) /\
      exists df', (σ ++ ext) !! new = Some df' /\
                  categorical_full (σ !!! dataframe) df'.
Proof.
  unfold handle_categorical. rewrite bind_run, read_run.
  set (df := σ !!! dataframe).
  destruct (drop_rows_missing df "zipcode") as [d1|e] eqn:E1;
    [rewrite bind_lift_Ok|rewrite bind_lift_Raise; raise_here].
  rewrite bind_alloc, (bind_read _ _ _ _ (lookup_snoc σ d1)).
  destruct (drop_labels d1 (ColumnLabels ["host_location"; "neighbourhood"]))
    as [d2|e] eqn:E2; [rewrite bind_lift_Ok|rewrite bind_lift_Raise; raise_here].
  rewrite bind_alloc. set (σ1 := σ ++ [d1]).
  rewrite (bind_read _ _ _ _ (lookup_snoc σ1 d2)).
  destruct (getitem d2 "summary") as [s|e] eqn:E3;
    [rewrite !bind_lift_Ok|rewrite bind_lift_Raise; raise_here].
  rewrite bind_write, insert_snoc.
  pose proof (setmask_rows d2 "summary" s (Text "missing") E3) as Hr3.
  set (d3 := setitem d2 "summary" _) in *.
  assert (Hn3 : names d3 = names d2).
  { apply names_setitem. by apply getitem_Ok in E3 as [? _]. }
  clearbody d3. cbn [for_]. rewrite bind_run, bind_run.
  destruct (get_mode_step σ1 d3 "property_type") as (res & d4 & -> & H4).
  destruct res as [[]|e]; [|raise_here].
  destruct (H4 eq_refl) as (Hx4 & Hn4 & v4 & Hv4 & Hr4). clear H4.
  rewrite bind_run.
  destruct (get_mode_step σ1 d4 "host_response_time") as (res & d5 & -> & H5).
  destruct res as [[]|e]; [|raise_here].
  destruct (H5 eq_refl) as (Hx5 & Hn5 & v5 & Hv5 & Hr5). clear H5.
  rewrite ret_run. cbn [for_fold]. rewrite bind_run, bind_run.
  destruct (get_mode_by_zip_step σ1 d5 "market") as (res & d6 & -> & H6).
  destruct res as [a|e]; [|raise_here].
  destruct (H6 a eq_refl) as (-> & Hx6 & Hn6 & Hr6). clear H6.
  rewrite bind_run.
  destruct (get_mode_by_zip_step σ1 d6 "host_neighbourhood") as (res & d7 & -> & H7).
  destruct res as [a|e]; [|raise_here].
  destruct (H7 a eq_refl) as (-> & Hx7 & Hn7 & Hr7). clear H7.
  rewrite bind_run.
  destruct (get_mode_by_zip_step σ1 d7 "city") as (res & d8 & -> & H8).
  destruct res as [a|e]; [|raise_here].
  destruct (H8 a eq_refl) as (-> & Hx8 & Hn8 & Hr8). clear H8.
  rewrite ret_run.
  rewrite (bind_read _ _ _ _ (lookup_snoc σ1 d8)).
  destruct (drop_rows_missing d8 "host_neighbourhood") as [d9|e] eqn:E9;
    [rewrite bind_lift_Ok|rewrite bind_lift_Raise; raise_here].
  rewrite bind_alloc. set (σ2 := σ1 ++ [d8]).
  rewrite (bind_read _ _ _ _ (lookup_snoc σ2 d9)).
  destruct (drop_rows_missing d9 "city") as [d10|e] eqn:E10;
    [rewrite bind_lift_Ok|rewrite bind_lift_Raise; raise_here].
  rewrite bind_alloc, ret_run. set (σ3 := σ2 ++ [d9]).
  exists [d1; d8; d9; d10], (Ok (length σ3)). split.
  { unfold σ3, σ2, σ1. by rewrite <- !app_assoc. }
  intros new [= <-]. split.
  { unfold σ3, σ2, σ1. rewrite !length_app. lia. }
  apply drop_rows_missing_Ok in E1 as (Hzip0 & Hc1 & Hrows1).
  pose proof (drop_columns_Ok _ _ _ E2) as [Hall _].
  apply drop_columns_rows in E2 as (Hn2 & Hrows2).
  apply drop_rows_missing_Ok in E9 as (_ & Hc9 & Hrows9).
  apply drop_rows_missing_Ok in E10 as (_ & Hc10 & Hrows10).
  assert (Hn1 : names d1 = names df) by (unfold names; by rewrite Hc1).
  assert (Hsub : forall c, c ∈ names d2 -> c ∈ names df).
  { intros c. rewrite Hn2, <- Hn1. by intros [_ ?]%list_elem_of_filter. }
  split.
  { intros c Hc. unfold categorical_columns in Hc.
    repeat (apply elem_of_cons in Hc as [->|Hc]); [..|by apply elem_of_nil in Hc].
    - done.
    - rewrite <- Hn1. apply (proj1 (Forall_forall _ _) Hall). by left.
    - rewrite <- Hn1. apply (proj1 (Forall_forall _ _) Hall). right. by left.
    - apply Hsub. by apply getitem_Ok in E3 as [? _].
    - apply Hsub. by rewrite <- Hn3.
    - apply Hsub. by rewrite <- Hn3, <- Hn4.
    - apply Hsub. by rewrite <- Hn3, <- Hn4, <- Hn5.
    - apply Hsub. by rewrite <- Hn3, <- Hn4, <- Hn5, <- Hn6.
    - apply Hsub. by rewrite <- Hn3, <- Hn4, <- Hn5, <- Hn6, <- Hn7. }
  exists d10. split.
  { replace (σ ++ [d1; d8; d9; d10]) with (σ3 ++ [d10]); [apply lookup_snoc|].
    unfold σ3, σ2, σ1. by rewrite <- !app_assoc. }
  split.
  { unfold names at 1. rewrite Hc10, Hc9. fold (names d8).
    rewrite Hn8, Hn7, Hn6, Hn5, Hn4, Hn3, Hn2. unfold names. by rewrite Hc1. }
  intros i r10 Hin10.
  destruct (Hrows10 i r10 Hin10) as [Hin9 Hcity].
  destruct (Hrows9 i r10 Hin9) as [Hin8 Hhn].
  destruct (Hr8 i r10 Hin8) as (r7 & Hin7 & H8).
  destruct (Hr7 i r7 Hin7) as (r6 & Hin6 & H7).
  destruct (Hr6 i r6 Hin6) as (r5 & Hin5 & H6).
  destruct (Hr5 i r5 Hin5) as (r4 & Hin4 & E5).
  destruct (Hr4 i r4 Hin4) as (r3 & Hin3 & E4).
  rewrite Hr3 in Hin3. apply list_elem_of_fmap in Hin3 as [[j r2] [Heq3 Hin2]].
  cbn [fst snd] in Heq3. injection Heq3 as -> E3'.
  rewrite Hrows2 in Hin2. apply list_elem_of_fmap in Hin2 as [[j1 r1] [Heq2 Hin1]].
  cbn [fst snd] in Heq2. injection Heq2 as -> E2'.
  destruct (Hrows1 j1 r1 Hin1) as [Hin0 Hzip].
  assert (Hcell : forall c, r10 !!! c = r5 !!! c \/
                            c ∈ ["market"; "host_neighbourhood"; "city"]).
  { intros c.
    destruct (decide (c ∈ ["market"; "host_neighbourhood"; "city"])) as [|Hc];
      [by right|left].
    rewrite H8, H7, H6; [done|intros ->; apply Hc..].
    - by left.
    - right. by left.
    - do 2 right. by left. }
  assert (Hr2 : forall c, c ∉ ["host_location"; "neighbourhood"] -> r2 !!! c = r1 !!! c).
  { intros c Hc. rewrite E2'.
    by apply (foldr_delete_lookup_total r1 ["host_location"; "neighbourhood"]). }
  assert (Hsum : r5 !!! "summary" =
                 (if isna (r1 !!! "summary") then Text "missing" else r1 !!! "summary")).
  { rewrite E5, E4, E3'. rewrite !lookup_total_insert_ne by done.
    rewrite lookup_total_insert_eq. rewrite Hr2; [done|by_decide]. }
  assert (Hpt : r5 !!! "property_type" =
                (if isna (r1 !!! "property_type") then v4 else r1 !!! "property_type")).
  { rewrite E5, E4, E3'. rewrite lookup_total_insert_ne by done.
    rewrite lookup_total_insert_eq. rewrite lookup_total_insert_ne by done.
    rewrite Hr2; [done|by_decide]. }
  assert (Hhrt : r5 !!! "host_response_time" =
                 (if isna (r1 !!! "host_response_time") then v5
                  else r1 !!! "host_response_time")).
  { rewrite E5, E4, E3'. rewrite lookup_total_insert_eq.
    rewrite !lookup_total_insert_ne by done. rewrite Hr2; [done|by_decide]. }
  assert (Hzip5 : r5 !!! "zipcode" = r1 !!! "zipcode").
  { rewrite E5, E4, E3'. rewrite !lookup_total_insert_ne by done.
    rewrite Hr2; [done|by_decide]. }
  assert (H10 : forall c, c ∉ ["market"; "host_neighbourhood"; "city"] ->
                          r10 !!! c = r5 !!! c).
  { intros c Hc. by destruct (Hcell c). }
  split.
  - intros c Hc. repeat (apply elem_of_cons in Hc as [->|Hc]);
      [| | | |done|done|by apply elem_of_nil in Hc].
    + rewrite H10, Hzip5 by by_decide. done.
    + rewrite H10, Hsum by by_decide. by destruct (isna (r1 !!! "summary")) eqn:E.
    + rewrite H10, Hpt by by_decide.
      by destruct (isna (r1 !!! "property_type")) eqn:E.
    + rewrite H10, Hhrt by by_decide.
      by destruct (isna (r1 !!! "host_response_time")) eqn:E.
  - exists r1. split; [done|]. split; [done|].
    split; [by rewrite H10, Hsum by by_decide|]. split.
    + intros c Hc Hna. repeat (apply elem_of_cons in Hc as [->|Hc]);
        [| |by apply elem_of_nil in Hc].
      * rewrite H10, Hpt by by_decide. by rewrite Hna.
      * rewrite H10, Hhrt by by_decide. by rewrite Hna.
    + intros c Hc. rewrite H10 by (by apply (not_elem_of_weaken _ _ _ Hc); by_decide).
      rewrite E5, E4, E3'.
      rewrite !lookup_total_insert_ne by (intros <-; apply Hc; by_decide).
      apply Hr2. apply (not_elem_of_weaken _ _ _ Hc). by_decide.
Qed.

(** X25. The table [handle_categorical] returns has the columns of the input
    but host_location and neighbourhood, in their order, and no null in
    zipcode, summary, property_type, host_response_time, host_neighbourhood
    and city (market alone may keep nulls). *)
Theorem handle_categorical_no_nulls σ dataframe df σ' new :
  σ !! dataframe = Some df ->
  handle_categorical dataframe σ = (σ', Ok new) ->
  exists df',
    σ' !! new = Some df' /\
    names df' = filter (fun c => c ∉ ["host_location"; "neighbourhood"]) (names df) /\
    forall i r, (i, r) ∈ rows df' ->
      forall c, c ∈ ["zipcode"; "summary"; "property_type"; "host_response_time";
                     "host_neighbourhood"; "city"] ->
                isna (r !!! c) = false.
Proof.
  intros Hσ Hrun.
  destruct (handle_categorical_full σ dataframe) as (ext & res & Hrun' & Hres).
  rewrite Hrun in Hrun'. injection Hrun' as -> <-.
  destruct (Hres new eq_refl) as (_ & _ & df' & Hdf' & Hn & Hrows).
  rewrite (lookup_total_store _ _ _ Hσ) in Hn.
  exists df'. split; [done|]. split; [done|].
  intros i r Hin. by destruct (Hrows i r Hin) as [Hnn _].
Qed.

(** X26. Every row of the table [handle_categorical] returns comes from a
    row of the input with the same label and a zipcode. Its summary is the
    word missing where the input had none; property_type and
    host_response_time are kept where the input had a value; and every
    column other than the two dropped and the six imputed ones is as it
    was. *)
Theorem handle_categorical_rows σ dataframe df σ' new :
  σ !! dataframe = Some df ->
  handle_categorical dataframe σ = (σ', Ok new) ->
  exists df',
    σ' !! new = Some df' /\
    forall i r', (i, r') ∈ rows df' ->
      exists r,
        (i, r) ∈ rows df /\
        isna (r !!! "zipcode") = false /\
        r' !!! "summary" =
          (if isna (r !!! "summary") then Text "missing" else r !!! "summary") /\
        (forall c, c ∈ ["property_type"; "host_response_time"] ->
                   isna (r !!! c) = false -> r' !!! c = r !!! c) /\
        forall c, c ∉ ["host_location"; "neighbourhood"; "summary"; "property_type";
                       "host_response_time"; "market"; "host_neighbourhood"; "city"] ->
                  r' !!! c = r !!! c.
Proof.
  intros Hσ Hrun.
  destruct (handle_categorical_full σ dataframe) as (ext & res & Hrun' & Hres).
  rewrite Hrun in Hrun'. injection Hrun' as -> <-.
  destruct (Hres new eq_refl) as (_ & _ & df' & Hdf' & _ & Hrows).
  rewrite (lookup_total_store _ _ _ Hσ) in Hrows.
  exists df'. split; [done|].
  intros i r' Hin. by destruct (Hrows i r' Hin) as [_ Hfrom].
Qed.

(** X27. [handle_categorical] raises an error on a table that lacks one of
    the nine columns it reads. *)
Theorem handle_categorical_missing_column σ dataframe df c :
  σ !! dataframe = Some df ->
  c ∈ categorical_columns -> c ∉ names df ->
  exists σ' e, handle_categorical dataframe σ = (σ', Raise e).
Proof.
  intros Hσ Hc Hmiss.
  destruct (handle_categorical_full σ dataframe) as (ext & res & Hrun & Hres).
  destruct res as [new|e]; [|by eexists _, _].
  destruct (Hres new eq_refl) as (_ & Hall & _).
  rewrite (lookup_total_store _ _ _ Hσ) in Hall. destruct Hmiss. by apply Hall.
Qed.

(** ** Listing the columns with nulls *)

(** X28. [columns_missing_list] lists, in the order of the table, exactly the
    columns of the given dtype that hold a null in some row. *)
Theorem columns_missing_list_spec (df : DataFrame cell) t :
  columns_missing_list df t `sublist_of` names df /\
  forall c, c ∈ columns_missing_list df t <->
            (c, t) ∈ columns df /\
            exists i r, (i, r) ∈ rows df /\ isna (r !!! c) = true.
Proof.
  split; [|intros c; apply elem_of_columns_missing_list].
  unfold columns_missing_list, isnull_sum_columns. cbv zeta.
  etrans; [apply fmap_sublist, sublist_filter|].
  rewrite <- list_fmap_compose.
  replace (fmap _ (names (select_dtypes df t))) with (names (select_dtypes df t));
    last first.
  { symmetry. etrans; [|apply list_fmap_id]. by apply list_fmap_ext. }
  unfold names, select_dtypes. cbn [columns]. apply fmap_sublist, sublist_filter.
Qed.

(** ** The pipeline *)

Section clean_data_more.
Variable str_to_float : string -> option Qc.

(** X29. When the table has a price column with a cell that is not a string
    (a null, or a number), [clean_data] raises a TypeError at its first step
    and leaves every table as it was. *)
Theorem clean_data_type_error σ dataframe df i r :
  σ !! dataframe = Some df ->
  "price" ∈ names df ->
  (i, r) ∈ rows df -> (forall s, r !!! "price" <> Text s) ->
  clean_data str_to_float dataframe σ = (σ, Raise TypeError).
Proof.
  intros Hσ Hprice Hin Hne. unfold clean_data. cbv zeta. cbn [for_].
  rewrite bind_run, bind_run, try_except_run.
  rewrite (bind_read _ _ _ _ Hσ).
  destruct (getitem_in df "price" Hprice) as (t & _ & Hget). rewrite Hget.
  rewrite bind_lift_Ok.
  unfold money_to_numeric. cbn [s_items].
  rewrite (money_to_numeric_items_raise _ (r !!! "price")); [done| |done].
  rewrite <- list_fmap_compose. apply list_elem_of_fmap. by exists (i, r).
Qed.

Lemma clean_data_full (σ : store) dataframe df :
  (dataframe < length σ)%nat ->
  exists cur ext res,
    clean_data str_to_float dataframe (<[dataframe := df]> σ) =
      (<[dataframe := cur]> σ ++ ext, res) /\
    forall new, res = Ok new ->
      names cur = filter (fun c => c ∉ redundant_columns) (names df) /\
      exists df', (<[dataframe := cur]> σ ++ ext) !! new = Some df' /\
                  categorical_full cur df'.
Proof.
  intros Hr. unfold clean_data. cbv zeta.
  rewrite bind_run.
  destruct (for_shape (fun d => <[dataframe := d]> σ) (fun d => names d = names df)
              ["price"; "extra_people"]
              (fun column =>
                 try_except
                   (df0 ← read dataframe; s ← lift (getitem df0 column);
                    s0 ← lift (money_to_numeric s);
                    s1 ← lift (to_numeric str_to_float s0);
                    write dataframe (setitem df0 column s1))
                   KeyError (mret tt)))
    with df as (res & d1 & -> & Hd1); [|done|].
  { intros x d _ Hd.
    destruct (normalize_step str_to_float σ dataframe d x money_to_numeric Hr)
      as (res & d' & Hrun & Hn). exists res, d'. split; [done|congruence]. }
  destruct res as [[]|e]; last first.
  { exists d1, [], (Raise e). by rewrite app_nil_r. }
  rewrite bind_run.
  destruct (for_shape (fun d => <[dataframe := d]> σ) (fun d => names d = names df)
              ["host_response_rate"; "host_acceptance_rate"]
              (fun column =>
                 try_except
                   (df0 ← read dataframe; s ← lift (getitem df0 column);
                    s0 ← lift (percentage_to_numeric s);
                    s1 ← lift (to_numeric str_to_float s0);
                    write dataframe (setitem df0 column s1))
                   KeyError (mret tt)))
    with d1 as (res & d2 & -> & Hd2); [|done|].
  { intros x d _ Hd.
    destruct (normalize_step str_to_float σ dataframe d x percentage_to_numeric Hr)
      as (res & d' & Hrun & Hn). exists res, d'. split; [done|congruence]. }
  destruct res as [[]|e]; last first.
  { exists d2, [], (Raise e). by rewrite app_nil_r. }
  rewrite bind_run.
  rewrite (handle_repetitive_data_run _ _ d2 (lookup_insert_store σ dataframe d2 Hr)).
  rewrite list_insert_insert_eq.
  set (d3 := drop_duplicates _).
  assert (Hd3 : names d3 = filter (fun c => c ∉ redundant_columns) (names df)).
  { unfold d3. by rewrite names_drop_duplicates, names_foldl_drop_if_present, Hd2. }
  clearbody d3. rewrite bind_run.
  rewrite (handle_numeric_run _ _ d3 "median" (lookup_insert_store σ dataframe d3 Hr)).
  rewrite list_insert_insert_eq.
  set (d4 := foldl _ d3 _).
  assert (Hd4 : names d4 = names d3) by apply names_foldl_impute_column.
  clearbody d4. rewrite bind_run.
  destruct (handle_categorical_full (<[dataframe := d4]> σ) dataframe)
    as (ext & res & -> & Hres).
  exists d4, ext. destruct res as [new|e]; [|by exists (Raise e)].
  rewrite ret_run. exists (Ok new). split; [done|].
  intros ? [= <-]. destruct (Hres new eq_refl) as (_ & _ & df' & Hdf' & Hcat).
  split; [by rewrite Hd4|]. exists df'. split; [done|].
  by rewrite (list_lookup_total_correct _ _ _ (lookup_insert_store σ dataframe d4 Hr))
    in Hcat.
Qed.

(** X30. The table [clean_data] returns has the columns of the input but the
    four redundant ones and host_location and neighbourhood, in their order,
    and holds no null in zipcode, summary, property_type, host_response_time,
    host_neighbourhood and city. *)
Theorem clean_data_result σ dataframe df σ' new :
  σ !! dataframe = Some df ->
  clean_data str_to_float dataframe σ = (σ', Ok new) ->
  exists df',
    σ' !! new = Some df' /\
    names df' =
      filter (fun c => c ∉ redundant_columns ++ ["host_location"; "neighbourhood"])
             (names df) /\
    forall i r, (i, r) ∈ rows df' ->
      forall c, c ∈ ["zipcode"; "summary"; "property_type"; "host_response_time";
                     "host_neighbourhood"; "city"] ->
                isna (r !!! c) = false.
Proof.
  intros Hσ Hrun.
  assert (Hr : (dataframe < length σ)%nat) by (by eapply lookup_lt_Some).
  destruct (clean_data_full σ dataframe df Hr) as (cur & ext & res & Hrun' & Hres).
  rewrite (list_insert_id σ dataframe df Hσ) in Hrun'.
  rewrite Hrun in Hrun'. injection Hrun' as -> <-.
  destruct (Hres new eq_refl) as (Hcur & df' & Hdf' & Hn & Hrows).
  exists df'. split; [done|]. split.
  - rewrite Hn, Hcur, list_filter_filter. apply filter_ext_in.
    intros c _. rewrite elem_of_app. tauto.
  - intros i r Hin. by destruct (Hrows i r Hin) as [Hnn _].
Qed.

End clean_data_more.

(** ** The properties on example tables *)

Lemma drop_missing_zero_divisor_witness :
  drop_missing 0%nat false (Q2Qc (1 # 4)) [no_listings] =
    ([no_listings] ++ [no_listings], Ok (length [no_listings])).
Proof.
  apply (drop_missing_zero_divisor [no_listings] 0%nat no_listings false (Q2Qc (1 # 4)));
    reflexivity.
Defined.

Lemma drop_missing_keeps_all_witness :
  drop_missing 0%nat true (Q2Qc 1) [markets_by_zip] =
    ([markets_by_zip] ++ [markets_by_zip], Ok (length [markets_by_zip])).
Proof.
  apply (drop_missing_keeps_all [markets_by_zip] 0%nat markets_by_zip true (Q2Qc 1)).
  - reflexivity.
  - left. by_decide.
Defined.

Lemma drop_missing_idempotent_witness :
  exists new,
    drop_missing 0%nat true (Q2Qc (1 # 4)) [markets_by_zip] =
      ([markets_by_zip] ++ [new], Ok (length [markets_by_zip])) /\
    drop_missing (length [markets_by_zip]) true (Q2Qc (1 # 4)) ([markets_by_zip] ++ [new]) =
      (([markets_by_zip] ++ [new]) ++ [new], Ok (length ([markets_by_zip] ++ [new]))).
Proof.
  apply (drop_missing_idempotent [markets_by_zip] 0%nat markets_by_zip true (Q2Qc (1 # 4))).
  reflexivity.
Defined.

Lemma handle_repetitive_data_result_witness :
  exists df',
    handle_repetitive_data 0%nat [listings_without_zipcode] =
      (<[0%nat := df']> [listings_without_zipcode], Ok 0%nat) /\
    names df' = filter (fun c => c ∉ redundant_columns) (names listings_without_zipcode) /\
    index df' `sublist_of` index listings_without_zipcode /\
    forall i r', (i, r') ∈ rows df' ->
      exists r, (i, r) ∈ rows listings_without_zipcode /\
                forall c, c ∉ redundant_columns -> r' !!! c = r !!! c.
Proof.
  apply (handle_repetitive_data_result [listings_without_zipcode] 0%nat
           listings_without_zipcode).
  reflexivity.
Defined.


Lemma handle_repetitive_data_idempotent_witness :
  exists df',
    handle_repetitive_data 0%nat [listings_without_zipcode] =
      (<[0%nat := df']> [listings_without_zipcode], Ok 0%nat) /\
    handle_repetitive_data 0%nat (<[0%nat := df']> [listings_without_zipcode]) =
      (<[0%nat := df']> [listings_without_zipcode], Ok 0%nat).
Proof.
  apply (handle_repetitive_data_idempotent [listings_without_zipcode] 0%nat
           listings_without_zipcode).
  reflexivity.
Defined.

Lemma handle_numeric_result_witness :
  exists df',
    handle_numeric 0%nat "median" [all_null_bathrooms] =
      (<[0%nat := df']> [all_null_bathrooms], Ok 0%nat) /\
    names df' = names all_null_bathrooms /\
    index df' = index all_null_bathrooms /\
    forall k i r, rows all_null_bathrooms !! k = Some (i, r) ->
      exists r', rows df' !! k = Some (i, r') /\
        forall c, r' !!! c =
          if isna (r !!! c) && bool_decide ((c, number) ∈ columns all_null_bathrooms)
          then statistic (if decide ("median" = "median") then np_median else np_mean)
                 all_null_bathrooms c
          else r !!! c.
Proof.
  apply (handle_numeric_result [all_null_bathrooms] 0%nat all_null_bathrooms "median").
  reflexivity.
Defined.

Lemma handle_numeric_no_null_left_witness :
  exists df',
    handle_numeric 0%nat "median" [all_null_bathrooms] =
      (<[0%nat := df']> [all_null_bathrooms], Ok 0%nat) /\
    forall i r, (i, r) ∈ rows df' -> isna (r !!! "beds") = false.
Proof.
  apply (handle_numeric_no_null_left [all_null_bathrooms] 0%nat all_null_bathrooms
           "median" "beds").
  - reflexivity.
  - by_decide.
  - exists 1%Z, (row_of [("bathrooms", Null); ("beds", Num (Q2Qc 1))]), (Q2Qc 1).
    split; [by_decide|reflexivity].
Defined.

Lemma handle_numeric_twice_witness :
  exists df' df'',
    handle_numeric 0%nat "median" [all_null_bathrooms] =
      (<[0%nat := df']> [all_null_bathrooms], Ok 0%nat) /\
    handle_numeric 0%nat "median" (<[0%nat := df']> [all_null_bathrooms]) =
      (<[0%nat := df'']> [all_null_bathrooms], Ok 0%nat) /\
    names df'' = names df' /\
    index df'' = index df' /\
    forall k i r', rows df' !! k = Some (i, r') ->
      exists r'', rows df'' !! k = Some (i, r'') /\ forall c, r'' !!! c = r' !!! c.
Proof.
  apply (handle_numeric_twice [all_null_bathrooms] 0%nat all_null_bathrooms "median").
  reflexivity.
Defined.

Lemma money_to_numeric_strings_witness :
  exists out,
    money_to_numeric clean_prices = Ok out /\
    s_index out = s_index clean_prices /\
    forall k s, s_values clean_prices !! k = Some (Text s) ->
      exists s', s_values out !! k = Some (Text s') /\
                 s' = remove_char ","%char (tail_str s) /\
                 (","%char ∉ String.list_ascii_of_string s') /\
                 (","%char ∉ String.list_ascii_of_string s -> s' = tail_str s).
Proof.
  apply (money_to_numeric_strings clean_prices).
  intros x Hx. cbn in Hx.
  repeat (apply elem_of_cons in Hx as [->|Hx]); [by eexists..|by apply elem_of_nil in Hx].
Defined.

Lemma money_to_numeric_type_error_witness :
  money_to_numeric prices = Raise TypeError.
Proof.
  apply (money_to_numeric_type_error prices Null); [by_decide|discriminate].
Defined.


Lemma get_mode_raises_witness :
  get_mode property_types "room_type" = Raise KeyError /\
  get_mode no_property_types "property_type" = Raise IndexError /\
  get_mode all_null_bathrooms "beds" = Raise KeyError.
Proof.
  split; [|split].
  - apply (proj1 (get_mode_raises property_types "room_type")). by_decide.
  - apply (proj1 (proj2 (get_mode_raises no_property_types "property_type")));
      [reflexivity|].
    apply (rows_Forall (fun _ r => isna (r !!! "property_type") = true)). by_decide.
  - apply (proj2 (proj2 (get_mode_raises all_null_bathrooms "beds"))); [reflexivity|].
    apply (rows_Forall (fun _ r => r !!! "beds" <> Num (Q2Qc 0))). by_decide.
Defined.


Lemma search_similar_zip_result_witness :
  exists v,
    search_similar_zip markets_by_zip "market" (Text "90210") = Ok v /\
    (v = Null <->
     forall i r, (i, r) ∈ rows markets_by_zip ->
                 eq_cell (r !!! "zipcode") (Text "90210") = true ->
                 isna (r !!! "market") = true) /\
    (Text "90210" = Null -> v = Null) /\
    (v <> Null ->
     (exists i r, (i, r) ∈ rows markets_by_zip /\ r !!! "zipcode" = Text "90210" /\
                  r !!! "market" = v) /\
     forall w, (count w (dropna (zip_group (rows markets_by_zip) "market" (Text "90210")))
                <= count v (dropna (zip_group (rows markets_by_zip) "market"
                                      (Text "90210"))))%nat).
Proof.
  apply (search_similar_zip_result markets_by_zip "market" (Text "90210")); by_decide.
Defined.

Lemma search_similar_zip_key_error_witness :
  search_similar_zip property_types "property_type" (Text "90210") = Raise KeyError.
Proof.
  apply (search_similar_zip_key_error property_types "property_type" (Text "90210")).
  right. by_decide.
Defined.

Lemma get_mode_by_zip_key_error_witness :
  get_mode_by_zip 0%nat "property_type" [property_types] =
    ([property_types], Raise KeyError).
Proof.
  apply (get_mode_by_zip_key_error [property_types] 0%nat property_types "property_type").
  - reflexivity.
  - right. by_decide.
Defined.

Lemma get_mode_by_zip_frame_witness :
  exists df',
    get_mode_by_zip 0%nat "market" [markets_by_zip] =
      (<[0%nat := df']> [markets_by_zip], Ok 0%nat) /\
    names df' = names markets_by_zip /\
    index df' = index markets_by_zip /\
    forall k i r, rows markets_by_zip !! k = Some (i, r) ->
      exists r', rows df' !! k = Some (i, r') /\
                 (isna (r !!! "market") = false -> r' = r) /\
                 forall c, c <> "market" -> r' !!! c = r !!! c.
Proof.
  apply (get_mode_by_zip_frame [markets_by_zip] 0%nat markets_by_zip "market").
  - reflexivity.
  - by_decide.
  - by_decide.
  - by_decide.
  - discriminate.
Defined.

Lemma get_mode_by_zip_idempotent_witness :
  exists df',
    get_mode_by_zip 0%nat "market" [markets_by_zip] =
      (<[0%nat := df']> [markets_by_zip], Ok 0%nat) /\
    get_mode_by_zip 0%nat "market" (<[0%nat := df']> [markets_by_zip]) =
      (<[0%nat := df']> [markets_by_zip], Ok 0%nat).
Proof.
  apply (get_mode_by_zip_idempotent [markets_by_zip] 0%nat markets_by_zip "market").
  - reflexivity.
  - by_decide.
  - by_decide.
  - by_decide.
  - discriminate.
Defined.

Lemma get_df_from_column_raises_witness :
  get_df_from_column letters "amenities" id = Raise KeyError /\
  get_df_from_column price_with_null "price" id = Raise TypeError.
Proof.
  split.
  - apply (proj1 (get_df_from_column_raises letters "amenities" id)). by_decide.
  - apply (proj2 (get_df_from_column_raises price_with_null "price" id)); [by_decide|].
    exists 2%Z, (row_of [("price", Null)]). split; [by_decide|discriminate].
Defined.

Lemma get_df_from_column_indicators_witness :
  exists out,
    get_df_from_column letters "letters" id = Ok out /\
    names out =
      "letters" :: all_tokens letters "letters" id ++
      (if decide (String.append "number_of_" "letters" ∈ all_tokens letters "letters" id)
       then [] else [String.append "number_of_" "letters"]) /\
    Sorted str_le (all_tokens letters "letters" id) /\
    NoDup (all_tokens letters "letters" id) /\
    (forall v, v ∈ all_tokens letters "letters" id <->
               exists i r, (i, r) ∈ rows letters /\ v ∈ tokens_of id (r !!! "letters")) /\
    index out = index letters /\
    forall k i r, rows letters !! k = Some (i, r) ->
      exists r',
        rows out !! k = Some (i, r') /\
        r' !!! "letters" = Tokens (tokens_of id (r !!! "letters")) /\
        r' !!! String.append "number_of_" "letters" =
          Int (Z.of_nat (length (tokens_of id (r !!! "letters")))) /\
        forall v, v ∈ all_tokens letters "letters" id ->
                  v <> String.append "number_of_" "letters" ->
                  r' !!! v = indicator v (tokens_of id (r !!! "letters")).
Proof.
  apply (get_df_from_column_indicators letters "letters" id).
  - by_decide.
  - apply (rows_Forall (fun _ r => exists s, r !!! "letters" = Text s)).
    repeat constructor; by eexists.
  - discriminate.
  - by_decide.
Defined.

Lemma align_dataframes_result_witness :
  exists d2',
    align_dataframes 0%nat 1%nat [markets_by_zip; raw_listings] =
      (<[1%nat := d2']> [markets_by_zip; raw_listings], Ok 1%nat) /\
    columns d2' = filter (fun p => p.1 ∈ names markets_by_zip) (columns raw_listings) /\
    (forall c, c ∈ names d2' <-> c ∈ names raw_listings /\ c ∈ names markets_by_zip) /\
    index d2' = index raw_listings /\
    forall k i r, rows raw_listings !! k = Some (i, r) ->
      exists r', rows d2' !! k = Some (i, r') /\
                 forall c, c ∈ names markets_by_zip -> r' !!! c = r !!! c.
Proof.
  apply (align_dataframes_result [markets_by_zip; raw_listings] 0%nat 1%nat
           markets_by_zip raw_listings); reflexivity.
Defined.

Lemma align_dataframes_aligned_witness :
  align_dataframes 0%nat 1%nat [raw_listings; markets_by_zip] =
    ([raw_listings; markets_by_zip], Ok 1%nat).
Proof.
  apply (align_dataframes_aligned [raw_listings; markets_by_zip] 0%nat 1%nat
           raw_listings markets_by_zip); [reflexivity|reflexivity|].
  intros c Hc. cbn in Hc.
  repeat (apply elem_of_cons in Hc as [->|Hc]); [by_decide..|by apply elem_of_nil in Hc].
Defined.

Lemma handle_categorical_no_nulls_witness :
  exists df',
    (handle_categorical 0%nat [raw_listings]).1 !! 4%nat = Some df' /\
    names df' =
      filter (fun c => c ∉ ["host_location"; "neighbourhood"]) (names raw_listings) /\
    forall i r, (i, r) ∈ rows df' ->
      forall c, c ∈ ["zipcode"; "summary"; "property_type"; "host_response_time";
                     "host_neighbourhood"; "city"] ->
                isna (r !!! c) = false.
Proof.
  apply (handle_categorical_no_nulls [raw_listings] 0%nat raw_listings).
  - reflexivity.
  - vm_compute. reflexivity.
Defined.

Lemma handle_categorical_rows_witness :
  exists df',
    (handle_categorical 0%nat [raw_listings]).1 !! 4%nat = Some df' /\
    forall i r', (i, r') ∈ rows df' ->
      exists r,
        (i, r) ∈ rows raw_listings /\
        isna (r !!! "zipcode") = false /\
        r' !!! "summary" =
          (if isna (r !!! "summary") then Text "missing" else r !!! "summary") /\
        (forall c, c ∈ ["property_type"; "host_response_time"] ->
                   isna (r !!! c) = false -> r' !!! c = r !!! c) /\
        forall c, c ∉ ["host_location"; "neighbourhood"; "summary"; "property_type";
                       "host_response_time"; "market"; "host_neighbourhood"; "city"] ->
                  r' !!! c = r !!! c.
Proof.
  apply (handle_categorical_rows [raw_listings] 0%nat raw_listings).
  - reflexivity.
  - vm_compute. reflexivity.
Defined.

Lemma handle_categorical_missing_column_witness :
  exists σ' e, handle_categorical 0%nat [listings_without_zipcode] = (σ', Raise e).
Proof.
  apply (handle_categorical_missing_column [listings_without_zipcode] 0%nat
           listings_without_zipcode "zipcode").
  - reflexivity.
  - by_decide.
  - by_decide.
Defined.

Lemma clean_data_type_error_witness :
  clean_data parse_decimal 0%nat [price_with_null] = ([price_with_null], Raise TypeError).
Proof.
  apply (clean_data_type_error parse_decimal [price_with_null] 0%nat price_with_null
           2%Z (row_of [("price", Null)])).
  - reflexivity.
  - by_decide.
  - by_decide.
  - discriminate.
Defined.

Lemma clean_data_result_witness :
  exists df',
    (clean_data parse_decimal 0%nat [raw_listings]).1 !! 4%nat = Some df' /\
    names df' =
      filter (fun c => c ∉ redundant_columns ++ ["host_location"; "neighbourhood"])
             (names raw_listings) /\
    forall i r, (i, r) ∈ rows df' ->
      forall c, c ∈ ["zipcode"; "summary"; "property_type"; "host_response_time";
                     "host_neighbourhood"; "city"] ->
                isna (r !!! c) = false.
Proof.
  apply (clean_data_result parse_decimal [raw_listings] 0%nat raw_listings).
  - reflexivity.
  - vm_compute. reflexivity.
Defined.
